(** * format_file_word: configuration model and DOCX formatting engine

    A shallow embedding of [formatter.py], and of the download name of
    [app.py].

    - Python values that travel through JSON are an inductive type
      [value]; the dataclasses are records whose fields hold such values
      (a dataclass stores what it is given; it does not check the
      annotations).  A [dict] is an association list in insertion order.
    - Exceptions are explicit: [result] for pure code, and the state and
      exception monad [M] for code that mutates the document, so that the
      mutations made before a [raise] are kept.
    - [float] is IEEE-754 binary64 ([spec_float] at precision 53).
    - The document is python-docx's object model, reduced to the XML
      properties the program reads and writes.  Each library operation the
      program calls is one definition, named after the library member and
      carrying the checks that member makes ([docx.text.font.Font],
      [docx.text.paragraph.Paragraph], [docx.dml.color.ColorFormat],
      the simple types of [docx.oxml], lxml's [_Element.set]).
    - [json.dumps] and [json.loads] are parameters, and so are
      [Document(...)] and [doc.save] of the pipeline.

    Definitions come first; the lemmas and the theorems on the claims
    follow, grouped by component. *)

From Stdlib Require Import ZArith String Ascii List Bool Lia.
From Stdlib Require Import Floats.SpecFloat.
From stdpp Require Import base option list gmap strings pretty.
From Equations Require Import Equations.
Import ListNotations.
Local Open Scope string_scope.
Set Warnings "-register-all".
Local Set Default Proof Using "Type".

(* ===================================================================== *)
(** * Python values, exceptions, built-ins *)
(* ===================================================================== *)

Module Py.

(** The exception classes the program can meet. *)
Inductive exn : Type :=
| TypeError | ValueError | AttributeError | KeyError | IndexError
| OverflowError | JSONDecodeError.

Inductive result (A : Type) : Type :=
| Ok (a : A)
| Raise (e : exn).
Arguments Ok {A} a.
Arguments Raise {A} e.

Definition rbind {A B} (r : result A) (k : A -> result B) : result B :=
  match r with
  | Ok a => k a
  | Raise e => Raise e
  end.

Definition is_ok {A} (r : result A) : bool :=
  match r with Ok _ => true | Raise _ => false end.

(** IEEE-754 binary64, as CPython's [float]. *)
Definition prec : Z := 53.
Definition emax : Z := 1024.
Definition float_of_Z (n : Z) : spec_float := binary_normalize prec emax n 0 false.
(** The float nearest to the decimal literal [num/den] (both exactly
    representable, correctly rounded division). *)
Definition flt (num den : Z) : spec_float :=
  SFdiv prec emax (float_of_Z num) (float_of_Z den).

(** The values [json.loads] can produce and [json.dumps] accepts. *)
Inductive value : Type :=
| VNone
| VBool (b : bool)
| VInt (n : Z)
| VFloat (f : spec_float)
| VStr (s : string)
| VList (l : list value)
| VDict (items : list (string * value)).

(** A [dict] with string keys, in insertion order. *)
Definition dict : Type := list (string * value).

(** [bool(v)] *)
Definition truthy (v : value) : bool :=
  match v with
  | VNone => false
  | VBool b => b
  | VInt n => negb (n =? 0)%Z
  | VFloat f => negb (SFeqb f (S754_zero false))
  | VStr s => negb (String.eqb s "")
  | VList l => match l with [] => false | _ => true end
  | VDict d => match d with [] => false | _ => true end
  end.

(** [isinstance(v, dict)] *)
Definition isinstance_dict (v : value) : bool :=
  match v with VDict _ => true | _ => false end.

(** [d.get(k)] *)
Fixpoint dict_get (k : string) (d : dict) : option value :=
  match d with
  | [] => None
  | (k', v) :: rest => if String.eqb k k' then Some v else dict_get k rest
  end.

(** [d[k] = v]: overwrite in place, or append a new key. *)
Fixpoint dict_set (k : string) (v : value) (d : dict) : dict :=
  match d with
  | [] => [(k, v)]
  | (k', v') :: rest =>
      if String.eqb k k' then (k, v) :: rest else (k', v') :: dict_set k v rest
  end.

Definition dict_keys (d : dict) : list string := map fst d.

(** [int(x)] for a float: truncation toward zero. *)
Definition int_of_float (f : spec_float) : result Z :=
  match f with
  | S754_zero _ => Ok 0%Z
  | S754_nan => Raise ValueError
  | S754_infinity _ => Raise OverflowError
  | S754_finite s m e =>
      let mag := match e with
                 | Z0 => Zpos m
                 | Zpos p => Z.shiftl (Zpos m) (Zpos p)
                 | Zneg p => Z.shiftr (Zpos m) (Zpos p)
                 end in
      Ok (if s then Z.opp mag else mag)
  end.

(** [int(x * k)] for a numeric [x] and an int constant [k]
    (the pattern of [docx.shared.Pt] and [docx.shared.Cm]). *)
Definition int_of_scaled (x : value) (k : Z) : result Z :=
  match x with
  | VFloat f => int_of_float (SFmul prec emax f (float_of_Z k))
  | VInt n => Ok (n * k)%Z
  | VBool b => Ok (if b then k else 0%Z)
  | VStr _ => Raise ValueError
  | _ => Raise TypeError
  end.

(** [int(x)] *)
Definition py_int (x : value) : result Z :=
  match x with
  | VFloat f => int_of_float f
  | VInt n => Ok n
  | VBool b => Ok (if b then 1%Z else 0%Z)
  | VStr _ => Raise ValueError
  | _ => Raise TypeError
  end.

(** ** [str] methods (on code units; ASCII case mapping) *)

Definition upper_ascii (c : ascii) : ascii :=
  let n := nat_of_ascii c in
  if (97 <=? n)%nat && (n <=? 122)%nat then ascii_of_nat (n - 32) else c.

Definition lower_ascii (c : ascii) : ascii :=
  let n := nat_of_ascii c in
  if (65 <=? n)%nat && (n <=? 90)%nat then ascii_of_nat (n + 32) else c.

Fixpoint str_map (f : ascii -> ascii) (s : string) : string :=
  match s with
  | EmptyString => EmptyString
  | String c s' => String (f c) (str_map f s')
  end.

Definition upper : string -> string := str_map upper_ascii.
Definition lower : string -> string := str_map lower_ascii.

(** [s[i:]] *)
Fixpoint str_drop (i : nat) (s : string) : string :=
  match i, s with
  | O, _ => s
  | S i', EmptyString => EmptyString
  | S i', String _ s' => str_drop i' s'
  end.

(** [s[:n]] *)
Fixpoint str_take (n : nat) (s : string) : string :=
  match n, s with
  | O, _ => EmptyString
  | S n', EmptyString => EmptyString
  | S n', String c s' => String c (str_take n' s')
  end.

(** [s[i:j]] *)
Definition slice (s : string) (i j : nat) : string :=
  str_take (j - i) (str_drop i s).

(** [s.startswith(p, i)] *)
Definition startswith (s p : string) (i : nat) : bool :=
  (i <=? String.length s)%nat && String.prefix p (str_drop i s).

(** [needle in hay] *)
Fixpoint contains (needle hay : string) : bool :=
  String.prefix needle hay ||
  match hay with
  | EmptyString => false
  | String _ hay' => contains needle hay'
  end.

(** [s.split(sep, 1)] for a one-character separator: the part before the
    first separator and, when there is one, the part after it. *)
Fixpoint split_once (sep : ascii) (s : string) : string * option string :=
  match s with
  | EmptyString => (EmptyString, None)
  | String c s' =>
      if Ascii.eqb c sep then (EmptyString, Some s')
      else let '(a, b) := split_once sep s' in (String c a, b)
  end.

End Py.
Import Py.

#[global] Instance result_ret : MRet result := @Ok.
#[global] Instance result_bind : MBind result := fun A B k r => rbind r k.
#[global] Instance result_fmap : FMap result := fun A B f r => rbind r (fun a => Ok (f a)).

(* ===================================================================== *)
(** * The configuration model *)
(* ===================================================================== *)

Definition PAGE_NUMBER_POSITION : list string :=
  ["FOOTER_LEFT"; "FOOTER_CENTER"; "FOOTER_RIGHT";
   "HEADER_LEFT"; "HEADER_CENTER"; "HEADER_RIGHT"].

(** ** The dataclasses.  Field values are Python objects: the generated
    [__init__] stores whatever it is given. *)

Record StyleConfig : Type := mkStyleConfig {
  font_name : value;
  font_size_pt : value;
  bold : value;
  italic : value;
  color_hex : value;
  line_spacing : value;
  space_before_pt : value;
  space_after_pt : value;
  first_line_indent_cm : value;
  alignment : value;
  keep_with_next : value;
  page_break_before : value
}.

Record PageSetupConfig : Type := mkPageSetupConfig {
  paper : value;
  margin_left_cm : value;
  margin_right_cm : value;
  margin_top_cm : value;
  margin_bottom_cm : value;
  header_distance_cm : value;
  footer_distance_cm : value;
  different_first_page : value
}.

Record PageNumberConfig : Type := mkPageNumberConfig {
  enabled : value;
  position : value;
  template : value;
  start_at : value;
  restart_each_section : value;
  number_format : value;
  pn_font_name : value;
  pn_font_size_pt : value
}.

Record TocConfig : Type := mkTocConfig {
  insert_toc : value;
  heading_levels : value;
  toc_title : value;
  title_bold : value;
  title_font_size_pt : value;
  title_alignment : value
}.

Record ProcessingConfig : Type := mkProcessingConfig {
  force_run_font_everywhere : value;
  force_paragraph_format_everywhere : value;
  include_tables : value
}.

Record ReportConfig : Type := mkReportConfig {
  normal : StyleConfig;
  title : StyleConfig;
  heading1 : StyleConfig;
  heading2 : StyleConfig;
  heading3 : StyleConfig;
  caption : StyleConfig;
  pagesetup : PageSetupConfig;
  pagenumber : PageNumberConfig;
  toc : TocConfig;
  processing : ProcessingConfig
}.

(** ** Field defaults, as in the class bodies *)

Definition StyleConfig_default : StyleConfig := {|
  font_name := VStr "Times New Roman";
  font_size_pt := VFloat (flt 13 1);
  bold := VBool false;
  italic := VBool false;
  color_hex := VNone;
  line_spacing := VFloat (flt 15 10);
  space_before_pt := VFloat (flt 0 1);
  space_after_pt := VFloat (flt 6 1);
  first_line_indent_cm := VFloat (flt 1 1);
  alignment := VStr "JUSTIFY";
  keep_with_next := VBool false;
  page_break_before := VBool false
|}.

Definition PageSetupConfig_default : PageSetupConfig := {|
  paper := VStr "A4_PORTRAIT";
  margin_left_cm := VFloat (flt 35 10);
  margin_right_cm := VFloat (flt 2 1);
  margin_top_cm := VFloat (flt 2 1);
  margin_bottom_cm := VFloat (flt 2 1);
  header_distance_cm := VFloat (flt 125 100);
  footer_distance_cm := VFloat (flt 125 100);
  different_first_page := VBool false
|}.

Definition PageNumberConfig_default : PageNumberConfig := {|
  enabled := VBool true;
  position := VStr "FOOTER_CENTER";
  template := VStr "Trang {PAGE}/{NUMPAGES}";
  start_at := VInt 1;
  restart_each_section := VBool false;
  number_format := VStr "DECIMAL";
  pn_font_name := VStr "Times New Roman";
  pn_font_size_pt := VFloat (flt 11 1)
|}.

(** The title default is the UTF-8 text of the Vietnamese for
    "table of contents". *)
Definition TocConfig_default : TocConfig := {|
  insert_toc := VBool false;
  heading_levels := VStr "1-3";
  toc_title := VStr "MỤC LỤC";
  title_bold := VBool true;
  title_font_size_pt := VFloat (flt 14 1);
  title_alignment := VStr "CENTER"
|}.

Definition ProcessingConfig_default : ProcessingConfig := {|
  force_run_font_everywhere := VBool true;
  force_paragraph_format_everywhere := VBool true;
  include_tables := VBool true
|}.

Definition ReportConfig_default : ReportConfig := {|
  normal := StyleConfig_default;
  title := {| font_name := VStr "Times New Roman";
              font_size_pt := VFloat (flt 16 1);
              bold := VBool true;
              italic := VBool false;
              color_hex := VNone;
              line_spacing := VFloat (flt 12 10);
              space_before_pt := VFloat (flt 0 1);
              space_after_pt := VFloat (flt 12 1);
              first_line_indent_cm := VFloat (flt 0 1);
              alignment := VStr "CENTER";
              keep_with_next := VBool false;
              page_break_before := VBool false |};
  heading1 := {| font_name := VStr "Times New Roman";
                 font_size_pt := VFloat (flt 14 1);
                 bold := VBool true;
                 italic := VBool false;
                 color_hex := VNone;
                 line_spacing := VFloat (flt 12 10);
                 space_before_pt := VFloat (flt 12 1);
                 space_after_pt := VFloat (flt 6 1);
                 first_line_indent_cm := VFloat (flt 0 1);
                 alignment := VStr "LEFT";
                 keep_with_next := VBool true;
                 page_break_before := VBool false |};
  heading2 := {| font_name := VStr "Times New Roman";
                 font_size_pt := VFloat (flt 13 1);
                 bold := VBool true;
                 italic := VBool false;
                 color_hex := VNone;
                 line_spacing := VFloat (flt 12 10);
                 space_before_pt := VFloat (flt 10 1);
                 space_after_pt := VFloat (flt 4 1);
                 first_line_indent_cm := VFloat (flt 0 1);
                 alignment := VStr "LEFT";
                 keep_with_next := VBool true;
                 page_break_before := VBool false |};
  heading3 := {| font_name := VStr "Times New Roman";
                 font_size_pt := VFloat (flt 13 1);
                 bold := VBool true;
                 italic := VBool true;
                 color_hex := VNone;
                 line_spacing := VFloat (flt 12 10);
                 space_before_pt := VFloat (flt 8 1);
                 space_after_pt := VFloat (flt 4 1);
                 first_line_indent_cm := VFloat (flt 0 1);
                 alignment := VStr "LEFT";
                 keep_with_next := VBool true;
                 page_break_before := VBool false |};
  caption := {| font_name := VStr "Times New Roman";
                font_size_pt := VFloat (flt 11 1);
                bold := VBool false;
                italic := VBool true;
                color_hex := VNone;
                line_spacing := VFloat (flt 1 1);
                space_before_pt := VFloat (flt 6 1);
                space_after_pt := VFloat (flt 6 1);
                first_line_indent_cm := VFloat (flt 0 1);
                alignment := VStr "CENTER";
                keep_with_next := VBool false;
                page_break_before := VBool false |};
  pagesetup := PageSetupConfig_default;
  pagenumber := PageNumberConfig_default;
  toc := TocConfig_default;
  processing := ProcessingConfig_default
|}.

(** ** [dataclasses.asdict]: one [dict] per record, fields in declaration
    order.  Field values of the [value] domain are copied unchanged. *)

Definition asdict_StyleConfig (c : StyleConfig) : value :=
  VDict [("font_name", font_name c); ("font_size_pt", font_size_pt c);
         ("bold", bold c); ("italic", italic c); ("color_hex", color_hex c);
         ("line_spacing", line_spacing c);
         ("space_before_pt", space_before_pt c);
         ("space_after_pt", space_after_pt c);
         ("first_line_indent_cm", first_line_indent_cm c);
         ("alignment", alignment c); ("keep_with_next", keep_with_next c);
         ("page_break_before", page_break_before c)].

Definition asdict_PageSetupConfig (c : PageSetupConfig) : value :=
  VDict [("paper", paper c); ("margin_left_cm", margin_left_cm c);
         ("margin_right_cm", margin_right_cm c);
         ("margin_top_cm", margin_top_cm c);
         ("margin_bottom_cm", margin_bottom_cm c);
         ("header_distance_cm", header_distance_cm c);
         ("footer_distance_cm", footer_distance_cm c);
         ("different_first_page", different_first_page c)].

Definition asdict_PageNumberConfig (c : PageNumberConfig) : value :=
  VDict [("enabled", enabled c); ("position", position c);
         ("template", template c); ("start_at", start_at c);
         ("restart_each_section", restart_each_section c);
         ("number_format", number_format c);
         ("font_name", pn_font_name c); ("font_size_pt", pn_font_size_pt c)].

Definition asdict_TocConfig (c : TocConfig) : value :=
  VDict [("insert_toc", insert_toc c); ("heading_levels", heading_levels c);
         ("title", toc_title c); ("title_bold", title_bold c);
         ("title_font_size_pt", title_font_size_pt c);
         ("title_alignment", title_alignment c)].

Definition asdict_ProcessingConfig (c : ProcessingConfig) : value :=
  VDict [("force_run_font_everywhere", force_run_font_everywhere c);
         ("force_paragraph_format_everywhere",
          force_paragraph_format_everywhere c);
         ("include_tables", include_tables c)].

Definition cfg_to_dict (cfg : ReportConfig) : dict :=
  [("normal", asdict_StyleConfig (normal cfg));
   ("title", asdict_StyleConfig (title cfg));
   ("heading1", asdict_StyleConfig (heading1 cfg));
   ("heading2", asdict_StyleConfig (heading2 cfg));
   ("heading3", asdict_StyleConfig (heading3 cfg));
   ("caption", asdict_StyleConfig (caption cfg));
   ("pagesetup", asdict_PageSetupConfig (pagesetup cfg));
   ("pagenumber", asdict_PageNumberConfig (pagenumber cfg));
   ("toc", asdict_TocConfig (toc cfg));
   ("processing", asdict_ProcessingConfig (processing cfg))].

(** The ten keys of a serialized [ReportConfig]. *)
Definition SECTION_KEYS : list string :=
  ["normal"; "title"; "heading1"; "heading2"; "heading3"; "caption";
   "pagesetup"; "pagenumber"; "toc"; "processing"].

(** ** [deep_merge] *)

Fixpoint deep_merge (a : dict) (b : value) {struct b} : result dict :=
  match b with
  | VDict items =>
      (fix loop (out : dict) (its : list (string * value)) {struct its}
         : result dict :=
         match its with
         | [] => Ok out
         | (k, v) :: rest =>
             if isinstance_dict v && from_option isinstance_dict false (dict_get k out)
             then
               match dict_get k out with
               | Some (VDict ak) =>
                   sub ← deep_merge ak v; loop (dict_set k (VDict sub) out) rest
               | _ => loop (dict_set k v out) rest
               end
             else loop (dict_set k v out) rest
         end) a items
  | _ =>
      (* [(b or {}).items()]: a falsy [b] counts as the empty dict, any
         other non-dict has no [items] *)
      if truthy b then Raise AttributeError else Ok a
  end.

(** ** Record construction from a dict of keyword arguments *)

Definition kwarg (name : string) (default : value) (kw : dict) : value :=
  match dict_get name kw with
  | Some v => v
  | None => default
  end.

(** Every key of [kw] names a field. *)
Definition known_kwargs (fields : list string) (kw : dict) : bool :=
  forallb (fun k => existsb (String.eqb k) fields) (dict_keys kw).

Definition StyleConfig_fields : list string :=
  ["font_name"; "font_size_pt"; "bold"; "italic"; "color_hex"; "line_spacing";
   "space_before_pt"; "space_after_pt"; "first_line_indent_cm"; "alignment";
   "keep_with_next"; "page_break_before"].

Definition PageSetupConfig_fields : list string :=
  ["paper"; "margin_left_cm"; "margin_right_cm"; "margin_top_cm";
   "margin_bottom_cm"; "header_distance_cm"; "footer_distance_cm";
   "different_first_page"].

Definition PageNumberConfig_fields : list string :=
  ["enabled"; "position"; "template"; "start_at"; "restart_each_section";
   "number_format"; "font_name"; "font_size_pt"].

Definition TocConfig_fields : list string :=
  ["insert_toc"; "heading_levels"; "title"; "title_bold";
   "title_font_size_pt"; "title_alignment"].

Definition ProcessingConfig_fields : list string :=
  ["force_run_font_everywhere"; "force_paragraph_format_everywhere";
   "include_tables"].

(** Unpacking needs a mapping; a keyword that is not a field is a [TypeError];
    a missing keyword takes the field default. *)
Definition build_style (x : value) : result StyleConfig :=
  match x with
  | VDict kw =>
      if known_kwargs StyleConfig_fields kw then
        let d := StyleConfig_default in
        Ok {| font_name := kwarg "font_name" (font_name d) kw;
              font_size_pt := kwarg "font_size_pt" (font_size_pt d) kw;
              bold := kwarg "bold" (bold d) kw;
              italic := kwarg "italic" (italic d) kw;
              color_hex := kwarg "color_hex" (color_hex d) kw;
              line_spacing := kwarg "line_spacing" (line_spacing d) kw;
              space_before_pt := kwarg "space_before_pt" (space_before_pt d) kw;
              space_after_pt := kwarg "space_after_pt" (space_after_pt d) kw;
              first_line_indent_cm :=
                kwarg "first_line_indent_cm" (first_line_indent_cm d) kw;
              alignment := kwarg "alignment" (alignment d) kw;
              keep_with_next := kwarg "keep_with_next" (keep_with_next d) kw;
              page_break_before :=
                kwarg "page_break_before" (page_break_before d) kw |}
      else Raise TypeError
  | _ => Raise TypeError
  end.

Definition build_pagesetup (x : value) : result PageSetupConfig :=
  match x with
  | VDict kw =>
      if known_kwargs PageSetupConfig_fields kw then
        let d := PageSetupConfig_default in
        Ok {| paper := kwarg "paper" (paper d) kw;
              margin_left_cm := kwarg "margin_left_cm" (margin_left_cm d) kw;
              margin_right_cm := kwarg "margin_right_cm" (margin_right_cm d) kw;
              margin_top_cm := kwarg "margin_top_cm" (margin_top_cm d) kw;
              margin_bottom_cm :=
                kwarg "margin_bottom_cm" (margin_bottom_cm d) kw;
              header_distance_cm :=
                kwarg "header_distance_cm" (header_distance_cm d) kw;
              footer_distance_cm :=
                kwarg "footer_distance_cm" (footer_distance_cm d) kw;
              different_first_page :=
                kwarg "different_first_page" (different_first_page d) kw |}
      else Raise TypeError
  | _ => Raise TypeError
  end.

Definition build_pagenumber (x : value) : result PageNumberConfig :=
  match x with
  | VDict kw =>
      if known_kwargs PageNumberConfig_fields kw then
        let d := PageNumberConfig_default in
        Ok {| enabled := kwarg "enabled" (enabled d) kw;
              position := kwarg "position" (position d) kw;
              template := kwarg "template" (template d) kw;
              start_at := kwarg "start_at" (start_at d) kw;
              restart_each_section :=
                kwarg "restart_each_section" (restart_each_section d) kw;
              number_format := kwarg "number_format" (number_format d) kw;
              pn_font_name := kwarg "font_name" (pn_font_name d) kw;
              pn_font_size_pt := kwarg "font_size_pt" (pn_font_size_pt d) kw |}
      else Raise TypeError
  | _ => Raise TypeError
  end.

Definition build_toc (x : value) : result TocConfig :=
  match x with
  | VDict kw =>
      if known_kwargs TocConfig_fields kw then
        let d := TocConfig_default in
        Ok {| insert_toc := kwarg "insert_toc" (insert_toc d) kw;
              heading_levels := kwarg "heading_levels" (heading_levels d) kw;
              toc_title := kwarg "title" (toc_title d) kw;
              title_bold := kwarg "title_bold" (title_bold d) kw;
              title_font_size_pt :=
                kwarg "title_font_size_pt" (title_font_size_pt d) kw;
              title_alignment :=
                kwarg "title_alignment" (title_alignment d) kw |}
      else Raise TypeError
  | _ => Raise TypeError
  end.

Definition build_processing (x : value) : result ProcessingConfig :=
  match x with
  | VDict kw =>
      if known_kwargs ProcessingConfig_fields kw then
        let d := ProcessingConfig_default in
        Ok {| force_run_font_everywhere :=
                kwarg "force_run_font_everywhere"
                      (force_run_font_everywhere d) kw;
              force_paragraph_format_everywhere :=
                kwarg "force_paragraph_format_everywhere"
                      (force_paragraph_format_everywhere d) kw;
              include_tables := kwarg "include_tables" (include_tables d) kw |}
      else Raise TypeError
  | _ => Raise TypeError
  end.

(** [merged[k]] *)
Definition getitem (k : string) (d : dict) : result value :=
  match dict_get k d with
  | Some v => Ok v
  | None => Raise KeyError
  end.

Definition cfg_from_dict (d : value) : result ReportConfig :=
  let default := cfg_to_dict ReportConfig_default in
  merged ← deep_merge default d;
  c_normal ← getitem "normal" merged ≫= build_style;
  c_title ← getitem "title" merged ≫= build_style;
  c_heading1 ← getitem "heading1" merged ≫= build_style;
  c_heading2 ← getitem "heading2" merged ≫= build_style;
  c_heading3 ← getitem "heading3" merged ≫= build_style;
  c_caption ← getitem "caption" merged ≫= build_style;
  c_pagesetup ← getitem "pagesetup" merged ≫= build_pagesetup;
  c_pagenumber ← getitem "pagenumber" merged ≫= build_pagenumber;
  c_toc ← getitem "toc" merged ≫= build_toc;
  c_processing ← getitem "processing" merged ≫= build_processing;
  Ok {| normal := c_normal; title := c_title; heading1 := c_heading1;
        heading2 := c_heading2; heading3 := c_heading3; caption := c_caption;
        pagesetup := c_pagesetup; pagenumber := c_pagenumber; toc := c_toc;
        processing := c_processing |}.

(** ** JSON transport.  [json.dumps(..., ensure_ascii=False,
    indent=2).encode("utf-8")] and [json.loads(data.decode("utf-8"))] belong
    to the Python standard library; they are the section's parameters. *)

Section Json.
Variable json_dumps : value -> string.
Variable json_loads : string -> result value.

Definition load_config_json_bytes (data : string) : result ReportConfig :=
  d ← json_loads data;
  cfg_from_dict d.

Definition save_config_json_bytes (cfg : ReportConfig) : string :=
  json_dumps (VDict (cfg_to_dict cfg)).
End Json.

(* ===================================================================== *)
(** * Template tokenizer *)
(* ===================================================================== *)

Definition inspect {A} (a : A) : {b : A | a = b} := exist _ a eq_refl.

(** The inner [while] of [_split_template]: from [j], advance while inside
    the template and no placeholder starts at [j]. *)
Equations? scan_literal (tmpl : string) (j : nat) : nat
  by wf (String.length tmpl - j) lt :=
  scan_literal tmpl j
    with inspect ((j <? String.length tmpl)%nat
                  && negb (startswith tmpl "{PAGE}" j)
                  && negb (startswith tmpl "{NUMPAGES}" j)) := {
    | exist _ true Hc => scan_literal tmpl (j + 1)
    | exist _ false _ => j }.
Proof.
  apply andb_prop in Hc as [Hc _]. apply andb_prop in Hc as [Hc _].
  apply Nat.ltb_lt in Hc. lia.
Qed.

(** The outer [while]: the tokens produced from index [i] on. *)
Equations? split_loop (tmpl : string) (i : nat) : list string
  by wf (String.length tmpl - i) lt :=
  split_loop tmpl i with inspect (i <? String.length tmpl)%nat := {
    | exist _ false _ => []
    | exist _ true Hi with inspect (startswith tmpl "{PAGE}" i) := {
        | exist _ true _ =>
            "{PAGE}" :: split_loop tmpl (i + String.length "{PAGE}")
        | exist _ false Hp with inspect (startswith tmpl "{NUMPAGES}" i) := {
            | exist _ true _ =>
                "{NUMPAGES}"
                  :: split_loop tmpl (i + String.length "{NUMPAGES}")
            | exist _ false Hn =>
                let j := scan_literal tmpl i in
                slice tmpl i j :: split_loop tmpl j } } }.
Proof.
  - apply Nat.ltb_lt in Hi. simpl. lia.
  - apply Nat.ltb_lt in Hi. simpl. lia.
  - assert (Hmono : forall t k, k <= scan_literal t k).
    { clear. intros t k. funelim (scan_literal t k); lia. }
    assert (Hstep : scan_literal tmpl i = scan_literal tmpl (i + 1)).
    { rewrite scan_literal_equation_1.
      destruct (inspect _) as [[] Hb]; simp scan_literal; [reflexivity|].
      rewrite Hi, Hp, Hn in Hb. discriminate. }
    apply Nat.ltb_lt in Hi. specialize (Hmono tmpl (i + 1)). lia.
Qed.

Definition _split_template (tmpl : string) : list string :=
  split_loop tmpl 0.

(* ===================================================================== *)
(** * State and exceptions *)
(* ===================================================================== *)

(** A computation that mutates an object of type [S] and either returns or
    raises; the object keeps the mutations made before a raise. *)
Definition M (S A : Type) : Type := S -> result A * S.

#[global] Instance M_ret {S} : MRet (M S) := fun A a s => (Ok a, s).
#[global] Instance M_bind {S} : MBind (M S) := fun A B k m s =>
  match m s with
  | (Ok a, s') => k a s'
  | (Raise e, s') => (Raise e, s')
  end.

Definition mraise {S A} (e : exn) : M S A := fun s => (Raise e, s).
Definition mget {S} : M S S := fun s => (Ok s, s).
Definition mmodify {S} (f : S -> S) : M S unit := fun s => (Ok tt, f s).
Definition lift {S A} (r : result A) : M S A := fun s => (r, s).

(** [try: body / except Exception: pass] *)
Definition try_pass {S} (body : M S unit) : M S unit := fun s =>
  match body s with
  | (_, s') => (Ok tt, s')
  end.

(** Run a computation on a component of the state. *)
Definition zoom {S T A} (get : S -> T) (put : T -> S -> S) (m : M T A) : M S A :=
  fun s => match m (get s) with (r, t') => (r, put t' s) end.

(** [for x in xs: body(x)], the body mutating the state. *)
Fixpoint for_in {S X} (xs : list X) (body : X -> M S unit) : M S unit :=
  match xs with
  | [] => mret tt
  | x :: rest => body x ;; for_in rest body
  end.

(* ===================================================================== *)
(** * The document object model (python-docx over lxml)

    The proxies are modelled by the XML properties the program reads and
    writes, together with the checks the library makes on assignment. *)
(* ===================================================================== *)

Module Docx.

(** [docx.shared.Length]: an [int] count of English Metric Units. *)
Definition Length : Type := Z.
Definition Pt (points : value) : result Length := int_of_scaled points 12700.
Definition Cm (cm : value) : result Length := int_of_scaled cm 360000.

Inductive WD_ALIGN_PARAGRAPH : Type := LEFT | CENTER | RIGHT | JUSTIFY.
Inductive WD_LINE_SPACING : Type := MULTIPLE | EXACTLY | AT_LEAST.

(** lxml refuses text that XML 1.0 cannot carry: control characters
    other than tab, line feed and carriage return, the non-characters
    U+FFFE and U+FFFF and the surrogate block (in UTF-8). *)
Definition forbidden3 (c : ascii) (rest : string) : bool :=
  match rest with
  | String c2 (String c3 _) =>
      let n := (N_of_ascii c * 65536 + N_of_ascii c2 * 256 + N_of_ascii c3)%N in
      (n =? 0xefbfbe)%N || (n =? 0xefbfbf)%N
      || ((0xeda080 <=? n)%N && (n <=? 0xedbfbf)%N)
  | _ => false
  end.

Definition xml_char (c : ascii) : bool :=
  let n := N_of_ascii c in
  (32 <=? n)%N || (n =? 9)%N || (n =? 10)%N || (n =? 13)%N.

Fixpoint xml_compatible (s : string) : bool :=
  match s with
  | EmptyString => true
  | String c rest =>
      (if (N_of_ascii c <? 128)%N then xml_char c else negb (forbidden3 c rest))
      && xml_compatible rest
  end.

(** [element.set(name, v)] of lxml. *)
Definition attr_value (v : value) : result string :=
  match v with
  | VStr s => if xml_compatible s then Ok s else Raise ValueError
  | _ => Raise TypeError
  end.

(** Range checks of the XML simple types behind length attributes. *)
Definition check_unsigned (n : Z) : result Z :=
  if (0 <=? n)%Z && (n <=? 18446744073709551615)%Z then Ok n
  else Raise ValueError.
Definition check_int32 (n : Z) : result Z :=
  if (-2147483648 <=? n)%Z && (n <=? 2147483647)%Z then Ok n
  else Raise ValueError.

(** An on/off property accepts [None] (remove) and whatever equals
    [True] or [False]. *)
Definition onoff (v : value) : result (option bool) :=
  match v with
  | VNone => Ok None
  | VBool b => Ok (Some b)
  | VInt n => if (n =? 0)%Z then Ok (Some false)
              else if (n =? 1)%Z then Ok (Some true) else Raise TypeError
  | VFloat f => if SFeqb f (float_of_Z 0) then Ok (Some false)
                else if SFeqb f (float_of_Z 1) then Ok (Some true)
                else Raise TypeError
  | _ => Raise TypeError
  end.

(** *** Character properties ([w:rPr]) behind a [Font] proxy *)

Record Font : Type := mkFont {
  rFonts : gmap string string;        (* attributes of [w:rFonts] *)
  sz : option Length;
  f_bold : option bool;
  f_italic : option bool;
  color : option (option string)      (* [w:color] and its [w:val] *)
}.

Definition Font_empty : Font :=
  {| rFonts := ∅; sz := None; f_bold := None; f_italic := None;
     color := None |}.

Definition set_rFonts (x : gmap string string) (f : Font) : Font :=
  {| rFonts := x; sz := sz f; f_bold := f_bold f; f_italic := f_italic f;
     color := color f |}.
Definition set_sz (x : option Length) (f : Font) : Font :=
  {| rFonts := rFonts f; sz := x; f_bold := f_bold f; f_italic := f_italic f;
     color := color f |}.
Definition set_f_bold (x : option bool) (f : Font) : Font :=
  {| rFonts := rFonts f; sz := sz f; f_bold := x; f_italic := f_italic f;
     color := color f |}.
Definition set_f_italic (x : option bool) (f : Font) : Font :=
  {| rFonts := rFonts f; sz := sz f; f_bold := f_bold f; f_italic := x;
     color := color f |}.
Definition set_color (x : option (option string)) (f : Font) : Font :=
  {| rFonts := rFonts f; sz := sz f; f_bold := f_bold f;
     f_italic := f_italic f; color := x |}.

(** [font.name = v]: writes [w:ascii] and [w:hAnsi]; [None] removes
    [w:rFonts]. *)
Definition Font_name_set (v : value) : M Font unit :=
  match v with
  | VNone => mmodify (set_rFonts ∅)
  | _ =>
      s ← lift (attr_value v);
      mmodify (fun f => set_rFonts (<["w:hAnsi" := s]> (<["w:ascii" := s]> (rFonts f))) f)
  end.

(** [font.size = length] *)
Definition Font_size_set (len : Length) : M Font unit :=
  n ← lift (check_unsigned len);
  mmodify (set_sz (Some n)).

(** [font.bold = v], [font.italic = v] *)
Definition Font_bold_set (v : value) : M Font unit :=
  b ← lift (onoff v); mmodify (set_f_bold b).
Definition Font_italic_set (v : value) : M Font unit :=
  b ← lift (onoff v); mmodify (set_f_italic b).

(** [font_element.rFonts] on a [Font] proxy.  The proxy
    ([docx.text.font.Font]) offers [name], [size], [bold], [italic],
    [color] and the other character properties; [w:rFonts] is a child of
    the [w:rPr] element and is not an attribute of the proxy. *)
Definition Font_rFonts : M Font unit := mraise AttributeError.

(** [r._r.get_or_add_rPr().get_or_add_rFonts()] on the run element. *)
Definition get_or_add_rFonts : M Font unit := mret tt.

(** [rFonts.set(qn(name), v)] *)
Definition rFonts_set (name : string) (v : value) : M Font unit :=
  s ← lift (attr_value v);
  mmodify (fun f => set_rFonts (<[name := s]> (rFonts f)) f).

(** What the program hands to [font.color.rgb]. *)
Inductive color_arg : Type :=
| ArgNone
| ArgRGBColor (r g b : N)
| ArgBytes (bs : list N).

Definition hex_digit (n : N) : ascii :=
  ascii_of_N (if (n <? 10)%N then 48 + n else 55 + n).
Definition hex_byte (n : N) : string :=
  String (hex_digit (n / 16)) (String (hex_digit (n mod 16)) EmptyString).

(** [font.color.rgb = v].  The setter removes an existing [w:color],
    adds a fresh one and assigns its [w:val], which must be an
    [RGBColor]; any other object is a [ValueError], raised after the old
    element is gone. *)
Definition ColorFormat_rgb_set (v : color_arg) : M Font unit :=
  f ← mget;
  match v, color f with
  | ArgNone, None => mret tt
  | ArgNone, Some _ => mmodify (set_color None)
  | ArgRGBColor r g b, _ =>
      mmodify (set_color (Some (Some (hex_byte r +:+ hex_byte g +:+ hex_byte b))))
  | ArgBytes _, _ =>
      mmodify (set_color (Some None)) ;; mraise ValueError
  end.

(** *** Paragraph properties ([w:pPr]) behind a [ParagraphFormat] proxy *)

Record ParagraphFormat : Type := mkParagraphFormat {
  spacing_line : option (Length * WD_LINE_SPACING);
  space_before : option Length;
  space_after : option Length;
  first_line_indent : option Length;
  pf_alignment : option WD_ALIGN_PARAGRAPH;
  pf_keep_with_next : option bool;
  pf_page_break_before : option bool
}.

Definition ParagraphFormat_empty : ParagraphFormat :=
  {| spacing_line := None; space_before := None; space_after := None;
     first_line_indent := None; pf_alignment := None;
     pf_keep_with_next := None; pf_page_break_before := None |}.

Definition set_spacing_line x (p : ParagraphFormat) : ParagraphFormat :=
  {| spacing_line := x; space_before := space_before p;
     space_after := space_after p; first_line_indent := first_line_indent p;
     pf_alignment := pf_alignment p; pf_keep_with_next := pf_keep_with_next p;
     pf_page_break_before := pf_page_break_before p |}.
Definition set_space_before x (p : ParagraphFormat) : ParagraphFormat :=
  {| spacing_line := spacing_line p; space_before := x;
     space_after := space_after p; first_line_indent := first_line_indent p;
     pf_alignment := pf_alignment p; pf_keep_with_next := pf_keep_with_next p;
     pf_page_break_before := pf_page_break_before p |}.
Definition set_space_after x (p : ParagraphFormat) : ParagraphFormat :=
  {| spacing_line := spacing_line p; space_before := space_before p;
     space_after := x; first_line_indent := first_line_indent p;
     pf_alignment := pf_alignment p; pf_keep_with_next := pf_keep_with_next p;
     pf_page_break_before := pf_page_break_before p |}.
Definition set_first_line_indent x (p : ParagraphFormat) : ParagraphFormat :=
  {| spacing_line := spacing_line p; space_before := space_before p;
     space_after := space_after p; first_line_indent := x;
     pf_alignment := pf_alignment p; pf_keep_with_next := pf_keep_with_next p;
     pf_page_break_before := pf_page_break_before p |}.
Definition set_pf_alignment x (p : ParagraphFormat) : ParagraphFormat :=
  {| spacing_line := spacing_line p; space_before := space_before p;
     space_after := space_after p; first_line_indent := first_line_indent p;
     pf_alignment := x; pf_keep_with_next := pf_keep_with_next p;
     pf_page_break_before := pf_page_break_before p |}.
Definition set_pf_keep_with_next x (p : ParagraphFormat) : ParagraphFormat :=
  {| spacing_line := spacing_line p; space_before := space_before p;
     space_after := space_after p; first_line_indent := first_line_indent p;
     pf_alignment := pf_alignment p; pf_keep_with_next := x;
     pf_page_break_before := pf_page_break_before p |}.
Definition set_pf_page_break_before x (p : ParagraphFormat) : ParagraphFormat :=
  {| spacing_line := spacing_line p; space_before := space_before p;
     space_after := space_after p; first_line_indent := first_line_indent p;
     pf_alignment := pf_alignment p; pf_keep_with_next := pf_keep_with_next p;
     pf_page_break_before := x |}.

(** [pf.line_spacing = v] for a number: a multiple of 12 pt lines. *)
Definition line_spacing_set (v : value) : M ParagraphFormat unit :=
  match v with
  | VNone => mmodify (set_spacing_line None)
  | _ =>
      emu ← lift (int_of_scaled v 152400 ≫= check_int32);
      mmodify (set_spacing_line (Some (emu, MULTIPLE)))
  end.

(** [pf.space_before = length], [pf.space_after = length] *)
Definition space_before_set (len : Length) : M ParagraphFormat unit :=
  n ← lift (check_unsigned len); mmodify (set_space_before (Some n)).
Definition space_after_set (len : Length) : M ParagraphFormat unit :=
  n ← lift (check_unsigned len); mmodify (set_space_after (Some n)).

(** [pf.first_line_indent = v]: a negative length is stored as a
    hanging indent and read back negative. *)
Definition first_line_indent_set (v : option Length) : M ParagraphFormat unit :=
  match v with
  | None => mmodify (set_first_line_indent None)
  | Some len =>
      mmodify (set_first_line_indent None) ;;
      _ ← lift (check_unsigned (Z.abs len));
      mmodify (set_first_line_indent (Some len))
  end.

Definition alignment_set (a : WD_ALIGN_PARAGRAPH) : M ParagraphFormat unit :=
  mmodify (set_pf_alignment (Some a)).

Definition keep_with_next_set (v : value) : M ParagraphFormat unit :=
  b ← lift (onoff v); mmodify (set_pf_keep_with_next b).
Definition page_break_before_set (v : value) : M ParagraphFormat unit :=
  b ← lift (onoff v); mmodify (set_pf_page_break_before b).

End Docx.
Import Docx.

Module DocxTree.

(** *** Runs, paragraphs, tables *)

Inductive RunItem : Type :=
| RText (s : string)
| RBreak.

Record Run : Type := mkRun {
  r_content : list RunItem;
  r_font : Font
}.

Definition set_r_font (x : Font) (r : Run) : Run :=
  {| r_content := r_content r; r_font := x |}.
Definition set_r_content (x : list RunItem) (r : Run) : Run :=
  {| r_content := x; r_font := r_font r |}.

(** The children of [w:p] next to [w:pPr]. *)
Inductive Inline : Type :=
| IRun (r : Run)
| IFldSimple (instr : string) (shown : string).

(** [pStyle] is the name of the style the paragraph's [w:pStyle]
    resolves to, [None] for a paragraph without one. *)
Record Paragraph : Type := mkParagraph {
  pStyle : option string;
  pf : ParagraphFormat;
  inlines : list Inline
}.

Definition set_pf (x : ParagraphFormat) (p : Paragraph) : Paragraph :=
  {| pStyle := pStyle p; pf := x; inlines := inlines p |}.
Definition set_inlines (x : list Inline) (p : Paragraph) : Paragraph :=
  {| pStyle := pStyle p; pf := pf p; inlines := x |}.

Definition Paragraph_empty : Paragraph :=
  {| pStyle := None; pf := ParagraphFormat_empty; inlines := [] |}.

(** A table: rows of cells, each cell a list of paragraphs. *)
Definition Table : Type := list (list (list Paragraph)).

Inductive Block : Type :=
| BPara (p : Paragraph)
| BTable (t : Table).

(** *** Styles, sections, the document *)

Record Style : Type := mkStyle {
  st_font : Font;
  st_pf : ParagraphFormat
}.

Definition set_st_font (x : Font) (s : Style) : Style :=
  {| st_font := x; st_pf := st_pf s |}.
Definition set_st_pf (x : ParagraphFormat) (s : Style) : Style :=
  {| st_font := st_font s; st_pf := x |}.

(** A section: its [w:pgNumType] child (attribute map) when present, and
    its own header and footer definitions; [None] means linked to the
    previous section. *)
Record Section : Type := mkSection {
  pgNumType : option (gmap string string);
  header : option (list Block);
  footer : option (list Block)
}.

Definition set_pgNumType x (s : Section) : Section :=
  {| pgNumType := x; header := header s; footer := footer s |}.
Definition set_header x (s : Section) : Section :=
  {| pgNumType := pgNumType s; header := x; footer := footer s |}.
Definition set_footer x (s : Section) : Section :=
  {| pgNumType := pgNumType s; header := header s; footer := x |}.

(** [styles] is keyed by style name; [default_style] names the default
    paragraph style, if the document has one. *)
Record Document : Type := mkDocument {
  styles : gmap string Style;
  default_style : option string;
  body : list Block;
  sections : list Section
}.

Definition set_styles x (d : Document) : Document :=
  {| styles := x; default_style := default_style d; body := body d;
     sections := sections d |}.
Definition set_body x (d : Document) : Document :=
  {| styles := styles d; default_style := default_style d; body := x;
     sections := sections d |}.
Definition set_sections x (d : Document) : Document :=
  {| styles := styles d; default_style := default_style d; body := body d;
     sections := x |}.

(** [p.style.name], [None] when [p.style] is [None]. *)
Definition style_name (dflt : option string) (p : Paragraph) : option string :=
  match pStyle p with
  | Some n => Some n
  | None => dflt
  end.

(** *** Paragraph operations *)

(** [paragraph.add_run(text)]: a new [w:r] is appended, then
    [if text: run.text = text]. *)
Definition add_run (text : string) : M Paragraph unit :=
  mmodify (fun p => set_inlines
    (inlines p ++ [IRun {| r_content := []; r_font := Font_empty |}])%list p) ;;
  if String.eqb text "" then mret tt
  else if xml_compatible text then
    mmodify (fun p => set_inlines
      (removelast (inlines p)
         ++ [IRun {| r_content := [RText text]; r_font := Font_empty |}])%list p)
  else mraise ValueError.

(** The [if text: paragraph.add_run(text)] of [add_paragraph] and
    [insert_paragraph_before], on the fresh paragraph. *)
Definition new_paragraph (text : value) : result unit * Paragraph :=
  if truthy text then
    match text with
    | VStr s => add_run s Paragraph_empty
    | _ => (Raise TypeError, Paragraph_empty)
    end
  else (Ok tt, Paragraph_empty).

(** Run a computation on the last run of the paragraph (the run that
    [add_run] has just returned). *)
Definition on_last_run {A} (m : M Font A) : M Paragraph A := fun p =>
  match List.rev (inlines p) with
  | IRun r :: before =>
      match m (r_font r) with
      | (res, f') => (res, set_inlines (List.rev (IRun (set_r_font f' r) :: before)) p)
      end
  | _ => (Raise IndexError, p)
  end.

(** Run a computation on every run of the paragraph, in order. *)
Fixpoint for_runs (m : M Run unit) (xs : list Inline) : result unit * list Inline :=
  match xs with
  | [] => (Ok tt, [])
  | IRun r :: rest =>
      match m r with
      | (Ok _, r') => let '(res, rest') := for_runs m rest in (res, IRun r' :: rest')
      | (Raise e, r') => (Raise e, IRun r' :: rest)
      end
  | x :: rest => let '(res, rest') := for_runs m rest in (res, x :: rest')
  end.

Definition for_each_run (m : M Run unit) : M Paragraph unit := fun p =>
  match for_runs m (inlines p) with
  | (res, xs) => (res, set_inlines xs p)
  end.

(** [paragraph.runs[0]] *)
Fixpoint first_run {A} (m : M Run A) (xs : list Inline) : result A * list Inline :=
  match xs with
  | [] => (Raise IndexError, [])
  | IRun r :: rest => match m r with (res, r') => (res, IRun r' :: rest) end
  | x :: rest => let '(res, rest') := first_run m rest in (res, x :: rest')
  end.

Definition on_first_run {A} (m : M Run A) : M Paragraph A := fun p =>
  match first_run m (inlines p) with
  | (res, xs) => (res, set_inlines xs p)
  end.

(** [run.add_break()] *)
Definition add_break : M Run unit :=
  mmodify (fun r => set_r_content (r_content r ++ [RBreak])%list r).

Definition on_font {A} (m : M Font A) : M Run A := zoom r_font set_r_font m.
Definition on_pf {A} (m : M ParagraphFormat A) : M Paragraph A := zoom pf set_pf m.

(** *** Block lists: the document body, a header, a footer, a cell *)

(** Index in [blocks] of the first paragraph. *)
Fixpoint first_paragraph (blocks : list Block) : option nat :=
  match blocks with
  | [] => None
  | BPara _ :: _ => Some 0
  | BTable _ :: rest => S <$> first_paragraph rest
  end.

(** Run a computation on the paragraph at index [h]. *)
Definition on_paragraph {A} (h : nat) (m : M Paragraph A) : M (list Block) A :=
  fun blocks =>
    match blocks !! h with
    | Some (BPara p) =>
        match m p with (res, p') => (res, <[h := BPara p']> blocks) end
    | _ => (Raise IndexError, blocks)
    end.

(** [blocks[h].insert_paragraph_before(text)]: the new paragraph
    takes index [h], which is returned. *)
Definition insert_paragraph_before (h : nat) (text : value) : M (list Block) nat :=
  fun blocks =>
    match new_paragraph text with
    | (Ok _, p) => (Ok h, (take h blocks ++ BPara p :: drop h blocks)%list)
    | (Raise e, p) => (Raise e, (take h blocks ++ BPara p :: drop h blocks)%list)
    end.

(** [container.add_paragraph(text)]: appended at the end. *)
Definition add_paragraph (text : value) : M (list Block) nat :=
  fun blocks =>
    match new_paragraph text with
    | (Ok _, p) => (Ok (length blocks), (blocks ++ [BPara p])%list)
    | (Raise e, p) => (Raise e, (blocks ++ [BPara p])%list)
    end.

(** [paragraph.insert_paragraph_after(text)].  python-docx's [Paragraph]
    offers [insert_paragraph_before] only; the attribute lookup fails. *)
Definition insert_paragraph_after (h : nat) (text : value) : M (list Block) nat :=
  mraise AttributeError.

End DocxTree.
Import DocxTree.

(* ===================================================================== *)
(** * The formatting engine *)
(* ===================================================================== *)

(** [ALIGN_MAP.get(key, default)] *)
Definition ALIGN_MAP_get (key : string) (default : WD_ALIGN_PARAGRAPH)
  : WD_ALIGN_PARAGRAPH :=
  if String.eqb key "LEFT" then LEFT
  else if String.eqb key "CENTER" then CENTER
  else if String.eqb key "RIGHT" then RIGHT
  else if String.eqb key "JUSTIFY" then JUSTIFY
  else default.

(** [PAGE_FMT_MAP.get(key, default)] *)
Definition PAGE_FMT_MAP_get (key : string) (default : string) : string :=
  if String.eqb key "DECIMAL" then "decimal"
  else if String.eqb key "ROMAN_UPPER" then "upperRoman"
  else if String.eqb key "ROMAN_LOWER" then "lowerRoman"
  else if String.eqb key "LETTER_UPPER" then "upperLetter"
  else if String.eqb key "LETTER_LOWER" then "lowerLetter"
  else default.

(** [v.upper()], [v.startswith(p)], [v.split("_", 1)] on a config value:
    only a [str] has these methods. *)
Definition str_upper (v : value) : result string :=
  match v with VStr s => Ok (upper s) | _ => Raise AttributeError end.

Definition str_startswith (v : value) (p : string) : result bool :=
  match v with VStr s => Ok (startswith s p 0) | _ => Raise AttributeError end.

Definition str_split1 (v : value) (sep : ascii) : result (string * option string) :=
  match v with VStr s => Ok (split_once sep s) | _ => Raise AttributeError end.

(** [bytes.fromhex(v)]: pairs of hexadecimal digits, ASCII white space
    allowed between pairs. *)
Definition hex_value (c : ascii) : option N :=
  let n := N_of_ascii c in
  if (48 <=? n)%N && (n <=? 57)%N then Some (n - 48)%N
  else if (65 <=? n)%N && (n <=? 70)%N then Some (n - 55)%N
  else if (97 <=? n)%N && (n <=? 102)%N then Some (n - 87)%N
  else None.

Definition is_ascii_space (c : ascii) : bool :=
  let n := N_of_ascii c in
  (n =? 32)%N || ((9 <=? n)%N && (n <=? 13)%N).

Fixpoint fromhex (s : string) : result (list N) :=
  match s with
  | EmptyString => Ok []
  | String c rest =>
      if is_ascii_space c then fromhex rest
      else
        match hex_value c, rest with
        | Some hi, String c2 rest2 =>
            match hex_value c2 with
            | Some lo => bs ← fromhex rest2; Ok ((hi * 16 + lo)%N :: bs)
            | None => Raise ValueError
            end
        | _, _ => Raise ValueError
        end
  end.

Definition bytes_fromhex (v : value) : result (list N) :=
  match v with VStr s => fromhex s | _ => Raise TypeError end.

(** [_split_template(v)] on a config value.  [len] and [startswith] are
    what the loop asks of it. *)
Definition split_template_value (v : value) : result (list string) :=
  match v with
  | VStr s => Ok (_split_template s)
  | VList [] | VDict [] => Ok []
  | VList _ | VDict _ => Raise AttributeError
  | _ => Raise TypeError
  end.

Definition on_st_font {A} (m : M Font A) : M Style A := zoom st_font set_st_font m.
Definition on_st_pf {A} (m : M ParagraphFormat A) : M Style A := zoom st_pf set_st_pf m.

Definition _set_font_all_scripts (font_name : value) : M Font unit :=
  Font_rFonts ;;
  rFonts_set "w:ascii" font_name ;;
  rFonts_set "w:hAnsi" font_name ;;
  rFonts_set "w:eastAsia" font_name ;;
  rFonts_set "w:cs" font_name.

(** The seven paragraph-format assignments, written out twice in the
    source: lines 165-172 for a style and lines 279-286 for a paragraph. *)
Definition apply_paragraph_format (cfg : StyleConfig) : M ParagraphFormat unit :=
  line_spacing_set (line_spacing cfg) ;;
  sb ← lift (Pt (space_before_pt cfg)) ;
  space_before_set sb ;;
  sa ← lift (Pt (space_after_pt cfg)) ;
  space_after_set sa ;;
  ind ← (if truthy (first_line_indent_cm cfg)
         then lift (Some <$> Cm (first_line_indent_cm cfg))
         else mret None) ;
  first_line_indent_set ind ;;
  a ← lift (str_upper (alignment cfg)) ;
  alignment_set (ALIGN_MAP_get a JUSTIFY) ;;
  keep_with_next_set (keep_with_next cfg) ;;
  page_break_before_set (page_break_before cfg).

Definition _apply_style_to_docx_style (cfg : StyleConfig) : M Style unit :=
  on_st_font (Font_name_set (font_name cfg)) ;;
  on_st_font (_set_font_all_scripts (font_name cfg)) ;;
  size ← lift (Pt (font_size_pt cfg)) ;
  on_st_font (Font_size_set size) ;;
  on_st_font (Font_bold_set (bold cfg)) ;;
  on_st_font (Font_italic_set (italic cfg)) ;;
  (if truthy (color_hex cfg)
   then try_pass (bs ← lift (bytes_fromhex (color_hex cfg)) ;
                  on_st_font (ColorFormat_rgb_set (ArgBytes bs)))
   else mret tt) ;;
  on_st_pf (apply_paragraph_format cfg).

(** [if name in styles: _apply_style_to_docx_style(styles[name], cfg)] *)
Definition apply_if_present (name : string) (cfg : StyleConfig) : M Document unit :=
  fun doc =>
    match styles doc !! name with
    | Some st =>
        match _apply_style_to_docx_style cfg st with
        | (res, st') => (res, set_styles (<[name := st']> (styles doc)) doc)
        end
    | None => (Ok tt, doc)
    end.

Definition _apply_styles (cfg : ReportConfig) : M Document unit :=
  apply_if_present "Normal" (normal cfg) ;;
  apply_if_present "Title" (title cfg) ;;
  apply_if_present "Heading 1" (heading1 cfg) ;;
  apply_if_present "Heading 2" (heading2 cfg) ;;
  apply_if_present "Heading 3" (heading3 cfg) ;;
  apply_if_present "Caption" (caption cfg).

(** ** Paragraph enumeration *)

(** A reference to a paragraph of the document: a body paragraph, or a
    paragraph of a cell of a body table. *)
Inductive pref : Type :=
| InBody (block : nat)
| InCell (block row cell para : nat).

(** Run a computation on element [i] of a list. *)
Definition on_nth {T A} (i : nat) (m : M T A) : M (list T) A := fun xs =>
  match xs !! i with
  | Some x => match m x with (res, x') => (res, <[i := x']> xs) end
  | None => (Raise IndexError, xs)
  end.

Definition on_table {A} (h : nat) (m : M Table A) : M (list Block) A :=
  fun blocks =>
    match blocks !! h with
    | Some (BTable t) =>
        match m t with (res, t') => (res, <[h := BTable t']> blocks) end
    | _ => (Raise IndexError, blocks)
    end.

Definition on_pref {A} (r : pref) (m : M Paragraph A) : M Document A :=
  zoom body set_body
    match r with
    | InBody i => on_paragraph i m
    | InCell i row cell k => on_table i (on_nth row (on_nth cell (on_nth k m)))
    end.

(** The references [_iter_all_paragraphs] yields, in order. *)
Definition _iter_all_paragraphs (doc : Document) (include_tables : bool) : list pref :=
  (mjoin (imap (fun i b => match b with BPara _ => [InBody i] | _ => [] end)
               (body doc))
   ++
   if include_tables then
     mjoin (imap (fun i b =>
       match b with
       | BTable t =>
           mjoin (imap (fun row cells =>
             mjoin (imap (fun cell ps => imap (fun k _ => InCell i row cell k) ps)
                         cells)) t)
       | _ => []
       end) (body doc))
   else [])%list.

(** ** The force-override sweeps *)

Definition force_paragraph_format_at (cfg : ReportConfig) (dflt : option string)
  : M Paragraph unit :=
  p ← mget ;
  let style_name := lower (default "Normal" (style_name dflt p)) in
  let scfg :=
    if contains "heading 1" style_name then heading1 cfg
    else if contains "heading 2" style_name then heading2 cfg
    else if contains "heading 3" style_name then heading3 cfg
    else if String.eqb style_name "title" then title cfg
    else if contains "caption" style_name then caption cfg
    else normal cfg in
  on_pf (apply_paragraph_format scfg).

Definition _force_paragraph_format (cfg : ReportConfig) : M Document unit :=
  let pcfg := processing cfg in
  if negb (truthy (force_paragraph_format_everywhere pcfg)) then mret tt
  else
    doc ← mget ;
    for_in (_iter_all_paragraphs doc (truthy (include_tables pcfg)))
           (fun r => on_pref r (force_paragraph_format_at cfg (default_style doc))).

(** The body of [for r in p.runs] in [_force_run_font]. *)
Definition force_run_font_run (scfg : StyleConfig) : M Run unit :=
  on_font (Font_name_set (font_name scfg)) ;;
  try_pass (on_font (get_or_add_rFonts ;;
                     rFonts_set "w:ascii" (font_name scfg) ;;
                     rFonts_set "w:hAnsi" (font_name scfg) ;;
                     rFonts_set "w:eastAsia" (font_name scfg) ;;
                     rFonts_set "w:cs" (font_name scfg))) ;;
  size ← lift (Pt (font_size_pt scfg)) ;
  on_font (Font_size_set size).

Definition force_run_font_at (cfg : ReportConfig) (dflt : option string)
  : M Paragraph unit :=
  p ← mget ;
  let style_name := lower (default "Normal" (style_name dflt p)) in
  let scfg :=
    if contains "heading 1" style_name then heading1 cfg
    else if contains "heading 2" style_name then heading2 cfg
    else if contains "heading 3" style_name then heading3 cfg
    else if String.eqb style_name "title" then title cfg
    else if contains "caption" style_name then caption cfg
    else normal cfg in
  for_each_run (force_run_font_run scfg).

Definition _force_run_font (cfg : ReportConfig) : M Document unit :=
  let pcfg := processing cfg in
  if negb (truthy (force_run_font_everywhere pcfg)) then mret tt
  else
    doc ← mget ;
    for_in (_iter_all_paragraphs doc (truthy (include_tables pcfg)))
           (fun r => on_pref r (force_run_font_at cfg (default_style doc))).

(** ** Fields, page numbering, table of contents *)

(** [_add_simple_field(paragraph, instr)]: a [w:fldSimple] holding one run
    with the text [1]. *)
Definition _add_simple_field (instr : string) : M Paragraph unit :=
  s ← lift (attr_value (VStr instr)) ;
  mmodify (fun p => set_inlines (inlines p ++ [IFldSimple s "1"])%list p).

(** [_clear_paragraph]: every child goes, [w:pPr] included. *)
Definition _clear_paragraph : M Paragraph unit :=
  mmodify (fun _ => Paragraph_empty).

Definition set_attr (name val : string) (s : Section) : Section :=
  set_pgNumType (Some (<[name := val]> (default ∅ (pgNumType s)))) s.
Definition pop_attr (name : string) (s : Section) : Section :=
  set_pgNumType (Some (delete name (default ∅ (pgNumType s)))) s.

Definition _set_section_page_numbering (start_at fmt : value) (restart : bool)
  : M Section unit :=
  mmodify (fun s => match pgNumType s with
                    | None => set_pgNumType (Some ∅) s
                    | Some _ => s
                    end) ;;
  key ← lift (str_upper fmt) ;
  let fmt_val := PAGE_FMT_MAP_get key "decimal" in
  mmodify (set_attr "w:fmt" fmt_val) ;;
  if restart then
    n ← lift (py_int start_at) ;
    mmodify (set_attr "w:start" (pretty n))
  else
    s ← mget ;
    match default ∅ (pgNumType s) !! "w:start" with
    | Some _ => mmodify (pop_attr "w:start")
    | None => mret tt
    end.

(** *** Header and footer definitions *)

Definition hdrftr (is_footer : bool) (s : Section) : option (list Block) :=
  if is_footer then footer s else header s.
Definition set_hdrftr (is_footer : bool) (x : option (list Block)) (s : Section)
  : Section :=
  if is_footer then set_footer x s else set_header x s.

(** The section whose definition section [idx] shows: its own, or that of
    the nearest earlier section that has one. *)
Fixpoint definition_owner (is_footer : bool) (secs : list Section) (idx : nat)
  : option nat :=
  match secs !! idx ≫= hdrftr is_footer with
  | Some _ => Some idx
  | None => match idx with
            | O => None
            | S prior => definition_owner is_footer secs prior
            end
  end.

(** The part python-docx creates when no section up to [idx] has a
    definition: one empty paragraph in the Header or Footer style. *)
Definition default_definition (is_footer : bool) : list Block :=
  [BPara {| pStyle := Some (if is_footer then "Footer" else "Header");
            pf := ParagraphFormat_empty; inlines := [] |}].

(** [section.footer] / [section.header] resolved to the owning section;
    a missing definition is added to the first section. *)
Definition get_or_add_definition (is_footer : bool) (idx : nat)
  : M (list Section) nat :=
  secs ← mget ;
  match definition_owner is_footer secs idx with
  | Some j => mret j
  | None =>
      on_nth 0 (mmodify (set_hdrftr is_footer (Some (default_definition is_footer)))) ;;
      mret 0
  end.

Definition on_hdrftr {A} (is_footer : bool) (m : M (list Block) A) : M Section A :=
  zoom (fun s => default [] (hdrftr is_footer s))
       (fun x s => set_hdrftr is_footer (Some x) s) m.

(** The body of [for part in self._split_template(pn.template)]. *)
Definition add_part (pn : PageNumberConfig) (part : string) : M Paragraph unit :=
  if String.eqb part "{PAGE}" then _add_simple_field "PAGE"
  else if String.eqb part "{NUMPAGES}" then _add_simple_field "NUMPAGES"
  else
    add_run part ;;
    on_last_run (Font_name_set (pn_font_name pn)) ;;
    size ← lift (Pt (pn_font_size_pt pn)) ;
    on_last_run (Font_size_set size) ;;
    try_pass (on_last_run (get_or_add_rFonts ;;
                           rFonts_set "w:ascii" (pn_font_name pn) ;;
                           rFonts_set "w:hAnsi" (pn_font_name pn) ;;
                           rFonts_set "w:eastAsia" (pn_font_name pn) ;;
                           rFonts_set "w:cs" (pn_font_name pn))).

(** Lines 359-378: the target paragraph is emptied, aligned and filled
    from the template. *)
Definition fill_paragraph (pn : PageNumberConfig) (alignment : WD_ALIGN_PARAGRAPH)
  : M Paragraph unit :=
  _clear_paragraph ;;
  on_pf (alignment_set alignment) ;;
  parts ← lift (split_template_value (template pn)) ;
  for_in parts (add_part pn).

(** Line 357 and on: [hf.paragraphs[0] if hf.paragraphs else
    hf.add_paragraph()], then the filling. *)
Definition write_hdrftr (pn : PageNumberConfig) (alignment : WD_ALIGN_PARAGRAPH)
  : M (list Block) unit :=
  blocks ← mget ;
  para ← match first_paragraph blocks with
         | Some h => mret h
         | None => add_paragraph (VStr "")
         end ;
  on_paragraph para (fill_paragraph pn alignment).

(** The body of [for idx, section in enumerate(doc.sections)]. *)
Definition page_numbers_at (pn : PageNumberConfig) (idx : nat) : M (list Section) unit :=
  let restart := truthy (restart_each_section pn) in
  (if (idx =? 0)%nat
   then on_nth idx (_set_section_page_numbering (start_at pn) (number_format pn) true)
   else on_nth idx (_set_section_page_numbering (start_at pn) (number_format pn) restart)) ;;
  target_is_footer ← lift (str_startswith (position pn) "FOOTER") ;
  parts ← lift (str_split1 (position pn) "_"%char) ;
  align_key ← lift (match parts.2 with
                    | Some k => Ok k
                    | None => Raise IndexError
                    end) ;
  let alignment :=
    if String.eqb align_key "LEFT" then LEFT
    else if String.eqb align_key "CENTER" then CENTER
    else if String.eqb align_key "RIGHT" then RIGHT
    else CENTER in
  owner ← get_or_add_definition target_is_footer idx ;
  on_nth owner (on_hdrftr target_is_footer (write_hdrftr pn alignment)).

Definition _apply_page_numbers (cfg : ReportConfig) : M Document unit :=
  let pn := pagenumber cfg in
  if negb (truthy (enabled pn)) then mret tt
  else
    doc ← mget ;
    zoom sections set_sections
      (for_in (seq 0 (length (sections doc))) (page_numbers_at pn)).

Section Toc.
(** [format(v)] as the f-string applies it to [tc.heading_levels]. *)
Variable py_format : value -> string.

Definition dquote : string := String (ascii_of_nat 34) EmptyString.

Definition _insert_toc_if_needed (cfg : ReportConfig) : M Document unit :=
  let tc := toc cfg in
  if negb (truthy (insert_toc tc)) then mret tt
  else
    zoom body set_body (
      blocks ← mget ;
      p_title ← match first_paragraph blocks with
                | Some h => insert_paragraph_before h (toc_title tc)
                | None => add_paragraph (toc_title tc)
                end ;
      key ← lift (str_upper (title_alignment tc)) ;
      on_paragraph p_title (on_pf (alignment_set (ALIGN_MAP_get key CENTER))) ;;
      on_paragraph p_title (for_each_run (
        on_font (Font_bold_set (title_bold tc)) ;;
        size ← lift (Pt (title_font_size_pt tc)) ;
        on_font (Font_size_set size) ;;
        on_font (Font_name_set (font_name (normal cfg))))) ;;
      p_toc ← insert_paragraph_after p_title (VStr "") ;
      let instr := "TOC \o " +:+ dquote +:+ py_format (heading_levels tc)
                   +:+ dquote +:+ " \h \z \u" in
      on_paragraph p_toc (_add_simple_field instr) ;;
      p_break ← insert_paragraph_after p_toc (VStr "") ;
      on_paragraph p_break (on_first_run add_break)).
End Toc.

(* ===================================================================== *)
(** * Page setup, the pipeline, the download name *)
(* ===================================================================== *)

(** ** Lengths as the XML stores them *)

(** [round(f)] for a finite positive magnitude [m * 2^e]: to the nearest
    integer, a tie to the even one. *)
Definition round_half_even (m : positive) (e : Z) : Z :=
  match e with
  | Z0 => Zpos m
  | Zpos p => Z.shiftl (Zpos m) (Zpos p)
  | Zneg p =>
      let q := Z.shiftr (Zpos m) (Zpos p) in
      let r := Z.land (Zpos m) (Z.ones (Zpos p)) in
      let half := Z.shiftl 1 (Zpos p - 1) in
      if (r <? half)%Z then q
      else if (half <? r)%Z then (q + 1)%Z
      else if Z.even q then q else (q + 1)%Z
  end.

(** [round(f)] *)
Definition py_round (f : spec_float) : result Z :=
  match f with
  | S754_zero _ => Ok 0%Z
  | S754_nan => Raise ValueError
  | S754_infinity _ => Raise OverflowError
  | S754_finite s m e =>
      let n := round_half_even m e in Ok (if s then Z.opp n else n)
  end.

(** [Length.twips]: [int(round(self / float(635)))]. *)
Definition Length_twips (len : Length) : result Z :=
  py_round (SFdiv prec emax (float_of_Z len) (float_of_Z 635)).

(** The text of a twips attribute ([ST_TwipsMeasure],
    [ST_SignedTwipsMeasure]): the range check of the simple type on the
    length, then the length in twips. *)
Definition twips_attr (check : Z -> result Z) (len : Length) : result string :=
  n ← check len; tw ← Length_twips n; Ok (pretty tw).

(** ** The page geometry of a section

    The [w:pgSz] and [w:pgMar] children of [w:sectPr] with their
    attributes, and whether [w:titlePg] is there.  One per section of
    [doc.sections], in order. *)
Record PageGeometry : Type := mkPageGeometry {
  pgSz : option (gmap string string);
  pgMar : option (gmap string string);
  titlePg : bool
}.

Definition set_pgSz x (g : PageGeometry) : PageGeometry :=
  {| pgSz := x; pgMar := pgMar g; titlePg := titlePg g |}.
Definition set_pgMar x (g : PageGeometry) : PageGeometry :=
  {| pgSz := pgSz g; pgMar := x; titlePg := titlePg g |}.
Definition set_titlePg x (g : PageGeometry) : PageGeometry :=
  {| pgSz := pgSz g; pgMar := pgMar g; titlePg := x |}.

(** [section.page_width = len], [section.page_height = len]:
    [get_or_add_pgSz()], then the attribute. *)
Definition pgSz_set (name : string) (len : Length) : M PageGeometry unit :=
  mmodify (fun g => set_pgSz (Some (default ∅ (pgSz g))) g) ;;
  v ← lift (twips_attr check_unsigned len) ;
  mmodify (fun g => set_pgSz (Some (<[name := v]> (default ∅ (pgSz g)))) g).

Definition page_width_set : Length -> M PageGeometry unit := pgSz_set "w:w".
Definition page_height_set : Length -> M PageGeometry unit := pgSz_set "w:h".

(** The six margin properties: [get_or_add_pgMar()], then the attribute.
    [w:top] and [w:bottom] are signed, the others are not. *)
Definition pgMar_set (name : string) (check : Z -> result Z) (len : Length)
  : M PageGeometry unit :=
  mmodify (fun g => set_pgMar (Some (default ∅ (pgMar g))) g) ;;
  v ← lift (twips_attr check len) ;
  mmodify (fun g => set_pgMar (Some (<[name := v]> (default ∅ (pgMar g)))) g).

Definition left_margin_set := pgMar_set "w:left" check_unsigned.
Definition right_margin_set := pgMar_set "w:right" check_unsigned.
Definition top_margin_set := pgMar_set "w:top" check_int32.
Definition bottom_margin_set := pgMar_set "w:bottom" check_int32.
Definition header_distance_set := pgMar_set "w:header" check_unsigned.
Definition footer_distance_set := pgMar_set "w:footer" check_unsigned.

(** [section.different_first_page_header_footer = b] for a [bool]:
    [w:titlePg] is added or removed. *)
Definition different_first_page_header_footer_set (b : bool) : M PageGeometry unit :=
  mmodify (set_titlePg b).

(** ** [_apply_page_setup] *)

Definition A4_PORTRAIT : dict :=
  [("width_cm", VFloat (flt 21 1)); ("height_cm", VFloat (flt 297 10))].
Definition A4_LANDSCAPE : dict :=
  [("width_cm", VFloat (flt 297 10)); ("height_cm", VFloat (flt 21 1))].

(** [PAPER_PRESET.get(key, PAPER_PRESET["A4_PORTRAIT"])]; a list or a
    dict cannot be a key. *)
Definition PAPER_PRESET_get (key : value) : result dict :=
  match key with
  | VStr s => if String.eqb s "A4_PORTRAIT" then Ok A4_PORTRAIT
              else if String.eqb s "A4_LANDSCAPE" then Ok A4_LANDSCAPE
              else Ok A4_PORTRAIT
  | VList _ | VDict _ => Raise TypeError
  | _ => Ok A4_PORTRAIT
  end.

(** The body of [for section in doc.sections]. *)
Definition page_setup_section (ps : PageSetupConfig) (paper : dict)
  : M PageGeometry unit :=
  w ← lift (getitem "width_cm" paper ≫= Cm) ; page_width_set w ;;
  h ← lift (getitem "height_cm" paper ≫= Cm) ; page_height_set h ;;
  l ← lift (Cm (margin_left_cm ps)) ; left_margin_set l ;;
  r ← lift (Cm (margin_right_cm ps)) ; right_margin_set r ;;
  t ← lift (Cm (margin_top_cm ps)) ; top_margin_set t ;;
  b ← lift (Cm (margin_bottom_cm ps)) ; bottom_margin_set b ;;
  hd ← lift (Cm (header_distance_cm ps)) ; header_distance_set hd ;;
  fd ← lift (Cm (footer_distance_cm ps)) ; footer_distance_set fd ;;
  different_first_page_header_footer_set (truthy (different_first_page ps)).

Definition _apply_page_setup (cfg : ReportConfig) : M (list PageGeometry) unit :=
  let ps := pagesetup cfg in
  paper ← lift (PAPER_PRESET_get (paper ps)) ;
  gs ← mget ;
  for_in (seq 0 (length gs)) (fun i => on_nth i (page_setup_section ps paper)).

(** ** [DocxReportFormatter.format_docx_bytes]

    [Document(io.BytesIO(bytes))] and [doc.save] belong to python-docx;
    they are the section's parameters.  An opened document is the tree
    together with the page geometry of its sections. *)
Record Opened : Type := mkOpened {
  tree : Document;
  geometry : list PageGeometry
}.

Definition set_tree x (o : Opened) : Opened := {| tree := x; geometry := geometry o |}.
Definition set_geometry x (o : Opened) : Opened := {| tree := tree o; geometry := x |}.

Section Pipeline.
Variable py_format : value -> string.
Variable Document_open : string -> result Opened.
Variable Document_save : Opened -> string.

Definition format_steps (cfg : ReportConfig) : M Opened unit :=
  zoom geometry set_geometry (_apply_page_setup cfg) ;;
  zoom tree set_tree (_apply_styles cfg) ;;
  zoom tree set_tree (_insert_toc_if_needed py_format cfg) ;;
  zoom tree set_tree (_apply_page_numbers cfg) ;;
  zoom tree set_tree (_force_paragraph_format cfg) ;;
  zoom tree set_tree (_force_run_font cfg).

Definition format_docx_bytes (cfg : ReportConfig) (input_docx_bytes : string)
  : result string :=
  doc ← Document_open input_docx_bytes ;
  match format_steps cfg doc with
  | (Ok _, doc') => Ok (Document_save doc')
  | (Raise e, _) => Raise e
  end.
End Pipeline.

(** ** The download name ([app.py], lines 147-150) *)

(** [s.endswith(suffix)] *)
Definition endswith (s suffix : string) : bool :=
  (String.length suffix <=? String.length s)%nat
  && String.eqb (str_drop (String.length s - String.length suffix) s) suffix.

(** [in_name[:-5] if in_name.lower().endswith(".docx") else in_name],
    then the f-string. *)
Definition out_name (in_name : string) : string :=
  let base := if endswith (lower in_name) ".docx"
              then str_take (String.length in_name - 5) in_name
              else in_name in
  base +:+ "_FORMATTED.docx".

(* ===================================================================== *)
(** * Definitions used by the statements *)
(* ===================================================================== *)

(** "".join(tokens) *)
Definition join (tokens : list string) : string := fold_right String.append "" tokens.

Definition cond_scan t j :=
  (j <? String.length t)%nat && negb (startswith t "{PAGE}" j)
  && negb (startswith t "{NUMPAGES}" j).

Definition token_ok (tok : string) : Prop :=
  tok = "{PAGE}" \/ tok = "{NUMPAGES}"
  \/ (tok <> "" /\ contains "{PAGE}" tok = false /\ contains "{NUMPAGES}" tok = false).

(** The [for k, v in b.items()] loop of [deep_merge], from the state
    [out] on. *)
Fixpoint merge_items (out : dict) (its : list (string * value)) : result dict :=
  match its with
  | [] => Ok out
  | (k, v) :: rest =>
      if isinstance_dict v && from_option isinstance_dict false (dict_get k out)
      then
        match dict_get k out with
        | Some (VDict ak) =>
            sub ← deep_merge ak v; merge_items (dict_set k (VDict sub) out) rest
        | _ => merge_items (dict_set k v out) rest
        end
      else merge_items (dict_set k v out) rest
  end.

(** The value [deep_merge] leaves at a key that [b] maps to [v], when
    [a] has [old] there. *)
Definition merged_value (old : option value) (v : value) : value :=
  match old, v with
  | Some (VDict ak), VDict _ =>
      match deep_merge ak v with
      | Ok sub => VDict sub
      | Raise _ => v
      end
  | _, _ => v
  end.

(** [del d[k]] *)
Definition dict_del (k : string) (d : dict) : dict :=
  List.filter (fun kv => negb (String.eqb k kv.1)) d.

Section value_ind_nested.
Variable P : value -> Prop.
Hypothesis HNone : P VNone.
Hypothesis HBool : forall b, P (VBool b).
Hypothesis HInt : forall n, P (VInt n).
Hypothesis HFloat : forall f, P (VFloat f).
Hypothesis HStr : forall s, P (VStr s).
Hypothesis HList : forall l, Forall P l -> P (VList l).
Hypothesis HDict : forall items, Forall (fun kv => P kv.2) items -> P (VDict items).

Fixpoint value_ind_nested (v : value) : P v :=
  match v with
  | VNone => HNone
  | VBool b => HBool b
  | VInt n => HInt n
  | VFloat f => HFloat f
  | VStr s => HStr s
  | VList l =>
      HList l ((fix go (l : list value) : Forall P l :=
                  match l with
                  | [] => List.Forall_nil _
                  | x :: r => @List.Forall_cons _ P x r (value_ind_nested x) (go r)
                  end) l)
  | VDict items =>
      HDict items ((fix go (l : list (string * value)) : Forall (fun kv => P kv.2) l :=
                      match l with
                      | [] => List.Forall_nil _
                      | x :: r => @List.Forall_cons _ (fun kv => P kv.2) x r (value_ind_nested x.2) (go r)
                      end) items)
  end.
End value_ind_nested.

(** Entry by entry: same key, and merging leaves the new value as it is. *)
Definition kept (x y : string * value) : Prop :=
  x.1 = y.1 /\ merged_value (Some x.2) y.2 = y.2.

(** The field names of the record stored under a section key. *)
Definition fields_of (sec : string) : list string :=
  if bool_decide (sec ∈ ["normal"; "title"; "heading1"; "heading2"; "heading3"; "caption"])
  then StyleConfig_fields
  else if String.eqb sec "pagesetup" then PageSetupConfig_fields
  else if String.eqb sec "pagenumber" then PageNumberConfig_fields
  else if String.eqb sec "toc" then TocConfig_fields
  else if String.eqb sec "processing" then ProcessingConfig_fields
  else [].

(** A page-number configuration whose fields hold what the user interface
    can put there. *)
Definition valid_pagenumber (pn : PageNumberConfig) : bool :=
  match position pn, number_format pn, template pn, pn_font_name pn, start_at pn with
  | VStr pos, VStr _, VStr t, VStr f, VInt _ =>
      bool_decide (pos ∈ PAGE_NUMBER_POSITION)
      && xml_compatible t && xml_compatible f
      && is_ok (Pt (pn_font_size_pt pn) ≫= check_unsigned)
  | _, _, _, _, _ => false
  end.

(** The attributes [_set_section_page_numbering] leaves on [w:pgNumType]. *)
Definition numbering_attrs (old : option (gmap string string)) (fmt_val : string)
    (start : option Z) : gmap string string :=
  match start with
  | Some n => <["w:start" := pretty n]> (<["w:fmt" := fmt_val]> (default ∅ old))
  | None => delete "w:start" (<["w:fmt" := fmt_val]> (default ∅ old))
  end.

(** ** The style-bucket classification, as the specification words it *)

Inductive Bucket : Type :=
| Normal | Title | Heading1 | Heading2 | Heading3 | Caption.

Inductive name_test : Type :=
| Substring (s : string)
| Exactly (s : string).

Definition test_holds (t : name_test) (lowered : string) : bool :=
  match t with
  | Substring s => contains s lowered
  | Exactly s => String.eqb lowered s
  end.

(** The ordered tests; the first that holds decides. *)
Definition bucket_rules : list (name_test * Bucket) :=
  [(Substring "heading 1", Heading1); (Substring "heading 2", Heading2);
   (Substring "heading 3", Heading3); (Exactly "title", Title);
   (Substring "caption", Caption)].

Definition bucket_of_style_name (name : string) : Bucket :=
  match List.find (fun r => test_holds r.1 (lower name)) bucket_rules with
  | Some r => r.2
  | None => Normal
  end.

Definition bucket_config (cfg : ReportConfig) (b : Bucket) : StyleConfig :=
  match b with
  | Normal => normal cfg
  | Title => title cfg
  | Heading1 => heading1 cfg
  | Heading2 => heading2 cfg
  | Heading3 => heading3 cfg
  | Caption => caption cfg
  end.

(** A style configuration that differs from the defaults in its colour. *)
Definition style_with_color (hex : string) : StyleConfig :=
  {| font_name := font_name StyleConfig_default;
     font_size_pt := font_size_pt StyleConfig_default;
     bold := bold StyleConfig_default;
     italic := italic StyleConfig_default;
     color_hex := VStr hex;
     line_spacing := line_spacing StyleConfig_default;
     space_before_pt := space_before_pt StyleConfig_default;
     space_after_pt := space_after_pt StyleConfig_default;
     first_line_indent_cm := first_line_indent_cm StyleConfig_default;
     alignment := alignment StyleConfig_default;
     keep_with_next := keep_with_next StyleConfig_default;
     page_break_before := page_break_before StyleConfig_default |}.

(** A computation that raises from every state. *)
Definition raises {S A} (m : M S A) : Prop :=
  forall s, exists e s', m s = (Raise e, s').

Definition toc_enabled : ReportConfig :=
  {| normal := normal ReportConfig_default; title := title ReportConfig_default;
     heading1 := heading1 ReportConfig_default;
     heading2 := heading2 ReportConfig_default;
     heading3 := heading3 ReportConfig_default;
     caption := caption ReportConfig_default;
     pagesetup := pagesetup ReportConfig_default;
     pagenumber := pagenumber ReportConfig_default;
     toc := {| insert_toc := VBool true;
               heading_levels := heading_levels TocConfig_default;
               toc_title := toc_title TocConfig_default;
               title_bold := title_bold TocConfig_default;
               title_font_size_pt := title_font_size_pt TocConfig_default;
               title_alignment := title_alignment TocConfig_default |};
     processing := processing ReportConfig_default |}.

(** A document of one empty paragraph and one section. *)
Definition one_paragraph_document : Document :=
  {| styles := ∅; default_style := Some "Normal";
     body := [BPara Paragraph_empty];
     sections := [{| pgNumType := None; header := None; footer := None |}] |}.

(** The assignment [Cm(x) if x else None]. *)
Definition indent_of (x : value) : result (option Length) :=
  if truthy x then Some <$> Cm x else Ok None.

(** ** A concrete transport, to instantiate the JSON parameters

    A tagged, length-prefixed text form of [value] with its reader. *)
Module Wire.

Definition digit (c : ascii) : option Z :=
  let n := Z.of_N (N_of_ascii c) in
  if (48 <=? n)%Z && (n <=? 57)%Z then Some (n - 48)%Z else None.

(** Leading decimal digits of [s], accumulated onto [acc]. *)
Fixpoint read_digits (acc : Z) (s : string) : Z * string :=
  match s with
  | String c rest =>
      match digit c with
      | Some d => read_digits (acc * 10 + d) rest
      | None => (acc, s)
      end
  | EmptyString => (acc, s)
  end.

Definition read_Z (s : string) : Z * string :=
  match s with
  | String "-" rest => let '(n, r) := read_digits 0 rest in (- n, r)%Z
  | _ => read_digits 0 s
  end.

(** Skip one expected character. *)
Definition expect (c : ascii) (s : string) : option string :=
  match s with
  | String c' rest => if Ascii.eqb c c' then Some rest else None
  | EmptyString => None
  end.

Definition write_str (s : string) : string :=
  pretty (Z.of_nat (String.length s)) +:+ ":" +:+ s.

Definition read_str (s : string) : option (string * string) :=
  let '(n, r) := read_Z s in
  r' ← expect ":" r;
  let k := Z.to_nat n in
  if (k <=? String.length r')%nat then Some (str_take k r', str_drop k r') else None.

Definition write_sign (s : bool) : string := if s then "-" else "+".

Definition write_float (f : spec_float) : string :=
  match f with
  | S754_zero s => "z" +:+ write_sign s
  | S754_infinity s => "i" +:+ write_sign s
  | S754_nan => "n"
  | S754_finite s m e => "f" +:+ write_sign s +:+ pretty (Zpos m) +:+ "e" +:+ pretty e +:+ ";"
  end.

Definition read_sign (s : string) : option (bool * string) :=
  match s with
  | String "-" rest => Some (true, rest)
  | String "+" rest => Some (false, rest)
  | _ => None
  end.

Definition read_float (s : string) : option (spec_float * string) :=
  match s with
  | String "z" rest => '(sg, r) ← read_sign rest; Some (S754_zero sg, r)
  | String "i" rest => '(sg, r) ← read_sign rest; Some (S754_infinity sg, r)
  | String "n" rest => Some (S754_nan, rest)
  | String "f" rest =>
      '(sg, r) ← read_sign rest;
      let '(m, r1) := read_Z r in
      r2 ← expect "e" r1;
      let '(e, r3) := read_Z r2 in
      r4 ← expect ";" r3;
      match m with
      | Zpos p => Some (S754_finite sg p e, r4)
      | _ => None
      end
  | _ => None
  end.

Fixpoint dumps (v : value) : string :=
  match v with
  | VNone => "N"
  | VBool b => if b then "T" else "F"
  | VInt n => "I" +:+ pretty n +:+ ";"
  | VFloat f => "D" +:+ write_float f
  | VStr s => "S" +:+ write_str s
  | VList l =>
      "[" +:+ (fix go (l : list value) : string :=
                 match l with
                 | [] => "]"
                 | x :: r => dumps x +:+ go r
                 end) l
  | VDict d =>
      "{" +:+ (fix go (d : list (string * value)) : string :=
                 match d with
                 | [] => "}"
                 | (k, x) :: r => write_str k +:+ dumps x +:+ go r
                 end) d
  end.

(** The reader, with a bound on the nesting and on the number of items
    it will follow. *)
Fixpoint read (fuel : nat) (s : string) : option (value * string) :=
  match fuel with
  | O => None
  | S fuel' =>
      match s with
      | String "N" r => Some (VNone, r)
      | String "T" r => Some (VBool true, r)
      | String "F" r => Some (VBool false, r)
      | String "I" r => let '(n, r1) := read_Z r in
                        r2 ← expect ";" r1; Some (VInt n, r2)
      | String "D" r => '(f, r1) ← read_float r; Some (VFloat f, r1)
      | String "S" r => '(x, r1) ← read_str r; Some (VStr x, r1)
      | String "[" r =>
          (fix items (n : nat) (s : string) : option (list value * string) :=
             match n with
             | O => None
             | S n' =>
                 match s with
                 | String "]" r => Some ([], r)
                 | _ => '(x, r1) ← read fuel' s;
                        '(xs, r2) ← items n' r1;
                        Some (x :: xs, r2)
                 end
             end) fuel' r ≫= (fun '(xs, r1) => Some (VList xs, r1))
      | String "{" r =>
          (fix items (n : nat) (s : string) : option (list (string * value) * string) :=
             match n with
             | O => None
             | S n' =>
                 match s with
                 | String "}" r => Some ([], r)
                 | _ => '(k, r0) ← read_str s;
                        '(x, r1) ← read fuel' r0;
                        '(xs, r2) ← items n' r1;
                        Some ((k, x) :: xs, r2)
                 end
             end) fuel' r ≫= (fun '(xs, r1) => Some (VDict xs, r1))
      | _ => None
      end
  end.

Definition loads (data : string) : result value :=
  match read (S (String.length data)) data with
  | Some (v, EmptyString) => Ok v
  | _ => Raise JSONDecodeError
  end.

End Wire.

(** A mapping with an unknown key at the top and one inside [normal]. *)
Definition unknown_keys_example : dict :=
  [("normal", VDict [("bogus", VInt 1)]); ("extra", VInt 2)].

(** Three sections, the second carrying a restart directive. *)
Definition three_sections : Document :=
  {| styles := ∅; default_style := Some "Normal";
     body := [BPara Paragraph_empty];
     sections :=
       [{| pgNumType := None; header := None; footer := None |};
        {| pgNumType := Some {["w:start" := "5"]}; header := None; footer := None |};
        {| pgNumType := None; header := None; footer := None |}] |}.

(** ** Definitions for the further properties *)

Definition acceptable (d : dict) : bool :=
  forallb (fun sec => match dict_get sec d with
                      | None => true
                      | Some (VDict m) => known_kwargs (fields_of sec) m
                      | Some _ => false
                      end) SECTION_KEYS.

Definition field_of (cfg : ReportConfig) (sec f : string) : option value :=
  match dict_get sec (cfg_to_dict cfg) with
  | Some (VDict kw) => dict_get f kw
  | _ => None
  end.

(** What a section of the merged mapping must be for its record to be
    built: a mapping whose keys are all fields. *)
Definition kwargs_ok (fields : list string) (x : value) : bool :=
  match x with
  | VDict kw => known_kwargs fields kw
  | _ => false
  end.

Definition section_ok (sec : string) (x : value) : bool := kwargs_ok (fields_of sec) x.

(** A constructor returns on the mappings of known keywords and raises
    [TypeError] on everything else. *)
Definition builder {A} (fields : list string) (b : value -> result A) : Prop :=
  forall x, if kwargs_ok fields x then exists a, b x = Ok a else b x = Raise TypeError.

Definition all_sections_ok (merged : dict) : bool :=
  forallb (fun sec => from_option (section_ok sec) false (dict_get sec merged)) SECTION_KEYS.

(** The nested override of one field. *)
Definition override_title_size : dict :=
  [("title", VDict [("font_size_pt", VInt 20)])].

Definition is_placeholder (tok : string) : bool :=
  String.eqb tok "{PAGE}" || String.eqb tok "{NUMPAGES}".

(** No two literal tokens side by side. *)
Fixpoint alternates (toks : list string) : bool :=
  match toks with
  | a :: rest =>
      match rest with
      | b :: _ => (is_placeholder a || is_placeholder b) && alternates rest
      | [] => true
      end
  | [] => true
  end.

Definition head_placeholder (toks : list string) : bool :=
  match toks with
  | b :: _ => is_placeholder b
  | [] => true
  end.

(** [c in s] for a character. *)
Fixpoint has_char (c : ascii) (s : string) : bool :=
  match s with
  | EmptyString => false
  | String c' s' => Ascii.eqb c c' || has_char c s'
  end.

(** [p] is a placeholder: it opens with a brace and has no other. *)
Definition brace_first (p : string) : Prop :=
  exists p', p = String "{" p' /\ has_char "{" p' = false.

(** The [w:start] a section gets: section 1 always, the others when every
    section restarts. *)
Definition section_start (pn : PageNumberConfig) (n : Z) (i : nat) : option Z :=
  if (i =? 0)%nat || truthy (restart_each_section pn) then Some n else None.






(** [f] on every paragraph of every cell of a table. *)
Definition map_table (f : Paragraph -> Paragraph) (t : Table) : Table :=
  fmap (M := list) (fmap (M := list) (fmap (M := list) f)) t.

(** [f] on every body paragraph, and on every paragraph of every cell of
    the body tables when [tables]. *)
Definition map_paragraphs (tables : bool) (f : Paragraph -> Paragraph)
    (blocks : list Block) : list Block :=
  (fun b => match b with
            | BPara p => BPara (f p)
            | BTable t => BTable (if tables then map_table f t else t)
            end) <$> blocks.

(** [g] on every run of a paragraph. *)
Definition map_runs (g : Run -> Run) (p : Paragraph) : Paragraph :=
  set_inlines ((fun x => match x with IRun r => IRun (g r) | y => y end) <$> inlines p) p.


(** The document with every paragraph format blanked, and with every run
    font blanked: what the two sweeps must leave alone. *)
Definition without_formats (doc : Document) : Document :=
  set_body (map_paragraphs true (set_pf ParagraphFormat_empty) (body doc)) doc.
Definition without_fonts (doc : Document) : Document :=
  set_body (map_paragraphs true (map_runs (set_r_font Font_empty)) (body doc)) doc.

(** A computation that leaves the view [V] of the state as it is,
    whether it returns or raises. *)
Definition preserves {S A V} (view : S -> V) (m : M S A) : Prop :=
  forall s, view (m s).2 = view s.

(** [for i, x in enumerate(xs, start=i): body(i, x)] *)
Fixpoint for_idx {St X} (i : nat) (xs : list X) (body : nat -> X -> M St unit)
  : M St unit :=
  match xs with
  | [] => mret tt
  | x :: rest => body i x ;; for_idx (S i) rest body
  end.





(** The attribute texts [_apply_page_setup] writes, when every value of
    the configuration is accepted: page width and height, then the six
    margins. *)
Definition page_setup_values (ps : PageSetupConfig)
  : result (string * string * list (string * string)) :=
  paper ← PAPER_PRESET_get (paper ps);
  w ← (getitem "width_cm" paper ≫= Cm) ≫= twips_attr check_unsigned;
  h ← (getitem "height_cm" paper ≫= Cm) ≫= twips_attr check_unsigned;
  l ← Cm (margin_left_cm ps) ≫= twips_attr check_unsigned;
  r ← Cm (margin_right_cm ps) ≫= twips_attr check_unsigned;
  t ← Cm (margin_top_cm ps) ≫= twips_attr check_int32;
  b ← Cm (margin_bottom_cm ps) ≫= twips_attr check_int32;
  hd ← Cm (header_distance_cm ps) ≫= twips_attr check_unsigned;
  fd ← Cm (footer_distance_cm ps) ≫= twips_attr check_unsigned;
  Ok (w, h, [("w:left", l); ("w:right", r); ("w:top", t); ("w:bottom", b);
             ("w:header", hd); ("w:footer", fd)]).

(** Attributes written over a map, in order. *)
Definition with_attrs (kvs : list (string * string)) (m : gmap string string)
  : gmap string string :=
  fold_left (fun m kv => <[kv.1 := kv.2]> m) kvs m.

Definition with_geometry (w h : string) (margins : list (string * string))
    (first_page : bool) (g : PageGeometry) : PageGeometry :=
  {| pgSz := Some (with_attrs [("w:w", w); ("w:h", h)] (default ∅ (pgSz g)));
     pgMar := Some (with_attrs margins (default ∅ (pgMar g)));
     titlePg := first_page |}.

Definition is_landscape (v : value) : bool :=
  match v with
  | VStr s => String.eqb s "A4_LANDSCAPE"
  | _ => false
  end.

(** The style names [_apply_styles] looks up. *)
Definition STYLE_NAMES : list string :=
  ["Normal"; "Title"; "Heading 1"; "Heading 2"; "Heading 3"; "Caption"].

Definition has_target_style (doc : Document) : bool :=
  existsb (fun name => bool_decide (is_Some (styles doc !! name))) STYLE_NAMES.

(** A document with a title, a heading holding a run, and a table of one
    cell; no style definitions, one section. *)
Definition sample_document : Document :=
  {| styles := ∅; default_style := Some "Normal";
     body :=
       [BPara {| pStyle := Some "Title"; pf := ParagraphFormat_empty; inlines := [] |};
        BPara {| pStyle := Some "Heading 1"; pf := ParagraphFormat_empty;
                 inlines := [IRun {| r_content := [RText "Intro"];
                                     r_font := Font_empty |}] |};
        BTable [[[ {| pStyle := None; pf := ParagraphFormat_empty;
                      inlines := [IRun {| r_content := [RText "cell"];
                                          r_font := Font_empty |}] |} ]]]];
     sections := [{| pgNumType := None; header := None; footer := None |}] |}.

(** The same with a Normal style definition. *)
Definition styled_document : Document :=
  set_styles {["Normal" := {| st_font := Font_empty; st_pf := ParagraphFormat_empty |}]}
             sample_document.

(** A paragraph without its format and without the fonts of its runs:
    style, text, fields and breaks. *)
Definition plain_paragraph (p : Paragraph) : Paragraph :=
  set_pf ParagraphFormat_empty (map_runs (set_r_font Font_empty) p).

(** The style definitions and the plain body of a document. *)
Definition plain_body (doc : Document) : gmap string Style * list Block :=
  (styles doc, map_paragraphs true plain_paragraph (body doc)).


(* ===================================================================== *)
(** * Strings and the tokenizer *)
(* ===================================================================== *)

Section StringFacts.
Implicit Types (s t p : string) (i j k n : nat).

Lemma str_drop_empty i : str_drop i "" = "".
Proof. destruct i; reflexivity. Qed.

Lemma append_cons c s t : String c s +:+ t = String c (s +:+ t).
Proof. reflexivity. Qed.

Lemma str_take_drop n s : str_take n s +:+ str_drop n s = s.
Proof.
  revert s; induction n as [|n IH]; intros [|c s]; simpl; try reflexivity.
  rewrite append_cons. f_equal. apply IH.
Qed.

Lemma str_drop_length i s : String.length (str_drop i s) = String.length s - i.
Proof.
  revert s; induction i as [|i IH]; intros [|c s]; simpl; auto with lia.
Qed.

Lemma str_drop_drop i j s : str_drop j (str_drop i s) = str_drop (i + j) s.
Proof.
  revert s; induction i as [|i IH]; intros s; simpl; [reflexivity|].
  destruct s; [apply str_drop_empty | apply IH].
Qed.

Lemma str_drop_all s : str_drop (String.length s) s = "".
Proof. induction s; simpl; auto. Qed.

Lemma str_take_all s : str_take (String.length s) s = s.
Proof. induction s; simpl; congruence. Qed.

Lemma str_drop_take k n s :
  str_drop k (str_take n s) = str_take (n - k) (str_drop k s).
Proof.
  revert n s; induction k as [|k IH]; intros n s; simpl.
  - rewrite Nat.sub_0_r. reflexivity.
  - destruct n as [|n]; simpl.
    + reflexivity.
    + destruct s; simpl; [destruct (n - k); reflexivity | apply IH].
Qed.

Lemma prefix_split p s : String.prefix p s = true -> s = p +:+ str_drop (String.length p) s.
Proof.
  revert s; induction p as [|a p IH]; intros s H; [reflexivity|].
  destruct s as [|b s]; simpl in H; [discriminate|].
  destruct (ascii_dec a b); [subst|discriminate].
  simpl. rewrite append_cons. f_equal. apply IH, H.
Qed.

Lemma prefix_take p n s :
  String.prefix p (str_take n s) = true ->
  String.prefix p s = true /\ String.length p <= n.
Proof.
  revert n s; induction p as [|a p IH]; intros n s H.
  - split; [destruct s; reflexivity | simpl; lia].
  - destruct n as [|n]; simpl in H; [discriminate|].
    destruct s as [|b s]; simpl in H; [discriminate|].
    simpl. destruct (ascii_dec a b); [|discriminate].
    apply IH in H as [H1 H2]. split; [assumption | lia].
Qed.

Lemma contains_false p s k :
  contains p s = false -> String.prefix p (str_drop k s) = false.
Proof.
  revert k; induction s as [|c s IH]; intros k H; simpl in H.
  - rewrite str_drop_empty. apply orb_false_elim in H as [H _]. exact H.
  - apply orb_false_elim in H as [H1 H2].
    destruct k; simpl; [exact H1 | apply IH, H2].
Qed.

Lemma contains_true p s :
  contains p s = true -> exists k, String.prefix p (str_drop k s) = true.
Proof.
  induction s as [|c s IH]; simpl; intros H.
  - exists 0. apply orb_prop in H as [H|H]; [exact H | discriminate].
  - apply orb_prop in H as [H|H].
    + exists 0. exact H.
    + destruct (IH H) as [k Hk]. exists (S k). exact Hk.
Qed.





Lemma scan_literal_step t j :
  scan_literal t j = if cond_scan t j then scan_literal t (j + 1) else j.
Proof.
  unfold cond_scan. rewrite scan_literal_equation_1.
  destruct (inspect _) as [[] Hb]; simp scan_literal; rewrite Hb; reflexivity.
Qed.

Lemma split_loop_step t i :
  split_loop t i =
  if (i <? String.length t)%nat then
    if startswith t "{PAGE}" i then "{PAGE}" :: split_loop t (i + 6)
    else if startswith t "{NUMPAGES}" i then "{NUMPAGES}" :: split_loop t (i + 10)
    else slice t i (scan_literal t i) :: split_loop t (scan_literal t i)
  else [].
Proof.
  funelim (split_loop t i);
    repeat match goal with
           | H : @eq bool _ _ |- _ => rewrite H
           end; reflexivity.
Qed.

Lemma startswith_prefix t p i :
  startswith t p i = true -> String.prefix p (str_drop i t) = true.
Proof. unfold startswith. intros H. apply andb_prop in H as [_ H]. exact H. Qed.

Lemma prefix_startswith t p i :
  i <= String.length t -> String.prefix p (str_drop i t) = true ->
  startswith t p i = true.
Proof.
  intros Hi H. unfold startswith. rewrite H, andb_true_r. apply Nat.leb_le, Hi.
Qed.

(** What the inner loop leaves behind. *)
Lemma scan_literal_spec t i :
  i <= String.length t ->
  let j := scan_literal t i in
  i <= j <= String.length t
  /\ (forall k, i <= k < j ->
       startswith t "{PAGE}" k = false /\ startswith t "{NUMPAGES}" k = false).
Proof.
  intros Hi. simpl.
  remember (String.length t - i) as n eqn:Hn.
  revert i Hi Hn. induction n as [n IH] using lt_wf_ind. intros i Hi Hn.
  rewrite scan_literal_step. unfold cond_scan.
  destruct (i <? String.length t)%nat eqn:Hlt; simpl.
  - destruct (startswith t "{PAGE}" i) eqn:Hp; simpl;
      [split; [lia | intros k Hk; lia]|].
    destruct (startswith t "{NUMPAGES}" i) eqn:Hq; simpl;
      [split; [lia | intros k Hk; lia]|].
    apply Nat.ltb_lt in Hlt.
    destruct (IH (String.length t - (i + 1)) ltac:(lia) (i + 1) ltac:(lia) eq_refl)
      as [Hr Hno].
    split; [lia|]. intros k Hk.
    destruct (Nat.eq_dec k i) as [->|Hne]; [split; assumption|].
    apply Hno. lia.
  - split; [lia | intros k Hk; lia].
Qed.

Lemma append_length s t : String.length (s +:+ t) = String.length s + String.length t.
Proof. induction s as [|c s IH]; [reflexivity|]. rewrite append_cons. simpl. lia. Qed.

Lemma prefix_length p s : String.prefix p s = true -> String.length p <= String.length s.
Proof.
  intros H. apply prefix_split in H. apply (f_equal String.length) in H.
  rewrite append_length in H. lia.
Qed.

Lemma str_take_length n s : String.length (str_take n s) = Nat.min n (String.length s).
Proof.
  revert s; induction n as [|n IH]; intros [|c s]; simpl; auto.
Qed.

Lemma slice_drop t i j :
  i <= j -> slice t i j +:+ str_drop j t = str_drop i t.
Proof.
  intros Hij. unfold slice.
  replace (str_drop j t) with (str_drop (j - i) (str_drop i t))
    by (rewrite str_drop_drop; f_equal; lia).
  apply str_take_drop.
Qed.

(** A slice in which no placeholder starts contains no placeholder. *)
Lemma slice_placeholder_free t p i j :
  p <> "" -> j <= String.length t ->
  (forall k, i <= k < j -> startswith t p k = false) ->
  contains p (slice t i j) = false.
Proof.
  intros Hp Hj Hno.
  destruct (contains p (slice t i j)) eqn:Hc; [exfalso|reflexivity].
  apply contains_true in Hc as [k Hk]. unfold slice in Hk.
  rewrite str_drop_take in Hk. apply prefix_take in Hk as [Hk Hlen].
  rewrite str_drop_drop in Hk.
  assert (0 < String.length p) by (destruct p; [congruence | simpl; lia]).
  assert (Hs : startswith t p (i + k) = true) by (apply prefix_startswith; [lia | exact Hk]).
  rewrite Hno in Hs; [discriminate | lia].
Qed.



Lemma split_loop_spec t i :
  i <= String.length t ->
  join (split_loop t i) = str_drop i t /\ Forall token_ok (split_loop t i).
Proof.
  remember (String.length t - i) as n eqn:Hn.
  revert i Hn. induction n as [n IH] using lt_wf_ind. intros i Hn Hi.
  rewrite split_loop_step.
  destruct (i <? String.length t)%nat eqn:Hlt.
  - apply Nat.ltb_lt in Hlt.
    destruct (startswith t "{PAGE}" i) eqn:Hp.
    { pose proof (startswith_prefix _ _ _ Hp) as Hpre.
      pose proof (prefix_length _ _ Hpre) as Hlen.
      rewrite str_drop_length in Hlen. simpl in Hlen.
      destruct (IH (String.length t - (i + 6)) ltac:(lia) (i + 6) eq_refl ltac:(lia))
        as [Hj Hf].
      split.
      - simpl. rewrite Hj. rewrite (prefix_split _ _ Hpre).
        rewrite str_drop_drop. reflexivity.
      - constructor; [left; reflexivity | exact Hf]. }
    destruct (startswith t "{NUMPAGES}" i) eqn:Hq.
    { pose proof (startswith_prefix _ _ _ Hq) as Hpre.
      pose proof (prefix_length _ _ Hpre) as Hlen.
      rewrite str_drop_length in Hlen. simpl in Hlen.
      destruct (IH (String.length t - (i + 10)) ltac:(lia) (i + 10) eq_refl ltac:(lia))
        as [Hj Hf].
      split.
      - simpl. rewrite Hj. rewrite (prefix_split _ _ Hpre).
        rewrite str_drop_drop. reflexivity.
      - constructor; [right; left; reflexivity | exact Hf]. }
    assert (Hstep : scan_literal t i = scan_literal t (i + 1)).
    { rewrite (scan_literal_step t i). unfold cond_scan.
      rewrite Hp, Hq. apply Nat.ltb_lt in Hlt. rewrite Hlt. reflexivity. }
    destruct (scan_literal_spec t i Hi) as [Hr Hno].
    destruct (scan_literal_spec t (i + 1) ltac:(lia)) as [Hr1 _].
    set (j := scan_literal t i) in *.
    assert (Hij : i < j) by (unfold j; lia).
    destruct (IH (String.length t - j) ltac:(lia) j eq_refl ltac:(lia)) as [Hj Hf].
    split.
    + simpl. rewrite Hj. apply slice_drop. lia.
    + constructor; [|exact Hf]. right; right. split; [|split].
      * intros Hempty. apply (f_equal String.length) in Hempty.
        unfold slice in Hempty. rewrite str_take_length, str_drop_length in Hempty.
        simpl in Hempty. lia.
      * apply slice_placeholder_free; [discriminate | lia |].
        intros k Hk. apply Hno, Hk.
      * apply slice_placeholder_free; [discriminate | lia |].
        intros k Hk. apply Hno, Hk.
  - apply Nat.ltb_ge in Hlt. split; [|constructor].
    simpl. replace i with (String.length t) by lia. symmetry. apply str_drop_all.
Qed.

(** Without a placeholder anywhere the inner loop runs to the end. *)
Lemma scan_literal_to_end t i :
  contains "{PAGE}" t = false -> contains "{NUMPAGES}" t = false ->
  i <= String.length t -> scan_literal t i = String.length t.
Proof.
  intros Hp Hq.
  remember (String.length t - i) as n eqn:Hn.
  revert i Hn. induction n as [n IH] using lt_wf_ind. intros i Hn Hi.
  rewrite scan_literal_step. unfold cond_scan, startswith.
  rewrite (contains_false _ _ i Hp), (contains_false _ _ i Hq).
  rewrite !andb_false_r. simpl. rewrite !andb_true_r.
  destruct (i <? String.length t)%nat eqn:Hlt.
  - apply Nat.ltb_lt in Hlt. apply (IH (String.length t - (i + 1))); lia.
  - apply Nat.ltb_ge in Hlt. lia.
Qed.
End StringFacts.

Example split_template_example :
  _split_template "Page {PAGE} of {NUMPAGES} - end"
  = ["Page "; "{PAGE}"; " of "; "{NUMPAGES}"; " - end"].
Proof. reflexivity. Qed.

(** Claim C9.  For every template, joining the tokens of
    [_split_template] in order gives back the template, and every token
    is the placeholder [{PAGE}], the placeholder [{NUMPAGES}], or a
    non-empty literal that contains neither placeholder. *)
Theorem split_template_partition (t : string) :
  join (_split_template t) = t /\ Forall token_ok (_split_template t).
Proof.
  unfold _split_template. destruct (split_loop_spec t 0 ltac:(lia)) as [H1 H2].
  split; [exact H1 | exact H2].
Qed.

(** Claim C3, as stated, fails on the empty template: it holds no
    placeholder, and the tokenizer returns no token at all rather than the
    one-token list. *)
Lemma split_template_empty_counterexample :
  contains "{PAGE}" "" = false /\ contains "{NUMPAGES}" "" = false
  /\ _split_template "" = [] /\ _split_template "" <> [""].
Proof. repeat split; try reflexivity. discriminate. Qed.

(** Claim C3, amended.  For every non-empty template that contains
    neither [{PAGE}] nor [{NUMPAGES}], the tokenizer returns exactly one
    token, the template itself. *)
Theorem split_template_no_placeholder (t : string) :
  t <> "" ->
  contains "{PAGE}" t = false -> contains "{NUMPAGES}" t = false ->
  _split_template t = [t].
Proof.
  intros Hne Hp Hq. unfold _split_template.
  rewrite split_loop_step.
  assert (0 < String.length t) as Hlen by (destruct t; [congruence | simpl; lia]).
  apply Nat.ltb_lt in Hlen as Hlt. rewrite Hlt.
  unfold startswith. rewrite (contains_false _ _ 0 Hp), (contains_false _ _ 0 Hq).
  rewrite !andb_false_r.
  rewrite (scan_literal_to_end t 0 Hp Hq ltac:(lia)).
  rewrite split_loop_step, Nat.ltb_irrefl.
  unfold slice. rewrite Nat.sub_0_r. simpl. rewrite str_take_all. reflexivity.
Qed.

Lemma split_template_no_placeholder_witness :
  "Trang" <> "" /\ contains "{PAGE}" "Trang" = false
  /\ contains "{NUMPAGES}" "Trang" = false
  /\ _split_template "Trang" = ["Trang"].
Proof.
  split; [discriminate|]. split; [reflexivity|]. split; [reflexivity|].
  apply (split_template_no_placeholder "Trang"); [discriminate | reflexivity | reflexivity].
Defined.

(* ===================================================================== *)
(** * Configuration: merge, construction, round trip *)
(* ===================================================================== *)

Lemma deep_merge_dict a items : deep_merge a (VDict items) = merge_items a items.
Proof.
  simpl. revert a. induction items as [|[k v] rest IH]; intros a; [reflexivity|].
  simpl. destruct (isinstance_dict v && _); [|apply IH].
  destruct (dict_get k a) as [[]|]; try apply IH.
  destruct (deep_merge items v); simpl; [apply IH | reflexivity].
Qed.

Lemma deep_merge_total b : forall a, isinstance_dict b = true -> exists out, deep_merge a b = Ok out.
Proof.
  induction b as [| | | | | |items IH] using value_ind_nested; intros a Hd; try discriminate.
  clear Hd. rewrite deep_merge_dict. revert a.
  induction IH as [|[k v] rest Hv _ IHrest]; intros a; simpl; [eauto|].
  destruct (isinstance_dict v) eqn:Hdv; simpl; [|apply IHrest].
  destruct (dict_get k a) as [[]|]; simpl; try apply IHrest.
  destruct (Hv items Hdv) as [sub Hsub]. simpl in Hsub. rewrite Hsub. simpl. apply IHrest.
Qed.

Lemma dict_get_set k k' v d :
  dict_get k (dict_set k' v d) = if String.eqb k k' then Some v else dict_get k d.
Proof.
  induction d as [|[k0 v0] d IH]; simpl.
  - destruct (String.eqb k k'); reflexivity.
  - destruct (String.eqb k' k0) eqn:E1; simpl.
    + apply String.eqb_eq in E1. subst k0. destruct (String.eqb k k'); reflexivity.
    + destruct (String.eqb k k0) eqn:E2.
      * apply String.eqb_eq in E2. subst k0.
        rewrite String.eqb_sym, E1. reflexivity.
      * exact IH.
Qed.

Lemma dict_get_None k d : dict_get k d = None <-> k ∉ dict_keys d.
Proof.
  induction d as [|[k0 v0] d IH]; simpl.
  - split; [intros _; apply not_elem_of_nil | reflexivity].
  - rewrite not_elem_of_cons. destruct (String.eqb k k0) eqn:E.
    + apply String.eqb_eq in E. subst. split; [discriminate | tauto].
    + apply String.eqb_neq in E. rewrite IH. tauto.
Qed.

(** The merged dict, read key by key. *)
Lemma merge_items_lookup its : forall out0,
  NoDup (dict_keys its) ->
  exists out, merge_items out0 its = Ok out /\
    forall k, dict_get k out =
              match dict_get k its with
              | None => dict_get k out0
              | Some v => Some (merged_value (dict_get k out0) v)
              end.
Proof.
  induction its as [|[k0 v0] rest IH]; intros out0 Hnd; simpl.
  - eauto.
  - inversion Hnd as [|? ? Hnotin Hnd']; subst.
    assert (Hstep : exists out1,
      (if isinstance_dict v0 && from_option isinstance_dict false (dict_get k0 out0)
       then match dict_get k0 out0 with
            | Some (VDict ak) =>
                sub ← deep_merge ak v0; merge_items (dict_set k0 (VDict sub) out0) rest
            | _ => merge_items (dict_set k0 v0 out0) rest
            end
       else merge_items (dict_set k0 v0 out0) rest)
      = merge_items out1 rest
      /\ out1 = dict_set k0 (merged_value (dict_get k0 out0) v0) out0).
    { unfold merged_value.
      destruct (dict_get k0 out0) as [old|]; [|simpl; rewrite andb_false_r; eauto].
      destruct old; try (simpl; rewrite andb_false_r; eauto; fail).
      destruct (isinstance_dict v0) eqn:Hd.
      - destruct (deep_merge_total v0 items Hd) as [sub Hsub].
        destruct v0; try discriminate. rewrite Hsub. simpl. eauto.
      - destruct v0; try discriminate; simpl; eauto. }
    destruct Hstep as (out1 & -> & ->).
    destruct (IH (dict_set k0 (merged_value (dict_get k0 out0) v0) out0) Hnd')
      as (out & Hout & Hlook).
    exists out. split; [exact Hout|].
    intros k. rewrite Hlook, dict_get_set.
    destruct (String.eqb k k0) eqn:E.
    + apply String.eqb_eq in E. subst k0.
      apply dict_get_None in Hnotin. rewrite Hnotin. reflexivity.
    + reflexivity.
Qed.

(** Without the uniqueness assumption: keys absent from [b] are kept. *)
Lemma merge_items_absent its : forall out0 k,
  dict_get k its = None ->
  exists out, merge_items out0 its = Ok out /\ dict_get k out = dict_get k out0.
Proof.
  induction its as [|[k0 v0] rest IH]; intros out0 k Hk; simpl in *; [eauto|].
  destruct (String.eqb k k0) eqn:E; [discriminate|].
  assert (Hstep : forall x, dict_get k (dict_set k0 x out0) = dict_get k out0)
    by (intros x; rewrite dict_get_set, E; reflexivity).
  destruct (isinstance_dict v0 && _) eqn:Hc.
  - destruct (dict_get k0 out0) as [[]|] eqn:Hg;
      try (destruct (IH (dict_set k0 v0 out0) k Hk) as (o & Ho & Hl);
           exists o; split; [exact Ho | rewrite Hl; apply Hstep]).
    apply andb_prop in Hc as [Hd _].
    destruct (deep_merge_total v0 items Hd) as [sub Hsub]. rewrite Hsub. simpl.
    destruct (IH (dict_set k0 (VDict sub) out0) k Hk) as (o & Ho & Hl).
    exists o; split; [exact Ho | rewrite Hl; apply Hstep].
  - destruct (IH (dict_set k0 v0 out0) k Hk) as (o & Ho & Hl).
    exists o; split; [exact Ho | rewrite Hl; apply Hstep].
Qed.

Lemma merge_items_step k v rest out :
  merge_items out ((k, v) :: rest)
  = merge_items (dict_set k (merged_value (dict_get k out) v) out) rest.
Proof.
  simpl. unfold merged_value.
  destruct (dict_get k out) as [old|]; [|simpl; rewrite andb_false_r; reflexivity].
  destruct old; try (simpl; rewrite andb_false_r; reflexivity).
  destruct (isinstance_dict v) eqn:Hd.
  - destruct (deep_merge_total v items Hd) as [sub Hsub].
    destruct v; try discriminate. rewrite Hsub. reflexivity.
  - destruct v; try discriminate; reflexivity.
Qed.

Lemma dict_get_app_r k done rest :
  k ∉ dict_keys done -> dict_get k (done ++ rest)%list = dict_get k rest.
Proof.
  induction done as [|[k0 v0] done IH]; simpl; [reflexivity|].
  rewrite not_elem_of_cons. intros [Hne Hnotin].
  apply String.eqb_neq in Hne. rewrite Hne. apply IH, Hnotin.
Qed.

Lemma dict_set_app_r k v x done rest :
  k ∉ dict_keys done ->
  dict_set k v (done ++ (k, x) :: rest)%list = (done ++ (k, v) :: rest)%list.
Proof.
  induction done as [|[k0 v0] done IH]; simpl.
  - rewrite String.eqb_refl. reflexivity.
  - rewrite not_elem_of_cons. intros [Hne Hnotin].
    apply String.eqb_neq in Hne. rewrite Hne. f_equal. apply IH, Hnotin.
Qed.



Lemma merge_items_kept a its : forall done,
  Forall2 kept a its -> NoDup (dict_keys its) ->
  (forall k, k ∈ dict_keys done -> k ∉ dict_keys its) ->
  merge_items (done ++ a)%list its = Ok (done ++ its)%list.
Proof.
  intros done H. revert done.
  induction H as [|[k x] [k' v] a its [Hk Hv] _ IH]; intros done Hnd Hdis.
  - reflexivity.
  - cbn [fst snd] in Hk, Hv. subst k'.
    inversion Hnd as [|? ? Hnotin Hnd']; subst.
    assert (Hkd : k ∉ dict_keys done).
    { intros Hin. apply (Hdis k Hin). simpl. apply elem_of_cons. left. reflexivity. }
    rewrite merge_items_step, dict_get_app_r by exact Hkd.
    cbn [dict_get]. rewrite String.eqb_refl, Hv, dict_set_app_r by exact Hkd.
    replace (done ++ (k, v) :: its)%list with ((done ++ [(k, v)]) ++ its)%list
      by (rewrite <- app_assoc; reflexivity).
    replace (done ++ (k, v) :: a)%list with ((done ++ [(k, v)]) ++ a)%list
      by (rewrite <- app_assoc; reflexivity).
    apply IH; [exact Hnd'|].
    intros j Hj. unfold dict_keys in Hj. rewrite map_app in Hj.
    apply elem_of_app in Hj as [Hj|Hj].
    + intros Hin. apply (Hdis j Hj). simpl. apply elem_of_cons. right. exact Hin.
    + simpl in Hj. apply list_elem_of_singleton in Hj. subst j. exact Hnotin.
Qed.

Lemma deep_merge_kept (a its : dict) :
  Forall2 kept a its -> NoDup (dict_keys its) ->
  deep_merge a (VDict its) = Ok its.
Proof.
  intros H Hnd. rewrite deep_merge_dict.
  apply (merge_items_kept a its [] H Hnd). intros k Hk. inversion Hk.
Qed.

Ltac nodup_keys := cbn [dict_keys map fst]; apply (bool_decide_unpack _); vm_compute; exact I.
Ltac kept_leaves := repeat (constructor; [split; reflexivity|]); constructor.




Lemma cfg_roundtrip_merge cfg :
  deep_merge (cfg_to_dict ReportConfig_default) (VDict (cfg_to_dict cfg))
  = Ok (cfg_to_dict cfg).
Proof.
  apply deep_merge_kept; [|nodup_keys].
  unfold cfg_to_dict.
  repeat (constructor; [split; [reflexivity | cbn [fst snd]] |]); try constructor.
  all: unfold merged_value, asdict_StyleConfig, asdict_PageSetupConfig,
         asdict_PageNumberConfig, asdict_TocConfig, asdict_ProcessingConfig;
       rewrite deep_merge_kept; [reflexivity | kept_leaves | nodup_keys].
Qed.

Lemma cfg_from_dict_to_dict cfg : cfg_from_dict (VDict (cfg_to_dict cfg)) = Ok cfg.
Proof.
  unfold cfg_from_dict. rewrite cfg_roundtrip_merge.
  destruct cfg as [[] [] [] [] [] [] [] [] [] []]. reflexivity.
Qed.

(** Claim C1.  Whatever the JSON library pair is, if it carries the
    serialized form of [cfg] through unchanged, then loading what
    [save_config_json_bytes] wrote gives back [cfg] itself. *)
Theorem config_json_roundtrip
    (json_dumps : value -> string) (json_loads : string -> result value)
    (cfg : ReportConfig) :
  json_loads (json_dumps (VDict (cfg_to_dict cfg))) = Ok (VDict (cfg_to_dict cfg)) ->
  load_config_json_bytes json_loads (save_config_json_bytes json_dumps cfg) = Ok cfg.
Proof.
  intros Hjson. unfold load_config_json_bytes, save_config_json_bytes.
  rewrite Hjson. apply cfg_from_dict_to_dict.
Qed.

(** Claim C7.  Merging the empty mapping over the defaults gives the
    defaults; and for any two mappings, a key absent from the partial one
    keeps in the merged mapping the value it has in the first. *)
Theorem deep_merge_defaulting :
  deep_merge (cfg_to_dict ReportConfig_default) (VDict [])
  = Ok (cfg_to_dict ReportConfig_default)
  /\ forall (a b : dict) (k : string),
       dict_get k b = None ->
       exists out, deep_merge a (VDict b) = Ok out /\ dict_get k out = dict_get k a.
Proof.
  split; [reflexivity|].
  intros a b k Hk. rewrite deep_merge_dict. apply merge_items_absent, Hk.
Qed.



Lemma dict_keys_set k v d j :
  j ∈ dict_keys (dict_set k v d) <-> j = k \/ j ∈ dict_keys d.
Proof.
  destruct (dict_get j (dict_set k v d)) eqn:E.
  - assert (Hin : j ∈ dict_keys (dict_set k v d)).
    { destruct (decide (j ∈ dict_keys (dict_set k v d))) as [H|H]; [exact H|].
      apply dict_get_None in H. congruence. }
    split; [intros _|intros _; exact Hin].
    rewrite dict_get_set in E. destruct (String.eqb j k) eqn:Ejk.
    + left. apply String.eqb_eq, Ejk.
    + right. destruct (decide (j ∈ dict_keys d)) as [H|H]; [exact H|].
      apply dict_get_None in H. congruence.
  - pose proof E as E'. apply dict_get_None in E'.
    rewrite dict_get_set in E. destruct (String.eqb j k) eqn:Ejk; [discriminate|].
    apply dict_get_None in E. apply String.eqb_neq in Ejk. tauto.
Qed.

(** Merging never loses a key. *)
Lemma merge_items_keys its : forall out o k,
  merge_items out its = Ok o ->
  k ∈ dict_keys out \/ k ∈ dict_keys its -> k ∈ dict_keys o.
Proof.
  induction its as [|[k0 v0] rest IH]; intros out o k Hm Hk.
  - simpl in Hm. injection Hm as <-. destruct Hk as [Hk|Hk]; [exact Hk | inversion Hk].
  - rewrite merge_items_step in Hm. apply (IH _ _ _ Hm).
    destruct Hk as [Hk|Hk].
    + left. apply dict_keys_set. right. exact Hk.
    + simpl in Hk. apply elem_of_cons in Hk as [->|Hk].
      * left. apply dict_keys_set. left. reflexivity.
      * right. exact Hk.
Qed.

Lemma known_kwargs_false fields kw k :
  k ∈ dict_keys kw -> k ∉ fields -> known_kwargs fields kw = false.
Proof.
  intros Hin Hnot. unfold known_kwargs.
  destruct (forallb _ _) eqn:E; [exfalso|reflexivity].
  rewrite forallb_forall in E. apply list_elem_of_In in Hin.
  specialize (E k Hin). apply existsb_exists in E as (f & Hf & Heq).
  apply String.eqb_eq in Heq. subst f. apply Hnot, list_elem_of_In, Hf.
Qed.

Lemma merged_value_dict a m sub :
  deep_merge a (VDict m) = Ok sub -> merged_value (Some (VDict a)) (VDict m) = VDict sub.
Proof. intros H. unfold merged_value. rewrite H. reflexivity. Qed.

Lemma default_sections sec :
  sec ∈ SECTION_KEYS ->
  exists dflt, dict_get sec (cfg_to_dict ReportConfig_default) = Some (VDict dflt).
Proof.
  unfold SECTION_KEYS. intros H.
  repeat (apply elem_of_cons in H as [->|H]; [eexists; reflexivity|]).
  inversion H.
Qed.

Lemma dict_get_del k j d :
  dict_get j (dict_del k d) = if String.eqb j k then None else dict_get j d.
Proof.
  induction d as [|[k0 v0] d IH]; simpl; [destruct (String.eqb j k); reflexivity|].
  unfold dict_del in *. simpl. destruct (String.eqb k k0) eqn:E; simpl.
  - apply String.eqb_eq in E. subst k0. rewrite IH.
    destruct (String.eqb j k); reflexivity.
  - destruct (String.eqb j k0) eqn:E2.
    + apply String.eqb_eq in E2. subst k0. rewrite String.eqb_sym, E. reflexivity.
    + exact IH.
Qed.

Lemma dict_del_NoDup k d : NoDup (dict_keys d) -> NoDup (dict_keys (dict_del k d)).
Proof.
  induction d as [|[k0 v0] d IH]; simpl; [intros; constructor|].
  intros H. inversion H as [|? ? Hnotin Hnd]; subst.
  unfold dict_del in *. simpl. destruct (negb _); simpl; [|apply IH, Hnd].
  constructor; [|apply IH, Hnd].
  intros Hin. apply Hnotin. 
  destruct (decide (k0 ∈ dict_keys d)) as [Hd|Hd]; [exact Hd|exfalso].
  apply dict_get_None in Hd.
  assert (dict_get k0 (List.filter (λ kv, negb (k =? kv.1)%string) d) = None).
  { pose proof (dict_get_del k k0 d) as Hdel. unfold dict_del in Hdel.
    rewrite Hdel, Hd. destruct (String.eqb k0 k); reflexivity. }
  apply dict_get_None in H0. exact (H0 Hin).
Qed.

(** [cfg_from_dict] reads the merged dict at the ten section keys only. *)
Lemma cfg_from_dict_ext (d1 d2 : value) (m1 m2 : dict) :
  deep_merge (cfg_to_dict ReportConfig_default) d1 = Ok m1 ->
  deep_merge (cfg_to_dict ReportConfig_default) d2 = Ok m2 ->
  (forall sec, sec ∈ SECTION_KEYS -> dict_get sec m1 = dict_get sec m2) ->
  cfg_from_dict d1 = cfg_from_dict d2.
Proof.
  intros H1 H2 Hsame. unfold cfg_from_dict. rewrite H1, H2.
  cbn [mbind result_bind rbind]. unfold getitem.
  rewrite !Hsame by (unfold SECTION_KEYS; set_solver).
  reflexivity.
Qed.

Lemma build_unknown_kwarg (kws : dict) (k : string) :
  k ∈ dict_keys kws ->
  (k ∉ StyleConfig_fields -> build_style (VDict kws) = Raise TypeError)
  /\ (k ∉ PageSetupConfig_fields -> build_pagesetup (VDict kws) = Raise TypeError)
  /\ (k ∉ PageNumberConfig_fields -> build_pagenumber (VDict kws) = Raise TypeError)
  /\ (k ∉ TocConfig_fields -> build_toc (VDict kws) = Raise TypeError)
  /\ (k ∉ ProcessingConfig_fields -> build_processing (VDict kws) = Raise TypeError).
Proof.
  intros Hk.
  unfold build_style, build_pagesetup, build_pagenumber, build_toc, build_processing.
  repeat split; intros Hnot; rewrite (known_kwargs_false _ kws k Hk Hnot); reflexivity.
Qed.

Lemma section_build_fails (sec : string) (merged kws : dict) (k : string) :
  sec ∈ SECTION_KEYS ->
  dict_get sec merged = Some (VDict kws) ->
  k ∈ dict_keys kws -> k ∉ fields_of sec ->
  forall d, deep_merge (cfg_to_dict ReportConfig_default) d = Ok merged ->
  exists e, cfg_from_dict d = Raise e.
Proof.
  intros Hsec Hget Hk Hnot d Hm. unfold cfg_from_dict. rewrite Hm.
  unfold mbind, result_bind. cbn [rbind].
  assert (Hgi : getitem sec merged = Ok (VDict kws))
    by (unfold getitem; rewrite Hget; reflexivity).
  destruct (build_unknown_kwarg kws k Hk) as (B1 & B2 & B3 & B4 & B5).
  unfold SECTION_KEYS in Hsec.
  repeat (apply elem_of_cons in Hsec as [->|Hsec]); [..|inversion Hsec].
  all: repeat first
         [ progress (rewrite Hgi; cbn [rbind];
                     first [rewrite (B1 Hnot) | rewrite (B2 Hnot) | rewrite (B3 Hnot)
                           | rewrite (B4 Hnot) | rewrite (B5 Hnot)])
         | match goal with
           | |- exists _, rbind (rbind (getitem ?s ?m) ?b) _ = _ =>
               destruct (rbind (getitem s m) b); cbn [rbind];
               [|eexists; reflexivity]
           end ].
  all: eexists; reflexivity.
Qed.

(** Claim C10.  Let the JSON text decode to a mapping [d].  A top-level
    key outside the ten section keys reaches the merged mapping with its
    value and changes nothing in the result (loading gives what it gives
    without that key; alone, it gives the defaults).  A key that is not a
    field, inside the mapping of one of the ten sections, makes loading
    raise. *)
Theorem unknown_keys
    (json_loads : string -> result value) (data : string) (d : dict) :
  json_loads data = Ok (VDict d) ->
  NoDup (dict_keys d) ->
  (forall k v, dict_get k d = Some v -> k ∉ SECTION_KEYS ->
     (exists merged,
        deep_merge (cfg_to_dict ReportConfig_default) (VDict d) = Ok merged
        /\ dict_get k merged = Some v)
     /\ load_config_json_bytes json_loads data = cfg_from_dict (VDict (dict_del k d))
     /\ (d = [(k, v)] ->
         load_config_json_bytes json_loads data = Ok ReportConfig_default))
  /\ (forall sec m k,
        sec ∈ SECTION_KEYS -> dict_get sec d = Some (VDict m) ->
        k ∈ dict_keys m -> k ∉ fields_of sec ->
        exists e, load_config_json_bytes json_loads data = Raise e).
Proof.
  intros Hjson Hnd.
  assert (Hload : load_config_json_bytes json_loads data = cfg_from_dict (VDict d))
    by (unfold load_config_json_bytes; rewrite Hjson; reflexivity).
  destruct (merge_items_lookup d (cfg_to_dict ReportConfig_default) Hnd)
    as (merged & Hm & Hlook).
  rewrite <- deep_merge_dict in Hm.
  split.
  - intros k v Hk Hunknown.
    assert (Hdef : dict_get k (cfg_to_dict ReportConfig_default) = None)
      by (apply dict_get_None; exact Hunknown).
    assert (Hign : cfg_from_dict (VDict d) = cfg_from_dict (VDict (dict_del k d))).
    { destruct (merge_items_lookup (dict_del k d) (cfg_to_dict ReportConfig_default)
                  (dict_del_NoDup k d Hnd)) as (merged' & Hm' & Hlook').
      rewrite <- deep_merge_dict in Hm'.
      apply (cfg_from_dict_ext _ _ _ _ Hm Hm').
      intros sec Hsec. rewrite Hlook, Hlook', dict_get_del.
      destruct (String.eqb sec k) eqn:E; [|reflexivity].
      apply String.eqb_eq in E. subst sec. contradiction. }
    split; [|split].
    + exists merged. split; [exact Hm|].
      rewrite Hlook, Hk, Hdef. reflexivity.
    + rewrite Hload. exact Hign.
    + intros ->. rewrite Hload, Hign. simpl. rewrite String.eqb_refl. reflexivity.
  - intros sec m k Hsec Hget Hk Hnot. rewrite Hload.
    destruct (default_sections sec Hsec) as [dflt Hdflt].
    destruct (deep_merge_total (VDict m) dflt eq_refl) as [kws Hkws].
    apply (section_build_fails sec merged kws k Hsec); [|..|exact Hm].
    + rewrite Hlook, Hget, Hdflt. f_equal. apply merged_value_dict, Hkws.
    + rewrite deep_merge_dict in Hkws. apply (merge_items_keys _ _ _ _ Hkws).
      right. exact Hk.
    + exact Hnot.
Qed.

(* ===================================================================== *)
(** * Page numbering *)
(* ===================================================================== *)

Section MonadFacts.
Context {S : Type}.

Lemma bind_ok {A B} (m : M S A) (k : A -> M S B) s a s' :
  m s = (Ok a, s') -> (m ≫= k) s = k a s'.
Proof. intros H. unfold mbind, M_bind. rewrite H. reflexivity. Qed.

Lemma try_pass_ok (m : M S unit) s : exists s', try_pass m s = (Ok tt, s').
Proof. unfold try_pass. destruct (m s) as [r s']. eauto. Qed.
End MonadFacts.

Lemma set_section_page_numbering_ok (start_at fmt : value) (restart : bool) f n s :
  fmt = VStr f -> start_at = VInt n ->
  exists s',
    _set_section_page_numbering start_at fmt restart s = (Ok tt, s')
    /\ pgNumType s' = Some (numbering_attrs (pgNumType s)
                              (PAGE_FMT_MAP_get (upper f) "decimal")
                              (if restart then Some n else None))
    /\ header s' = header s /\ footer s' = footer s.
Proof.
  intros -> ->. unfold _set_section_page_numbering, numbering_attrs.
  destruct s as [pg h f0]. destruct restart, pg as [attrs|]; simpl.
  - eexists; split; [reflexivity|]. simpl. auto.
  - eexists; split; [reflexivity|]. simpl. auto.
  - unfold mbind, M_bind, mget, mmodify, lift, set_attr, pop_attr; simpl.
    rewrite lookup_insert_ne by discriminate.
    destruct (attrs !! "w:start") eqn:E; simpl.
    + eexists; split; [reflexivity|]. simpl. auto.
    + eexists; split; [reflexivity|]. simpl. split; [|auto].
      f_equal. rewrite delete_id by (rewrite lookup_insert_ne by discriminate; exact E).
      reflexivity.
  - unfold mbind, M_bind, mget, mmodify, lift, set_attr, pop_attr; simpl.
    rewrite lookup_insert_ne by discriminate. rewrite lookup_empty. simpl.
    eexists; split; [reflexivity|]. simpl. split; [|auto].
    f_equal; try reflexivity.
Qed.

Lemma first_paragraph_lookup blocks h :
  first_paragraph blocks = Some h -> exists p, blocks !! h = Some (BPara p).
Proof.
  revert h; induction blocks as [|[p|t] rest IH]; intros h H; simpl in H.
  - discriminate.
  - injection H as <-. eauto.
  - destruct (first_paragraph rest) as [h'|]; [|discriminate].
    injection H as <-. apply IH. reflexivity.
Qed.

Lemma xml_compatible_drop i s : xml_compatible s = true -> xml_compatible (str_drop i s) = true.
Proof.
  revert s; induction i as [|i IH]; intros s H; [exact H|].
  destruct s as [|c s]; [reflexivity|]. simpl in *.
  apply andb_prop in H as [_ H]. apply IH, H.
Qed.

Lemma forbidden3_take c n s :
  forbidden3 c (str_take n s) = true -> forbidden3 c s = true.
Proof.
  destruct n as [|[|n]], s as [|c2 [|c3 s]]; simpl; try discriminate; auto.
Qed.

Lemma xml_compatible_take n s : xml_compatible s = true -> xml_compatible (str_take n s) = true.
Proof.
  revert s; induction n as [|n IH]; intros s H; [reflexivity|].
  destruct s as [|c s]; [reflexivity|].
  cbn [str_take xml_compatible] in *.
  apply andb_prop in H as [H1 H2]. rewrite (IH _ H2), andb_true_r.
  destruct (N_of_ascii c <? 128)%N; [exact H1|].
  destruct (forbidden3 c (str_take n s)) eqn:E; [|reflexivity].
  apply forbidden3_take in E. rewrite E in H1. discriminate.
Qed.

Lemma xml_compatible_slice s i j : xml_compatible s = true -> xml_compatible (slice s i j) = true.
Proof. intros H. unfold slice. apply xml_compatible_take, xml_compatible_drop, H. Qed.

(** Every token is a placeholder or a slice of the template. *)
Lemma split_loop_tokens t i :
  Forall (fun tok => tok = "{PAGE}" \/ tok = "{NUMPAGES}" \/ exists a b, tok = slice t a b)
         (split_loop t i).
Proof.
  funelim (split_loop t i); try constructor; eauto.
Qed.

Section PageNumbers.
Variable pn : PageNumberConfig.
Hypothesis Hvalid : valid_pagenumber pn = true.

Lemma valid_fields :
  exists pos f t fnt n len,
    position pn = VStr pos /\ number_format pn = VStr f /\ template pn = VStr t
    /\ pn_font_name pn = VStr fnt /\ start_at pn = VInt n
    /\ pos ∈ PAGE_NUMBER_POSITION
    /\ xml_compatible t = true /\ xml_compatible fnt = true
    /\ Pt (pn_font_size_pt pn) = Ok len /\ check_unsigned len = Ok len.
Proof using Hvalid.
  unfold valid_pagenumber in Hvalid.
  destruct (position pn) as [| | | |pos| |]; try discriminate.
  destruct (number_format pn) as [| | | |f| |]; try discriminate.
  destruct (template pn) as [| | | |t| |]; try discriminate.
  destruct (pn_font_name pn) as [| | | |fnt| |]; try discriminate.
  destruct (start_at pn) as [| |n| | | |]; try discriminate.
  repeat (apply andb_prop in Hvalid as [Hvalid ?]).
  apply bool_decide_eq_true in Hvalid.
  destruct (Pt (pn_font_size_pt pn)) as [len|] eqn:E; [|discriminate].
  simpl in H. unfold check_unsigned in *.
  destruct (_ && _) eqn:Hr; [|discriminate].
  exists pos, f, t, fnt, n, len. rewrite Hr. repeat split; auto.
Qed.

Lemma on_last_run_ok (m : M Font unit) p r before :
  List.rev (inlines p) = IRun r :: before ->
  (forall f, exists f', m f = (Ok tt, f')) ->
  exists p' r', on_last_run m p = (Ok tt, p')
                /\ List.rev (inlines p') = IRun r' :: before.
Proof using Type.
  intros Hrev Hm. unfold on_last_run. rewrite Hrev.
  destruct (Hm (r_font r)) as [f' Hf']. rewrite Hf'.
  eexists _, _. split; [reflexivity|]. simpl.
  rewrite rev_app_distr, rev_involutive. reflexivity.
Qed.

Lemma add_run_ok part p :
  xml_compatible part = true ->
  exists p1 r,
    add_run part p = (Ok tt, p1) /\ List.rev (inlines p1) = IRun r :: List.rev (inlines p).
Proof using Type.
  intros Hpart. unfold add_run, mbind, M_bind, mmodify, mret, M_ret. simpl.
  destruct (String.eqb part ""); simpl.
  - eexists _, _. split; [reflexivity|]. simpl. rewrite rev_app_distr. reflexivity.
  - rewrite Hpart. eexists _, _. split; [reflexivity|]. simpl.
    rewrite removelast_last, rev_app_distr. reflexivity.
Qed.

Lemma add_part_ok part p :
  xml_compatible part = true -> exists p', add_part pn part p = (Ok tt, p').
Proof using Hvalid.
  intros Hpart.
  destruct valid_fields as (pos & f & t & fnt & n & len & _ & _ & _ & Hf & _ & _ & _ & Hfx & Hpt & Hchk).
  unfold add_part.
  destruct (String.eqb part "{PAGE}"); [eexists; reflexivity|].
  destruct (String.eqb part "{NUMPAGES}"); [eexists; reflexivity|].
  rewrite Hf, Hpt.
  destruct (add_run_ok part p Hpart) as (p1 & r1 & Hrun & Hrev1).
  erewrite bind_ok by exact Hrun.
  destruct (on_last_run_ok (Font_name_set (VStr fnt)) p1 _ _ Hrev1) as (p2 & r2 & Hname & Hrev2).
  { intros f0. unfold Font_name_set, attr_value. rewrite Hfx. eexists; reflexivity. }
  erewrite bind_ok by exact Hname.
  erewrite bind_ok by reflexivity.
  destruct (on_last_run_ok (Font_size_set len) p2 _ _ Hrev2) as (p3 & r3 & Hsize & Hrev3).
  { intros f0. unfold Font_size_set. rewrite Hchk. eexists; reflexivity. }
  erewrite bind_ok by exact Hsize.
  apply try_pass_ok.
Qed.

Lemma add_parts_ok parts : forall p,
  Forall (fun part => xml_compatible part = true) parts ->
  exists p', for_in parts (add_part pn) p = (Ok tt, p').
Proof using Hvalid.
  induction parts as [|part parts IH]; intros p Hall; simpl.
  - eexists; reflexivity.
  - inversion Hall as [|? ? H1 H2]; subst.
    destruct (add_part_ok part p H1) as [p1 Hp1].
    erewrite bind_ok by exact Hp1. apply IH, H2.
Qed.

Lemma tokens_xml_compatible t :
  xml_compatible t = true ->
  Forall (fun part => xml_compatible part = true) (_split_template t).
Proof using Type.
  intros Ht. unfold _split_template.
  eapply Forall_impl; [apply split_loop_tokens|].
  intros tok [->|[->|(a & b & ->)]]; [reflexivity | reflexivity |].
  apply xml_compatible_slice, Ht.
Qed.
End PageNumbers.

Section HeaderFooter.
Variable pn : PageNumberConfig.
Hypothesis Hvalid : valid_pagenumber pn = true.

Lemma fill_paragraph_ok a p : exists p', fill_paragraph pn a p = (Ok tt, p').
Proof using Hvalid.
  destruct (valid_fields pn Hvalid)
    as (pos & f & t & fnt & n & len & _ & _ & Ht & _ & _ & _ & Htx & _).
  unfold fill_paragraph. rewrite Ht.
  erewrite bind_ok by reflexivity. erewrite bind_ok by reflexivity.
  erewrite bind_ok by reflexivity.
  apply (add_parts_ok pn Hvalid), tokens_xml_compatible, Htx.
Qed.

Lemma on_paragraph_ok (m : M Paragraph unit) blocks h p :
  blocks !! h = Some (BPara p) ->
  (forall q, exists q', m q = (Ok tt, q')) ->
  exists blocks', on_paragraph h m blocks = (Ok tt, blocks').
Proof using Type.
  intros Hl Hm. unfold on_paragraph. rewrite Hl.
  destruct (Hm p) as [p' Hp']. rewrite Hp'. eauto.
Qed.

Lemma write_hdrftr_ok a blocks : exists blocks', write_hdrftr pn a blocks = (Ok tt, blocks').
Proof using Hvalid.
  unfold write_hdrftr. erewrite bind_ok by reflexivity.
  destruct (first_paragraph blocks) as [h|] eqn:E.
  - destruct (first_paragraph_lookup _ _ E) as [p Hp].
    erewrite bind_ok by reflexivity.
    apply (on_paragraph_ok _ _ _ _ Hp). intros q. apply fill_paragraph_ok.
  - erewrite bind_ok by reflexivity.
    eapply on_paragraph_ok; [|intros q; apply fill_paragraph_ok].
    rewrite lookup_app_r by reflexivity. rewrite Nat.sub_diag. reflexivity.
Qed.

Lemma definition_owner_Some is_footer secs idx j :
  definition_owner is_footer secs idx = Some j ->
  exists s blocks, secs !! j = Some s /\ hdrftr is_footer s = Some blocks.
Proof using Type.
  induction idx as [|idx IH]; simpl.
  - destruct (secs !! 0) as [s|] eqn:E; simpl; [|discriminate].
    destruct (hdrftr is_footer s) eqn:Eh; [|discriminate].
    intros [= <-]. eauto.
  - destruct (secs !! S idx) as [s|] eqn:E; simpl; [|exact IH].
    destruct (hdrftr is_footer s) eqn:Eh; [|exact IH].
    intros [= <-]. eauto.
Qed.

Lemma set_hdrftr_pgNumType is_footer x s :
  pgNumType (set_hdrftr is_footer x s) = pgNumType s.
Proof using Type. destruct is_footer; reflexivity. Qed.

(** The header/footer half of an iteration succeeds and leaves every
    [w:pgNumType] as it was. *)
Lemma hdrftr_half_ok is_footer a secs idx :
  idx < length secs ->
  exists secs',
    (owner ← get_or_add_definition is_footer idx ;
     on_nth owner (on_hdrftr is_footer (write_hdrftr pn a))) secs = (Ok tt, secs')
    /\ pgNumType <$> secs' = pgNumType <$> secs.
Proof using Hvalid.
  intros Hidx.
  assert (Hstep : forall (secs0 : list Section) j s,
             secs0 !! j = Some s ->
             exists secs',
               on_nth j (on_hdrftr is_footer (write_hdrftr pn a)) secs0 = (Ok tt, secs')
               /\ pgNumType <$> secs' = pgNumType <$> secs0).
  { intros secs0 j s Hj. unfold on_nth. rewrite Hj. unfold on_hdrftr, zoom.
    destruct (write_hdrftr_ok a (default [] (hdrftr is_footer s))) as [b' Hb'].
    rewrite Hb'. eexists. split; [reflexivity|].
    rewrite list_fmap_insert, set_hdrftr_pgNumType.
    apply list_insert_id. rewrite list_lookup_fmap, Hj. reflexivity. }
  assert (Hown : exists j secs1 s,
             get_or_add_definition is_footer idx secs = (Ok j, secs1)
             /\ secs1 !! j = Some s
             /\ pgNumType <$> secs1 = pgNumType <$> secs).
  { unfold get_or_add_definition, mbind, M_bind, mget.
    destruct (definition_owner is_footer secs idx) as [j|] eqn:E.
    - destruct (definition_owner_Some _ _ _ _ E) as (s & blocks & Hj & _).
      exists j, secs, s. auto.
    - destruct secs as [|s0 rest]; [simpl in Hidx; lia|].
      eexists 0, _, _. split; [reflexivity|]. split; [reflexivity|].
      simpl. rewrite set_hdrftr_pgNumType. reflexivity. }
  destruct Hown as (j & secs1 & s & Hrun1 & Hj & Hpg1).
  erewrite bind_ok by exact Hrun1.
  destruct (Hstep secs1 j s Hj) as (secs' & Hrun2 & Hpg2).
  exists secs'. split; [exact Hrun2|]. rewrite Hpg2. exact Hpg1.
Qed.
End HeaderFooter.

Lemma page_numbers_at_ok (pn : PageNumberConfig) secs idx s :
  valid_pagenumber pn = true ->
  secs !! idx = Some s ->
  exists secs' f n,
    number_format pn = VStr f /\ start_at pn = VInt n
    /\ page_numbers_at pn idx secs = (Ok tt, secs')
    /\ pgNumType <$> secs'
       = <[idx := Some (numbering_attrs (pgNumType s)
                          (PAGE_FMT_MAP_get (upper f) "decimal")
                          (if (idx =? 0)%nat then Some n
                           else if truthy (restart_each_section pn) then Some n
                                else None))]> (pgNumType <$> secs).
Proof.
  intros Hvalid Hs.
  destruct (valid_fields pn Hvalid)
    as (pos & f & t & fnt & n & len & Hpos & Hf & _ & _ & Hn & Hin & _).
  set (restart := if (idx =? 0)%nat then true else truthy (restart_each_section pn)).
  destruct (set_section_page_numbering_ok (start_at pn) (number_format pn) restart f n s Hf Hn)
    as (s' & Hset & Hpg & _ & _).
  assert (Hnum : (if (idx =? 0)%nat
                  then on_nth idx (_set_section_page_numbering (start_at pn) (number_format pn) true)
                  else on_nth idx (_set_section_page_numbering (start_at pn) (number_format pn)
                                     (truthy (restart_each_section pn)))) secs
                 = (Ok tt, <[idx := s']> secs)).
  { unfold restart in Hset. destruct (idx =? 0)%nat; unfold on_nth; rewrite Hs, Hset; reflexivity. }
  assert (Hlen : idx < length (<[idx := s']> secs)).
  { rewrite length_insert. apply lookup_lt_Some in Hs. exact Hs. }
  assert (Hpos' : exists isf key,
             str_startswith (position pn) "FOOTER" = Ok isf
             /\ str_split1 (position pn) "_"%char = Ok key
             /\ exists k, key.2 = Some k).
  { rewrite Hpos. unfold PAGE_NUMBER_POSITION in Hin.
    repeat (apply elem_of_cons in Hin as [->|Hin];
            [eexists _, _; split; [reflexivity|]; split; [reflexivity|];
             eexists; reflexivity|]).
    inversion Hin. }
  destruct Hpos' as (isf & key & Hsw & Hsp & k & Hk).
  unfold page_numbers_at.
  erewrite bind_ok by exact Hnum.
  rewrite Hsw, Hsp. erewrite bind_ok by reflexivity. erewrite bind_ok by reflexivity.
  rewrite Hk. erewrite bind_ok by reflexivity.
  match goal with
  | |- context [on_hdrftr isf (write_hdrftr pn ?a)] =>
      destruct (hdrftr_half_ok pn Hvalid isf a (<[idx := s']> secs) idx Hlen)
        as (secs' & Hrun & Hframe)
  end.
  exists secs', f, n. split; [exact Hf|]. split; [exact Hn|]. split; [exact Hrun|].
  rewrite Hframe, list_fmap_insert, Hpg. unfold restart.
  destruct (idx =? 0)%nat; [reflexivity|].
  destruct (truthy (restart_each_section pn)); reflexivity.
Qed.

(** Claim C4.  With page numbering enabled, restart-each-section off, and
    a valid page-number configuration whose start number is [n], applying
    page numbers to a document of three sections succeeds; afterwards the
    first section's [w:pgNumType] has [w:start] equal to [n] in decimal,
    and the second and third have a [w:pgNumType] without [w:start]. *)
Theorem page_numbers_three_sections (cfg : ReportConfig) (doc : Document)
    (s0 s1 s2 : Section) (n : Z) :
  valid_pagenumber (pagenumber cfg) = true ->
  truthy (enabled (pagenumber cfg)) = true ->
  truthy (restart_each_section (pagenumber cfg)) = false ->
  start_at (pagenumber cfg) = VInt n ->
  sections doc = [s0; s1; s2] ->
  exists doc' t0 t1 t2 a0 a1 a2,
    _apply_page_numbers cfg doc = (Ok tt, doc')
    /\ sections doc' = [t0; t1; t2]
    /\ pgNumType t0 = Some a0 /\ a0 !! "w:start" = Some (pretty n)
    /\ pgNumType t1 = Some a1 /\ a1 !! "w:start" = None
    /\ pgNumType t2 = Some a2 /\ a2 !! "w:start" = None.
Proof.
  intros Hvalid Hen Hre Hn Hsecs.
  set (pn := pagenumber cfg) in *.
  destruct (page_numbers_at_ok pn [s0; s1; s2] 0 s0 Hvalid eq_refl)
    as (l1 & f & n' & Hf & Hn' & Hrun1 & Hpg1).
  rewrite Hn in Hn'. injection Hn' as <-.
  destruct l1 as [|u0 [|u1 [|u2 [|]]]]; try discriminate Hpg1.
  simpl in Hpg1. injection Hpg1 as Hu0 Hu1 Hu2.
  destruct (page_numbers_at_ok pn [u0; u1; u2] 1 u1 Hvalid eq_refl)
    as (l2 & f2 & n2 & Hf2 & Hn2 & Hrun2 & Hpg2).
  destruct l2 as [|v0 [|v1 [|v2 [|]]]]; try discriminate Hpg2.
  simpl in Hpg2. rewrite Hre in Hpg2. injection Hpg2 as Hv0 Hv1 Hv2.
  destruct (page_numbers_at_ok pn [v0; v1; v2] 2 v2 Hvalid eq_refl)
    as (l3 & f3 & n3 & Hf3 & Hn3 & Hrun3 & Hpg3).
  destruct l3 as [|w0 [|w1 [|w2 [|]]]]; try discriminate Hpg3.
  simpl in Hpg3. rewrite Hre in Hpg3. injection Hpg3 as Hw0 Hw1 Hw2.
  eexists (set_sections [w0; w1; w2] doc), w0, w1, w2, _, _, _.
  split.
  { unfold _apply_page_numbers. fold pn. rewrite Hen. cbn [negb].
    erewrite bind_ok by reflexivity. unfold zoom. rewrite Hsecs. simpl for_in.
    erewrite bind_ok by exact Hrun1. erewrite bind_ok by exact Hrun2.
    erewrite bind_ok by exact Hrun3. reflexivity. }
  split; [reflexivity|].
  rewrite Hw0, Hv0, Hu0, Hw1, Hv1, Hw2.
  unfold numbering_attrs.
  repeat split; try reflexivity.
  - apply lookup_insert_eq.
  - apply lookup_delete_eq.
  - apply lookup_delete_eq.
Qed.

(* ===================================================================== *)
(** * Styles, sweeps, table of contents *)
(* ===================================================================== *)

(** Claim C5.  On every paragraph they visit, the paragraph-format sweep
    and the run-font sweep both apply the configuration of the bucket that
    the ordered tests select from the lower-cased style name: substring
    [heading 1], [heading 2], [heading 3], exactly [title], substring
    [caption], otherwise Normal. *)
Theorem sweeps_share_classification
    (cfg : ReportConfig) (dflt : option string) (p : Paragraph) :
  let scfg := bucket_config cfg
                (bucket_of_style_name (default "Normal" (style_name dflt p))) in
  force_paragraph_format_at cfg dflt p = on_pf (apply_paragraph_format scfg) p
  /\ force_run_font_at cfg dflt p = for_each_run (force_run_font_run scfg) p.
Proof.
  unfold force_paragraph_format_at, force_run_font_at, bucket_of_style_name.
  unfold mbind, M_bind, mget. cbn [bucket_rules List.find test_holds fst snd].
  set (n := lower (default "Normal" (style_name dflt p))).
  destruct (contains "heading 1" n); [split; reflexivity|].
  destruct (contains "heading 2" n); [split; reflexivity|].
  destruct (contains "heading 3" n); [split; reflexivity|].
  destruct (String.eqb n "title"); [split; reflexivity|].
  destruct (contains "caption" n); split; reflexivity.
Qed.

(** Every run of [_apply_style_to_docx_style] ends in the failed attribute
    lookup (or earlier, on a font name that is no XML text); only
    [w:rFonts] can have changed. *)
Lemma apply_style_raises (cfg : StyleConfig) (st : Style) :
  exists e st',
    _apply_style_to_docx_style cfg st = (Raise e, st')
    /\ color (st_font st') = color (st_font st)
    /\ sz (st_font st') = sz (st_font st)
    /\ st_pf st' = st_pf st
    /\ (forall n, font_name cfg = VStr n -> xml_compatible n = true ->
                  e = AttributeError).
Proof.
  unfold _apply_style_to_docx_style, on_st_font, zoom, mbind, M_bind.
  destruct (Font_name_set (font_name cfg) (st_font st)) as [[[]|e] f'] eqn:E.
  - unfold _set_font_all_scripts, Font_rFonts, mbind, M_bind, mraise. simpl.
    eexists _, _. split; [reflexivity|]. simpl.
    assert (color f' = color (st_font st) /\ sz f' = sz (st_font st)) as [-> ->].
    { unfold Font_name_set in E. destruct (font_name cfg); simpl in E;
        try discriminate; try (injection E as <-; split; reflexivity).
      unfold mbind, M_bind, lift, mmodify in E.
      destruct (xml_compatible s); [|discriminate].
      injection E as <-. split; reflexivity. }
    auto.
  - eexists _, _. split; [reflexivity|]. simpl.
    assert (f' = st_font st) as ->.
    { unfold Font_name_set in E. destruct (font_name cfg); simpl in E;
        try discriminate; try (injection E as _ <-; reflexivity).
      unfold mbind, M_bind, lift, mmodify in E.
      destruct (xml_compatible s); [discriminate|]. injection E as _ <-. reflexivity. }
    repeat split; auto.
    intros n Hn Hx. rewrite Hn in E. unfold Font_name_set, attr_value in E.
    rewrite Hx in E. discriminate.
Qed.

(** Claim C2, evaluated on the code.  Whatever the colour string
    ([FF0000], [not-a-color], ...) and whatever the style, applying the
    configuration raises [AttributeError] at [font_element.rFonts], before
    the colour branch; the style's colour is what it was. *)
Theorem color_hex_not_applied (hex : string) (st : Style) :
  exists st',
    _apply_style_to_docx_style (style_with_color hex) st = (Raise AttributeError, st')
    /\ color (st_font st') = color (st_font st).
Proof.
  destruct (apply_style_raises (style_with_color hex) st)
    as (e & st' & Hrun & Hcolor & _ & _ & He).
  rewrite (He "Times New Roman" eq_refl eq_refl) in Hrun.
  exists st'. split; assumption.
Qed.

(** The assignment the colour branch would make, taken alone: [bytes] is
    not an [RGBColor]. *)
Lemma rgb_setter_rejects_bytes (bs : list N) (f : Font) :
  ColorFormat_rgb_set (ArgBytes bs) f = (Raise ValueError, set_color (Some None) f).
Proof. unfold ColorFormat_rgb_set, mbind, M_bind, mget. destruct (color f); reflexivity. Qed.

(** Claim C8, evaluated on the code, style path.  Applying any style
    configuration to a style definition raises before the paragraph-format
    assignments; the first-line indent of the style is what it was, also
    when the configured indent is 0. *)
Theorem style_indent_not_applied (cfg : StyleConfig) (st : Style) :
  exists e st',
    _apply_style_to_docx_style cfg st = (Raise e, st')
    /\ first_line_indent (st_pf st') = first_line_indent (st_pf st).
Proof.
  destruct (apply_style_raises cfg st) as (e & st' & Hrun & _ & _ & Hpf & _).
  exists e, st'. split; [exact Hrun | rewrite Hpf; reflexivity].
Qed.



Lemma raises_bind_l {S A B} (m : M S A) (k : A -> M S B) :
  raises m -> raises (m ≫= k).
Proof.
  intros Hm s. destruct (Hm s) as (e & s' & H).
  unfold mbind, M_bind. rewrite H. eauto.
Qed.

Lemma raises_bind_r {S A B} (m : M S A) (k : A -> M S B) :
  (forall a, raises (k a)) -> raises (m ≫= k).
Proof.
  intros Hk s. unfold mbind, M_bind.
  destruct (m s) as [[a|e] s']; [apply Hk | eauto].
Qed.

Lemma raises_zoom {S T A} (get : S -> T) (put : T -> S -> S) (m : M T A) :
  raises m -> raises (zoom get put m).
Proof.
  intros Hm s. unfold zoom. destruct (Hm (get s)) as (e & t' & H).
  rewrite H. eauto.
Qed.

Lemma insert_paragraph_after_raises h text : raises (insert_paragraph_after h text).
Proof. intros s. unfold insert_paragraph_after, mraise. eauto. Qed.

(** Claim C6, evaluated on the code.  With TOC insertion enabled the
    function raises on every document and every configuration: at the
    latest when it looks up [insert_paragraph_after]. *)
Theorem toc_insertion_raises
    (py_format : value -> string) (cfg : ReportConfig) (doc : Document) :
  truthy (insert_toc (toc cfg)) = true ->
  exists e doc', _insert_toc_if_needed py_format cfg doc = (Raise e, doc').
Proof.
  intros Hon. unfold _insert_toc_if_needed. rewrite Hon. cbn [negb].
  apply raises_zoom.
  do 5 (apply raises_bind_r; intros ?).
  apply raises_bind_l, insert_paragraph_after_raises.
Qed.





(** On the smallest document: the title paragraph is in, then the lookup
    of [insert_paragraph_after] fails; no field, no page break. *)
Example toc_on_one_paragraph (py_format : value -> string) :
  exists doc',
    _insert_toc_if_needed py_format toc_enabled one_paragraph_document
    = (Raise AttributeError, doc')
    /\ length (body doc') = 2
    /\ body doc' !! 1 = Some (BPara Paragraph_empty).
Proof. eexists. split; [vm_compute; reflexivity|]. split; reflexivity. Qed.

Lemma toc_insertion_raises_witness :
  truthy (insert_toc (toc toc_enabled)) = true
  /\ exists e doc',
       _insert_toc_if_needed (fun _ => "1-3") toc_enabled one_paragraph_document
       = (Raise e, doc').
Proof.
  split; [reflexivity|].
  apply (toc_insertion_raises (fun _ => "1-3") toc_enabled one_paragraph_document).
  reflexivity.
Defined.



(** C8, sweep path: when the seven assignments go through, the paragraph
    has no first-line indent for a zero value and [Cm] of the value
    otherwise. *)
Lemma bind_Ok_inv {S A B} (m : M S A) (k : A -> M S B) s b s2 :
  (m ≫= k) s = (Ok b, s2) -> exists a s1, m s = (Ok a, s1) /\ k a s1 = (Ok b, s2).
Proof.
  unfold mbind, M_bind. destruct (m s) as [[a|e] s1]; [eauto | discriminate].
Qed.

Lemma lift_Ok_inv {S A} (r : result A) (s : S) a s1 :
  lift r s = (Ok a, s1) -> r = Ok a /\ s1 = s.
Proof. unfold lift. intros [= -> ->]. auto. Qed.

Lemma apply_paragraph_format_indent (cfg : StyleConfig) (pf pf' : ParagraphFormat) :
  apply_paragraph_format cfg pf = (Ok tt, pf') ->
  indent_of (first_line_indent_cm cfg) = Ok (first_line_indent pf').
Proof.
  unfold apply_paragraph_format, indent_of. intros H.
  apply bind_Ok_inv in H as ([] & pf1 & ? & H).
  apply bind_Ok_inv in H as (sb & ? & ? & H).
  apply bind_Ok_inv in H as ([] & pf2 & ? & H).
  apply bind_Ok_inv in H as (sa & ? & ? & H).
  apply bind_Ok_inv in H as ([] & pf3 & ? & H).
  apply bind_Ok_inv in H as (ind & pf3' & Hind & H).
  apply bind_Ok_inv in H as ([] & pf4 & Hset & H).
  apply bind_Ok_inv in H as (a & pf4' & Ha & H).
  apply lift_Ok_inv in Ha as [_ Heq]. subst pf4'.
  apply bind_Ok_inv in H as ([] & pf5 & Hal & H).
  apply bind_Ok_inv in H as ([] & pf6 & Hk & H).
  assert (Hfinal : first_line_indent pf' = first_line_indent pf4).
  { unfold alignment_set, mmodify in Hal. injection Hal as <-.
    unfold keep_with_next_set, page_break_before_set, mbind, M_bind, lift, mmodify in Hk, H.
    destruct (onoff (keep_with_next cfg)); [|discriminate]. injection Hk as <-.
    destruct (onoff (page_break_before cfg)); [|discriminate]. injection H as <-.
    reflexivity. }
  assert (Hfour : first_line_indent pf4 = ind).
  { destruct ind as [len|]; unfold first_line_indent_set, mbind, M_bind, mmodify, lift in Hset;
      simpl in Hset; [|injection Hset as <-; reflexivity].
    destruct (check_unsigned (Z.abs len)); [|discriminate].
    injection Hset as <-. reflexivity. }
  rewrite Hfinal, Hfour.
  destruct (truthy (first_line_indent_cm cfg)).
  - apply lift_Ok_inv in Hind as [Hind _]. exact Hind.
  - unfold mret, M_ret in Hind. injection Hind as <- _. reflexivity.
Qed.

Example wire_roundtrip_default :
  Wire.loads (Wire.dumps (VDict (cfg_to_dict ReportConfig_default)))
  = Ok (VDict (cfg_to_dict ReportConfig_default)).
Proof. vm_compute. reflexivity. Qed.

(** ** The theorems at concrete inputs *)

Lemma config_json_roundtrip_witness :
  Wire.loads (Wire.dumps (VDict (cfg_to_dict ReportConfig_default)))
  = Ok (VDict (cfg_to_dict ReportConfig_default))
  /\ load_config_json_bytes Wire.loads
       (save_config_json_bytes Wire.dumps ReportConfig_default)
     = Ok ReportConfig_default.
Proof.
  split; [vm_compute; reflexivity|].
  apply (config_json_roundtrip Wire.dumps Wire.loads ReportConfig_default).
  vm_compute; reflexivity.
Defined.

Lemma deep_merge_defaulting_witness :
  dict_get "normal" [("title", VInt 1)] = None
  /\ exists out,
       deep_merge [("normal", VInt 0)] (VDict [("title", VInt 1)]) = Ok out
       /\ dict_get "normal" out = dict_get "normal" [("normal", VInt 0)].
Proof.
  split; [reflexivity|].
  apply (proj2 deep_merge_defaulting [("normal", VInt 0)] [("title", VInt 1)] "normal").
  reflexivity.
Defined.



Lemma unknown_keys_witness :
  Wire.loads (Wire.dumps (VDict unknown_keys_example)) = Ok (VDict unknown_keys_example)
  /\ NoDup (dict_keys unknown_keys_example)
  /\ exists e,
       load_config_json_bytes Wire.loads (Wire.dumps (VDict unknown_keys_example))
       = Raise e.
Proof.
  assert (H1 : Wire.loads (Wire.dumps (VDict unknown_keys_example))
               = Ok (VDict unknown_keys_example)) by (vm_compute; reflexivity).
  assert (H2 : NoDup (dict_keys unknown_keys_example))
    by (apply (bool_decide_unpack _); vm_compute; exact I).
  split; [exact H1|]. split; [exact H2|].
  apply (proj2 (unknown_keys Wire.loads _ unknown_keys_example H1 H2)
               "normal" [("bogus", VInt 1)] "bogus").
  - apply (bool_decide_unpack _); vm_compute; exact I.
  - reflexivity.
  - apply (bool_decide_unpack _); vm_compute; exact I.
  - apply (bool_decide_unpack _); vm_compute; exact I.
Defined.



Lemma page_numbers_three_sections_witness :
  valid_pagenumber (pagenumber ReportConfig_default) = true
  /\ truthy (enabled (pagenumber ReportConfig_default)) = true
  /\ truthy (restart_each_section (pagenumber ReportConfig_default)) = false
  /\ exists doc' t0 t1 t2 a0 a1 a2,
       _apply_page_numbers ReportConfig_default three_sections = (Ok tt, doc')
       /\ sections doc' = [t0; t1; t2]
       /\ pgNumType t0 = Some a0 /\ a0 !! "w:start" = Some (pretty 1%Z)
       /\ pgNumType t1 = Some a1 /\ a1 !! "w:start" = None
       /\ pgNumType t2 = Some a2 /\ a2 !! "w:start" = None.
Proof.
  split; [vm_compute; reflexivity|]. split; [reflexivity|]. split; [reflexivity|].
  apply (page_numbers_three_sections ReportConfig_default three_sections
           {| pgNumType := None; header := None; footer := None |}
           {| pgNumType := Some {["w:start" := "5"]}; header := None; footer := None |}
           {| pgNumType := None; header := None; footer := None |} 1%Z);
    vm_compute; reflexivity.
Defined.

(* ===================================================================== *)
(** * Loading a configuration: what is accepted, what it holds *)
(* ===================================================================== *)

Lemma cfg_from_dict_falsy v :
  truthy v = false -> cfg_from_dict v = Ok ReportConfig_default.
Proof.
  intros H.
  assert (Hm : deep_merge (cfg_to_dict ReportConfig_default) v
               = Ok (cfg_to_dict ReportConfig_default)).
  { destruct v as [| | | | | |items]; simpl in *; try rewrite H; try reflexivity.
    destruct items; [reflexivity | discriminate]. }
  unfold cfg_from_dict. rewrite Hm. reflexivity.
Qed.

Lemma cfg_from_dict_truthy_non_dict v :
  truthy v = true -> isinstance_dict v = false -> cfg_from_dict v = Raise AttributeError.
Proof.
  intros H Hd. unfold cfg_from_dict.
  assert (Hm : deep_merge (cfg_to_dict ReportConfig_default) v = Raise AttributeError).
  { destruct v; simpl in *; try rewrite H; try reflexivity; discriminate. }
  rewrite Hm. reflexivity.
Qed.

(** Property X1.  When the JSON text decodes to a value that is not a
    mapping, [load_config_json_bytes] returns the default configuration
    if the value is falsy ([null], [false], [0], [0.0], the empty string,
    the empty list: [b or {}] in [deep_merge]) and raises
    [AttributeError] otherwise (the value has no [items]). *)
Theorem load_non_mapping (json_loads : string -> result value) (data : string) (v : value) :
  json_loads data = Ok v -> isinstance_dict v = false ->
  load_config_json_bytes json_loads data
  = if truthy v then Raise AttributeError else Ok ReportConfig_default.
Proof.
  intros Hj Hd. unfold load_config_json_bytes. rewrite Hj. cbn [mbind result_bind rbind].
  destruct (truthy v) eqn:E.
  - apply cfg_from_dict_truthy_non_dict; assumption.
  - apply cfg_from_dict_falsy; assumption.
Qed.

Lemma rbind_Ok_inv {A B} (r : result A) (k : A -> result B) b :
  rbind r k = Ok b -> exists a, r = Ok a /\ k a = Ok b.
Proof. destruct r; simpl; [eauto | discriminate]. Qed.

Lemma known_kwargs_true fields kw :
  known_kwargs fields kw = true <-> forall k, k ∈ dict_keys kw -> k ∈ fields.
Proof.
  unfold known_kwargs. rewrite forallb_forall. split.
  - intros H k Hk. apply list_elem_of_In in Hk. specialize (H k Hk).
    apply existsb_exists in H as (f & Hf & Heq). apply String.eqb_eq in Heq. subst f.
    apply list_elem_of_In, Hf.
  - intros H k Hk. apply existsb_exists. exists k.
    split; [|apply String.eqb_refl]. apply list_elem_of_In, H, list_elem_of_In, Hk.
Qed.

(** Merging adds no key of its own. *)
Lemma merge_items_keys_inv its : forall out o k,
  merge_items out its = Ok o ->
  k ∈ dict_keys o -> k ∈ dict_keys out \/ k ∈ dict_keys its.
Proof.
  induction its as [|[k0 v0] rest IH]; intros out o k Hm Hk.
  - simpl in Hm. injection Hm as <-. left. exact Hk.
  - rewrite merge_items_step in Hm.
    destruct (IH _ _ _ Hm Hk) as [H|H].
    + apply dict_keys_set in H as [->|H]; [right; simpl; apply elem_of_cons; auto | left; exact H].
    + right. simpl. apply elem_of_cons. right. exact H.
Qed.

Lemma build_style_builder : builder StyleConfig_fields build_style.
Proof. intros [| | | | | |kw]; simpl; try reflexivity. destruct (known_kwargs _ _); eauto. Qed.
Lemma build_pagesetup_builder : builder PageSetupConfig_fields build_pagesetup.
Proof. intros [| | | | | |kw]; simpl; try reflexivity. destruct (known_kwargs _ _); eauto. Qed.
Lemma build_pagenumber_builder : builder PageNumberConfig_fields build_pagenumber.
Proof. intros [| | | | | |kw]; simpl; try reflexivity. destruct (known_kwargs _ _); eauto. Qed.
Lemma build_toc_builder : builder TocConfig_fields build_toc.
Proof. intros [| | | | | |kw]; simpl; try reflexivity. destruct (known_kwargs _ _); eauto. Qed.
Lemma build_processing_builder : builder ProcessingConfig_fields build_processing.
Proof. intros [| | | | | |kw]; simpl; try reflexivity. destruct (known_kwargs _ _); eauto. Qed.

Lemma build_step {A B} fields (b : value -> result A) (s : string) (merged : dict) x
    (k : A -> result B) :
  builder fields b -> dict_get s merged = Some x ->
  if kwargs_ok fields x
  then exists a, ((getitem s merged ≫= b) ≫= k) = k a
  else ((getitem s merged ≫= b) ≫= k) = Raise TypeError.
Proof.
  intros Hb H. unfold getitem. rewrite H. unfold mbind, result_bind. cbn [rbind].
  specialize (Hb x). destruct (kwargs_ok fields x).
  - destruct Hb as [a ->]. exists a. reflexivity.
  - rewrite Hb. reflexivity.
Qed.

Ltac in_list := apply (bool_decide_unpack _); vm_compute; exact I.

Ltac one_section Hkeys sec lem :=
  let x := fresh "x" in let Hx := fresh "Hx" in let Hs := fresh "Hs" in
  destruct (Hkeys sec ltac:(in_list)) as [x Hx];
  rewrite Hx; cbn [from_option];
  match goal with
  | |- context [mbind ?k (mbind ?b (getitem sec ?m))] =>
      pose proof (build_step _ b sec m x k lem Hx) as Hs
  end;
  unfold section_ok at 1;
  match type of Hs with
  | context [kwargs_ok ?F x] => change (fields_of sec) with F
  end;
  destruct (kwargs_ok _ x); [destruct Hs as [? ->]; cbn [andb] | exact Hs].

Lemma cfg_from_dict_outcome (v : value) (merged : dict) :
  deep_merge (cfg_to_dict ReportConfig_default) v = Ok merged ->
  (forall sec, sec ∈ SECTION_KEYS -> exists x, dict_get sec merged = Some x) ->
  if all_sections_ok merged then exists cfg, cfg_from_dict v = Ok cfg
  else cfg_from_dict v = Raise TypeError.
Proof.
  intros Hm Hkeys. unfold cfg_from_dict. rewrite Hm.
  change (Ok merged ≫= ?k) with (k merged). cbv beta.
  unfold all_sections_ok, SECTION_KEYS. cbn [forallb].
  one_section Hkeys "normal" build_style_builder.
  one_section Hkeys "title" build_style_builder.
  one_section Hkeys "heading1" build_style_builder.
  one_section Hkeys "heading2" build_style_builder.
  one_section Hkeys "heading3" build_style_builder.
  one_section Hkeys "caption" build_style_builder.
  one_section Hkeys "pagesetup" build_pagesetup_builder.
  one_section Hkeys "pagenumber" build_pagenumber_builder.
  one_section Hkeys "toc" build_toc_builder.
  one_section Hkeys "processing" build_processing_builder.
  eexists. reflexivity.
Qed.

(** The merged mapping, section by section, in terms of the given one. *)
Lemma merged_sections (d merged : dict) :
  NoDup (dict_keys d) ->
  deep_merge (cfg_to_dict ReportConfig_default) (VDict d) = Ok merged ->
  forall sec, sec ∈ SECTION_KEYS ->
    exists dflt, dict_get sec (cfg_to_dict ReportConfig_default) = Some (VDict dflt)
    /\ match dict_get sec d with
       | None => dict_get sec merged = Some (VDict dflt)
       | Some (VDict m) =>
           exists sub, merge_items dflt m = Ok sub /\ dict_get sec merged = Some (VDict sub)
       | Some x => dict_get sec merged = Some x
       end.
Proof.
  intros Hnd Hm sec Hsec.
  destruct (merge_items_lookup d (cfg_to_dict ReportConfig_default) Hnd)
    as (merged' & Hm' & Hlook).
  rewrite deep_merge_dict in Hm. rewrite Hm in Hm'. injection Hm' as <-.
  destruct (default_sections sec Hsec) as [dflt Hdflt].
  exists dflt. split; [exact Hdflt|].
  rewrite Hlook, Hdflt.
  destruct (dict_get sec d) as [x|]; [|reflexivity].
  destruct x; try reflexivity.
  destruct (deep_merge_total (VDict items) dflt eq_refl) as [sub Hsub].
  exists sub. split; [rewrite <- deep_merge_dict; exact Hsub|].
  f_equal. apply merged_value_dict, Hsub.
Qed.

(** The keys of a default section are the fields of its record. *)
Lemma default_section_keys sec dflt :
  sec ∈ SECTION_KEYS ->
  dict_get sec (cfg_to_dict ReportConfig_default) = Some (VDict dflt) ->
  dict_keys dflt = fields_of sec
  /\ Forall (fun kv => isinstance_dict kv.2 = false) dflt.
Proof.
  unfold SECTION_KEYS. intros H.
  repeat (apply elem_of_cons in H as [->|H];
          [intros [= <-]; split; [reflexivity | repeat constructor]|]).
  inversion H.
Qed.

Lemma merged_section_ok sec dflt m sub :
  dict_keys dflt = fields_of sec ->
  merge_items dflt m = Ok sub ->
  known_kwargs (fields_of sec) sub = known_kwargs (fields_of sec) m.
Proof.
  intros Hk Hs. apply eq_true_iff_eq. rewrite !known_kwargs_true. split.
  - intros H k Hin. apply H, (merge_items_keys _ _ _ _ Hs). right. exact Hin.
  - intros H k Hin. destruct (merge_items_keys_inv _ _ _ _ Hs Hin) as [Hd|Hd].
    + rewrite <- Hk. exact Hd.
    + apply H, Hd.
Qed.

Lemma all_sections_ok_acceptable (d merged : dict) :
  NoDup (dict_keys d) ->
  deep_merge (cfg_to_dict ReportConfig_default) (VDict d) = Ok merged ->
  all_sections_ok merged = acceptable d.
Proof.
  intros Hnd Hm. unfold all_sections_ok, acceptable.
  assert (Hsame : forall sec, sec ∈ SECTION_KEYS ->
            from_option (section_ok sec) false (dict_get sec merged)
            = match dict_get sec d with
              | None => true
              | Some (VDict m) => known_kwargs (fields_of sec) m
              | Some _ => false
              end).
  { intros sec Hsec.
    destruct (merged_sections d merged Hnd Hm sec Hsec) as (dflt & Hdflt & Hx).
    destruct (default_section_keys sec dflt Hsec Hdflt) as [Hkeys _].
    destruct (dict_get sec d) as [x|].
    - destruct x; try (rewrite Hx; reflexivity).
      destruct Hx as (sub & Hsub & ->). simpl. unfold section_ok, kwargs_ok.
      apply (merged_section_ok sec dflt _ _ Hkeys Hsub).
    - rewrite Hx. simpl. unfold section_ok, kwargs_ok. rewrite <- Hkeys.
      apply known_kwargs_true. auto. }
  apply eq_true_iff_eq. rewrite !forallb_forall.
  split; intros H sec Hin; specialize (H sec Hin); apply list_elem_of_In in Hin;
    [rewrite <- Hsame | rewrite Hsame]; assumption.
Qed.

(** Every section key is in the merged mapping. *)
Lemma merged_has_sections (d merged : dict) :
  deep_merge (cfg_to_dict ReportConfig_default) (VDict d) = Ok merged ->
  forall sec, sec ∈ SECTION_KEYS -> exists x, dict_get sec merged = Some x.
Proof.
  intros Hm sec Hsec. rewrite deep_merge_dict in Hm.
  assert (Hin : sec ∈ dict_keys merged).
  { apply (merge_items_keys _ _ _ _ Hm). left. exact Hsec. }
  destruct (dict_get sec merged) eqn:E; [eauto|].
  apply dict_get_None in E. contradiction.
Qed.

(** Property X2.  Let the JSON text decode to a mapping.
    [load_config_json_bytes] returns a configuration exactly when every
    one of the ten section keys that the mapping has holds a mapping
    whose keys are all fields of the section's dataclass; in every other
    case it raises [TypeError]. *)
Theorem load_accepts_iff
    (json_loads : string -> result value) (data : string) (d : dict) :
  json_loads data = Ok (VDict d) ->
  NoDup (dict_keys d) ->
  if acceptable d
  then exists cfg, load_config_json_bytes json_loads data = Ok cfg
  else load_config_json_bytes json_loads data = Raise TypeError.
Proof.
  intros Hj Hnd. unfold load_config_json_bytes. rewrite Hj.
  change (Ok (VDict d) ≫= cfg_from_dict) with (cfg_from_dict (VDict d)).
  destruct (deep_merge_total (VDict d) (cfg_to_dict ReportConfig_default) eq_refl)
    as [merged Hm].
  rewrite <- (all_sections_ok_acceptable d merged Hnd Hm).
  apply (cfg_from_dict_outcome _ merged Hm), (merged_has_sections d merged Hm).
Qed.

(** ** Field by field *)

Lemma cfg_from_dict_inv (v : value) (cfg : ReportConfig) (merged : dict) :
  deep_merge (cfg_to_dict ReportConfig_default) v = Ok merged ->
  cfg_from_dict v = Ok cfg ->
  (getitem "normal" merged ≫= build_style) = Ok (normal cfg)
  /\ (getitem "title" merged ≫= build_style) = Ok (title cfg)
  /\ (getitem "heading1" merged ≫= build_style) = Ok (heading1 cfg)
  /\ (getitem "heading2" merged ≫= build_style) = Ok (heading2 cfg)
  /\ (getitem "heading3" merged ≫= build_style) = Ok (heading3 cfg)
  /\ (getitem "caption" merged ≫= build_style) = Ok (caption cfg)
  /\ (getitem "pagesetup" merged ≫= build_pagesetup) = Ok (pagesetup cfg)
  /\ (getitem "pagenumber" merged ≫= build_pagenumber) = Ok (pagenumber cfg)
  /\ (getitem "toc" merged ≫= build_toc) = Ok (toc cfg)
  /\ (getitem "processing" merged ≫= build_processing) = Ok (processing cfg).
Proof.
  intros Hm. unfold cfg_from_dict. rewrite Hm.
  change (Ok merged ≫= ?k) with (k merged). cbv beta.
  destruct (getitem "normal" merged ≫= build_style) as [a1|]; [|discriminate].
  destruct (getitem "title" merged ≫= build_style) as [a2|]; [|discriminate].
  destruct (getitem "heading1" merged ≫= build_style) as [a3|]; [|discriminate].
  destruct (getitem "heading2" merged ≫= build_style) as [a4|]; [|discriminate].
  destruct (getitem "heading3" merged ≫= build_style) as [a5|]; [|discriminate].
  destruct (getitem "caption" merged ≫= build_style) as [a6|]; [|discriminate].
  destruct (getitem "pagesetup" merged ≫= build_pagesetup) as [a7|]; [|discriminate].
  destruct (getitem "pagenumber" merged ≫= build_pagenumber) as [a8|]; [|discriminate].
  destruct (getitem "toc" merged ≫= build_toc) as [a9|]; [|discriminate].
  destruct (getitem "processing" merged ≫= build_processing) as [a10|]; [|discriminate].
  intros [= <-]. repeat split.
Qed.

Lemma getitem_build_inv {A} (b : value -> result A) s merged a :
  (getitem s merged ≫= b) = Ok a ->
  exists x, dict_get s merged = Some x /\ b x = Ok a.
Proof.
  unfold getitem. destruct (dict_get s merged) as [x|]; [|discriminate].
  intros H. exists x. split; [reflexivity | exact H].
Qed.

Lemma build_style_fields x s :
  build_style x = Ok s ->
  exists kw, x = VDict kw /\
    forall f v, f ∈ StyleConfig_fields -> dict_get f kw = Some v ->
      match asdict_StyleConfig s with VDict r => dict_get f r | _ => None end = Some v.
Proof.
  destruct x as [| | | | | |kw]; try discriminate. simpl.
  destruct (known_kwargs _ _); [|discriminate]. intros [= <-].
  exists kw. split; [reflexivity|]. intros f v Hf. revert v.
  unfold StyleConfig_fields in Hf. cbn.
  repeat (apply elem_of_cons in Hf as [->|Hf];
          [intros v Hv; unfold kwarg; rewrite Hv; reflexivity|]).
  inversion Hf.
Qed.

Lemma build_pagesetup_fields x s :
  build_pagesetup x = Ok s ->
  exists kw, x = VDict kw /\
    forall f v, f ∈ PageSetupConfig_fields -> dict_get f kw = Some v ->
      match asdict_PageSetupConfig s with VDict r => dict_get f r | _ => None end = Some v.
Proof.
  destruct x as [| | | | | |kw]; try discriminate. simpl.
  destruct (known_kwargs _ _); [|discriminate]. intros [= <-].
  exists kw. split; [reflexivity|]. intros f v Hf. revert v.
  unfold PageSetupConfig_fields in Hf. cbn.
  repeat (apply elem_of_cons in Hf as [->|Hf];
          [intros v Hv; unfold kwarg; rewrite Hv; reflexivity|]).
  inversion Hf.
Qed.

Lemma build_pagenumber_fields x s :
  build_pagenumber x = Ok s ->
  exists kw, x = VDict kw /\
    forall f v, f ∈ PageNumberConfig_fields -> dict_get f kw = Some v ->
      match asdict_PageNumberConfig s with VDict r => dict_get f r | _ => None end = Some v.
Proof.
  destruct x as [| | | | | |kw]; try discriminate. simpl.
  destruct (known_kwargs _ _); [|discriminate]. intros [= <-].
  exists kw. split; [reflexivity|]. intros f v Hf. revert v.
  unfold PageNumberConfig_fields in Hf. cbn.
  repeat (apply elem_of_cons in Hf as [->|Hf];
          [intros v Hv; unfold kwarg; rewrite Hv; reflexivity|]).
  inversion Hf.
Qed.

Lemma build_toc_fields x s :
  build_toc x = Ok s ->
  exists kw, x = VDict kw /\
    forall f v, f ∈ TocConfig_fields -> dict_get f kw = Some v ->
      match asdict_TocConfig s with VDict r => dict_get f r | _ => None end = Some v.
Proof.
  destruct x as [| | | | | |kw]; try discriminate. simpl.
  destruct (known_kwargs _ _); [|discriminate]. intros [= <-].
  exists kw. split; [reflexivity|]. intros f v Hf. revert v.
  unfold TocConfig_fields in Hf. cbn.
  repeat (apply elem_of_cons in Hf as [->|Hf];
          [intros v Hv; unfold kwarg; rewrite Hv; reflexivity|]).
  inversion Hf.
Qed.

Lemma build_processing_fields x s :
  build_processing x = Ok s ->
  exists kw, x = VDict kw /\
    forall f v, f ∈ ProcessingConfig_fields -> dict_get f kw = Some v ->
      match asdict_ProcessingConfig s with VDict r => dict_get f r | _ => None end = Some v.
Proof.
  destruct x as [| | | | | |kw]; try discriminate. simpl.
  destruct (known_kwargs _ _); [|discriminate]. intros [= <-].
  exists kw. split; [reflexivity|]. intros f v Hf. revert v.
  unfold ProcessingConfig_fields in Hf. cbn.
  repeat (apply elem_of_cons in Hf as [->|Hf];
          [intros v Hv; unfold kwarg; rewrite Hv; reflexivity|]).
  inversion Hf.
Qed.

(** Each record of the result holds, field by field, what the merged
    mapping has in its section. *)
Lemma cfg_fields_from_merged (v : value) (cfg : ReportConfig) (merged : dict) :
  deep_merge (cfg_to_dict ReportConfig_default) v = Ok merged ->
  cfg_from_dict v = Ok cfg ->
  forall sec, sec ∈ SECTION_KEYS ->
    exists kw, dict_get sec merged = Some (VDict kw)
      /\ forall f x, f ∈ fields_of sec -> dict_get f kw = Some x ->
           field_of cfg sec f = Some x.
Proof.
  intros Hm Hc sec Hsec.
  destruct (cfg_from_dict_inv v cfg merged Hm Hc)
    as (H1 & H2 & H3 & H4 & H5 & H6 & H7 & H8 & H9 & H10).
  unfold SECTION_KEYS in Hsec.
  repeat (apply elem_of_cons in Hsec as [->|Hsec]); [..|inversion Hsec].
  all: match goal with
       | H : (getitem ?s ?m ≫= _) = Ok _ |- context [dict_get ?s ?m] =>
           apply getitem_build_inv in H as (x & Hx & Hb)
       end.
  1-6: apply build_style_fields in Hb as (kw & -> & Hf).
  7: apply build_pagesetup_fields in Hb as (kw & -> & Hf).
  8: apply build_pagenumber_fields in Hb as (kw & -> & Hf).
  9: apply build_toc_fields in Hb as (kw & -> & Hf).
  10: apply build_processing_fields in Hb as (kw & -> & Hf).
  all: exists kw; split; [exact Hx|]; intros f y Hin Hy; exact (Hf f y Hin Hy).
Qed.

Lemma merged_value_scalar y v : isinstance_dict y = false -> merged_value (Some y) v = v.
Proof. destruct y; try reflexivity. discriminate. Qed.

Lemma dict_get_Forall (P : string * value -> Prop) k d v :
  Forall P d -> dict_get k d = Some v -> exists k', P (k', v).
Proof.
  induction 1 as [|[k0 v0] d H _ IH]; simpl; [discriminate|].
  destruct (String.eqb k k0); [intros [= <-]; eauto | exact IH].
Qed.

Lemma dict_get_in_keys k d : k ∈ dict_keys d -> exists v, dict_get k d = Some v.
Proof.
  intros H. destruct (dict_get k d) eqn:E; [eauto|].
  apply dict_get_None in E. contradiction.
Qed.

(** Property X3.  When [cfg_from_dict] returns on a mapping, every
    field [f] of every section [sec] of the result is the value the
    mapping gives at [sec], [f]; where the mapping has no key [sec], or
    its section has no key [f], the field has its default. *)
Theorem load_field_semantics (d : dict) (cfg : ReportConfig) (sec f : string) :
  cfg_from_dict (VDict d) = Ok cfg -> NoDup (dict_keys d) ->
  sec ∈ SECTION_KEYS -> f ∈ fields_of sec ->
  match dict_get sec d with
  | None => field_of cfg sec f = field_of ReportConfig_default sec f
  | Some x => exists m, x = VDict m /\
      match dict_get f m with
      | None => field_of cfg sec f = field_of ReportConfig_default sec f
      | Some v => NoDup (dict_keys m) -> field_of cfg sec f = Some v
      end
  end.
Proof.
  intros Hc Hnd Hsec Hf.
  destruct (deep_merge_total (VDict d) (cfg_to_dict ReportConfig_default) eq_refl)
    as [merged Hm].
  destruct (cfg_fields_from_merged _ cfg merged Hm Hc sec Hsec) as (kw & Hkw & Hfields).
  destruct (merged_sections d merged Hnd Hm sec Hsec) as (dflt & Hdflt & Hx).
  destruct (default_section_keys sec dflt Hsec Hdflt) as [Hkeys Hscalar].
  assert (Hdf : field_of ReportConfig_default sec f = dict_get f dflt)
    by (unfold field_of; rewrite Hdflt; reflexivity).
  assert (Hin : f ∈ dict_keys dflt) by (rewrite Hkeys; exact Hf).
  destruct (dict_get_in_keys f dflt Hin) as [y Hy].
  destruct (dict_get sec d) as [x|].
  - destruct x; try (rewrite Hx in Hkw; discriminate).
    exists items. split; [reflexivity|].
    destruct Hx as (sub & Hsub & Hsec'). rewrite Hsec' in Hkw. injection Hkw as <-.
    destruct (dict_get f items) as [v|] eqn:Ev.
    + intros Hndm.
      destruct (merge_items_lookup items dflt Hndm) as (sub' & Hsub' & Hlook).
      rewrite Hsub in Hsub'. injection Hsub' as <-.
      apply Hfields; [exact Hf|]. rewrite Hlook, Ev, Hy. f_equal.
      apply merged_value_scalar.
      destruct (dict_get_Forall _ _ _ _ Hscalar Hy) as [k' Hk']. exact Hk'.
    + destruct (merge_items_absent items dflt f Ev) as (sub' & Hsub' & Hlook).
      rewrite Hsub in Hsub'. injection Hsub' as <-.
      rewrite Hdf, Hy. apply Hfields; [exact Hf|]. rewrite Hlook. exact Hy.
  - rewrite Hx in Hkw. injection Hkw as <-.
    rewrite Hdf, Hy. apply Hfields; [exact Hf | exact Hy].
Qed.

Lemma load_field_semantics_witness :
  NoDup (dict_keys override_title_size)
  /\ exists cfg, cfg_from_dict (VDict override_title_size) = Ok cfg
     /\ field_of cfg "title" "font_size_pt" = Some (VInt 20)
     /\ field_of cfg "title" "bold" = Some (VBool true).
Proof.
  assert (Hnd : NoDup (dict_keys override_title_size)) by in_list.
  split; [exact Hnd|].
  destruct (cfg_from_dict (VDict override_title_size)) as [cfg|] eqn:E;
    [|vm_compute in E; discriminate].
  exists cfg. split; [reflexivity|].
  pose proof (load_field_semantics override_title_size cfg "title" "font_size_pt" E Hnd
                ltac:(in_list) ltac:(in_list)) as H1.
  pose proof (load_field_semantics override_title_size cfg "title" "bold" E Hnd
                ltac:(in_list) ltac:(in_list)) as H2.
  simpl in H1, H2.
  destruct H1 as (m1 & [= <-] & H1). destruct H2 as (m2 & [= <-] & H2).
  simpl in H1, H2. split; [apply H1; in_list | exact H2].
Defined.

Lemma load_accepts_iff_witness :
  Wire.loads (Wire.dumps (VDict override_title_size)) = Ok (VDict override_title_size)
  /\ NoDup (dict_keys override_title_size)
  /\ acceptable override_title_size = true
  /\ exists cfg,
       load_config_json_bytes Wire.loads (Wire.dumps (VDict override_title_size)) = Ok cfg.
Proof.
  assert (H1 : Wire.loads (Wire.dumps (VDict override_title_size))
               = Ok (VDict override_title_size)) by (vm_compute; reflexivity).
  assert (H2 : NoDup (dict_keys override_title_size)) by in_list.
  split; [exact H1|]. split; [exact H2|]. split; [vm_compute; reflexivity|].
  exact (load_accepts_iff Wire.loads _ override_title_size H1 H2).
Defined.

Lemma load_non_mapping_witness :
  Wire.loads (Wire.dumps VNone) = Ok VNone
  /\ load_config_json_bytes Wire.loads (Wire.dumps VNone) = Ok ReportConfig_default.
Proof.
  split; [reflexivity|].
  exact (load_non_mapping Wire.loads (Wire.dumps VNone) VNone eq_refl eq_refl).
Defined.

(* ===================================================================== *)
(** * The tokenizer: alternation and the round trip from tokens *)
(* ===================================================================== *)

Section TokenizerFacts.
Implicit Types (s t p q r : string) (i j k n : nat).

Lemma alternates_cons a l :
  alternates (a :: l) = (is_placeholder a || head_placeholder l) && alternates l.
Proof. destruct l; simpl; [rewrite orb_true_r|]; reflexivity. Qed.

Lemma scan_literal_stops t i : cond_scan t (scan_literal t i) = false.
Proof.
  remember (String.length t - i) as n eqn:Hn.
  revert i Hn. induction n as [n IH] using lt_wf_ind. intros i Hn.
  rewrite scan_literal_step. destruct (cond_scan t i) eqn:E; [|exact E].
  apply (IH (String.length t - (i + 1))); [|reflexivity].
  unfold cond_scan in E. apply andb_prop in E as [E _]. apply andb_prop in E as [E _].
  apply Nat.ltb_lt in E. lia.
Qed.

Lemma head_after_literal t j :
  cond_scan t j = false -> head_placeholder (split_loop t j) = true.
Proof.
  intros H. rewrite split_loop_step. unfold cond_scan in H.
  destruct (j <? String.length t)%nat; [|reflexivity]. simpl in H.
  destruct (startswith t "{PAGE}" j); [reflexivity|].
  destruct (startswith t "{NUMPAGES}" j); [reflexivity | discriminate].
Qed.

Lemma split_loop_alternates t i : i <= String.length t -> alternates (split_loop t i) = true.
Proof.
  remember (String.length t - i) as n eqn:Hn.
  revert i Hn. induction n as [n IH] using lt_wf_ind. intros i Hn Hi.
  rewrite split_loop_step.
  destruct (i <? String.length t)%nat eqn:Hlt; [|reflexivity].
  apply Nat.ltb_lt in Hlt.
  destruct (startswith t "{PAGE}" i) eqn:Hp.
  { pose proof (prefix_length _ _ (startswith_prefix _ _ _ Hp)) as Hlen.
    rewrite str_drop_length in Hlen. simpl in Hlen.
    rewrite alternates_cons. simpl.
    apply (IH (String.length t - (i + 6))); lia. }
  destruct (startswith t "{NUMPAGES}" i) eqn:Hq.
  { pose proof (prefix_length _ _ (startswith_prefix _ _ _ Hq)) as Hlen.
    rewrite str_drop_length in Hlen. simpl in Hlen.
    rewrite alternates_cons. simpl.
    apply (IH (String.length t - (i + 10))); lia. }
  assert (Hstep : scan_literal t i = scan_literal t (i + 1)).
  { rewrite (scan_literal_step t i). unfold cond_scan.
    rewrite Hp, Hq. apply Nat.ltb_lt in Hlt. rewrite Hlt. reflexivity. }
  destruct (scan_literal_spec t i Hi) as [Hr _].
  destruct (scan_literal_spec t (i + 1) ltac:(lia)) as [Hr1 _].
  rewrite alternates_cons.
  rewrite (head_after_literal t _ (scan_literal_stops t i)), orb_true_r. simpl.
  apply (IH (String.length t - scan_literal t i)); lia.
Qed.

(** *** Shifting the template by a prefix *)

Lemma str_drop_app p t i : str_drop (String.length p + i) (p +:+ t) = str_drop i t.
Proof. induction p as [|c p IH]; [reflexivity|]. rewrite append_cons. exact IH. Qed.

Lemma str_take_app p t : str_take (String.length p) (p +:+ t) = p.
Proof. induction p as [|c p IH]; [destruct t; reflexivity|]. rewrite append_cons. simpl. f_equal. exact IH. Qed.

Lemma str_drop_app_le k s r :
  k <= String.length s -> str_drop k (s +:+ r) = str_drop k s +:+ r.
Proof.
  revert s; induction k as [|k IH]; intros s Hk; [reflexivity|].
  destruct s as [|c s]; [simpl in Hk; lia|]. rewrite append_cons. simpl.
  apply IH. simpl in Hk. lia.
Qed.

Lemma startswith_shift p t q i :
  startswith (p +:+ t) q (String.length p + i) = startswith t q i.
Proof.
  unfold startswith. rewrite str_drop_app, append_length. f_equal.
  destruct (i <=? String.length t)%nat eqn:E.
  - apply Nat.leb_le in E. apply Nat.leb_le. lia.
  - apply Nat.leb_gt in E. apply Nat.leb_gt. lia.
Qed.

Lemma cond_scan_shift p t i : cond_scan (p +:+ t) (String.length p + i) = cond_scan t i.
Proof.
  unfold cond_scan. rewrite !startswith_shift, append_length. do 2 f_equal.
  destruct (i <? String.length t)%nat eqn:E.
  - apply Nat.ltb_lt in E. apply Nat.ltb_lt. lia.
  - apply Nat.ltb_ge in E. apply Nat.ltb_ge. lia.
Qed.

Lemma scan_literal_shift p t i :
  scan_literal (p +:+ t) (String.length p + i) = String.length p + scan_literal t i.
Proof.
  remember (String.length t - i) as n eqn:Hn.
  revert i Hn. induction n as [n IH] using lt_wf_ind. intros i Hn.
  rewrite (scan_literal_step (p +:+ t)), (scan_literal_step t), cond_scan_shift.
  destruct (cond_scan t i) eqn:E; [|reflexivity].
  replace (String.length p + i + 1) with (String.length p + (i + 1)) by lia.
  apply (IH (String.length t - (i + 1))); [|reflexivity].
  unfold cond_scan in E. apply andb_prop in E as [E _]. apply andb_prop in E as [E _].
  apply Nat.ltb_lt in E. lia.
Qed.

Lemma slice_shift p t i j :
  slice (p +:+ t) (String.length p + i) (String.length p + j) = slice t i j.
Proof. unfold slice. rewrite str_drop_app. f_equal. lia. Qed.

Lemma split_loop_shift p t i :
  i <= String.length t ->
  split_loop (p +:+ t) (String.length p + i) = split_loop t i.
Proof.
  remember (String.length t - i) as n eqn:Hn.
  revert i Hn. induction n as [n IH] using lt_wf_ind. intros i Hn Hi.
  rewrite (split_loop_step (p +:+ t)), (split_loop_step t).
  rewrite !startswith_shift, append_length.
  replace (String.length p + i <? String.length p + String.length t)%nat
    with (i <? String.length t)%nat
    by (destruct (i <? String.length t)%nat eqn:E;
        [apply Nat.ltb_lt in E; symmetry; apply Nat.ltb_lt; lia
        |apply Nat.ltb_ge in E; symmetry; apply Nat.ltb_ge; lia]).
  destruct (i <? String.length t)%nat eqn:Hlt; [|reflexivity].
  apply Nat.ltb_lt in Hlt.
  destruct (startswith t "{PAGE}" i) eqn:Hp.
  { pose proof (prefix_length _ _ (startswith_prefix _ _ _ Hp)) as Hlen.
    rewrite str_drop_length in Hlen. simpl in Hlen. f_equal.
    replace (String.length p + i + 6) with (String.length p + (i + 6)) by lia.
    apply (IH (String.length t - (i + 6))); lia. }
  destruct (startswith t "{NUMPAGES}" i) eqn:Hq.
  { pose proof (prefix_length _ _ (startswith_prefix _ _ _ Hq)) as Hlen.
    rewrite str_drop_length in Hlen. simpl in Hlen. f_equal.
    replace (String.length p + i + 10) with (String.length p + (i + 10)) by lia.
    apply (IH (String.length t - (i + 10))); lia. }
  assert (Hstep : scan_literal t i = scan_literal t (i + 1)).
  { rewrite (scan_literal_step t i). unfold cond_scan.
    rewrite Hp, Hq. apply Nat.ltb_lt in Hlt. rewrite Hlt. reflexivity. }
  destruct (scan_literal_spec t i Hi) as [Hr _].
  destruct (scan_literal_spec t (i + 1) ltac:(lia)) as [Hr1 _].
  rewrite scan_literal_shift, slice_shift. f_equal.
  apply (IH (String.length t - scan_literal t i)); lia.
Qed.

Lemma scan_literal_stop t i j :
  i <= j -> (forall k, i <= k < j -> cond_scan t k = true) -> cond_scan t j = false ->
  scan_literal t i = j.
Proof.
  remember (j - i) as n eqn:Hn. revert i Hn.
  induction n as [|n IH]; intros i Hn Hij Hall Hj.
  - assert (i = j) by lia. subst. rewrite scan_literal_step, Hj. reflexivity.
  - rewrite scan_literal_step, (Hall i) by lia. apply IH; try lia; [|exact Hj].
    intros k Hk. apply Hall. lia.
Qed.

(** *** A placeholder cannot straddle the end of a literal *)

Lemma has_char_app c s r : has_char c (s +:+ r) = has_char c s || has_char c r.
Proof.
  induction s as [|c' s IH]; [reflexivity|]. rewrite append_cons. simpl.
  rewrite IH, orb_assoc. reflexivity.
Qed.

Lemma string_prefix_app p s r :
  String.prefix p (s +:+ r) = true ->
  String.prefix p s = true
  \/ exists p2, p = s +:+ p2 /\ p2 <> "" /\ String.prefix p2 r = true.
Proof.
  revert s; induction p as [|a p IH]; intros s H.
  - left. destruct s; reflexivity.
  - destruct s as [|b s].
    + right. exists (String a p). split; [reflexivity|]. split; [|exact H].
      intros Habs. discriminate Habs.
    + rewrite append_cons in H. simpl in H. simpl.
      destruct (ascii_dec a b) as [->|]; [|discriminate].
      destruct (IH s H) as [Hl|(p2 & -> & Hne & Hp2)]; [left; exact Hl|].
      right. exists p2. split; [reflexivity|]. split; assumption.
Qed.

Lemma prefix_head a p c r : String.prefix (String a p) (String c r) = true -> a = c.
Proof. cbn [String.prefix]. destruct (ascii_dec a c); [auto | discriminate]. Qed.

Lemma prefix_app_self p r : String.prefix p (p +:+ r) = true.
Proof.
  induction p as [|a p IH]; [destruct r; reflexivity|]. rewrite append_cons. simpl.
  destruct (ascii_dec a a); [exact IH | contradiction].
Qed.

Lemma no_straddle p s r :
  brace_first p -> s <> "" -> String.prefix p s = false ->
  (r = "" \/ exists r', r = String "{" r') ->
  String.prefix p (s +:+ r) = false.
Proof.
  intros (p' & -> & Hp') Hs Hpre Hr.
  destruct (String.prefix (String "{" p') (s +:+ r)) eqn:E; [exfalso|reflexivity].
  apply string_prefix_app in E as [E|(p2 & Heq & Hne & Hp2)]; [congruence|].
  destruct s as [|c s]; [contradiction|]. rewrite append_cons in Heq.
  injection Heq as _ Heq.
  destruct Hr as [->|[r' ->]].
  - destruct p2; [contradiction | simpl in Hp2; discriminate Hp2].
  - destruct p2 as [|c2 p2]; [contradiction|]. simpl in Hp2.
    destruct (ascii_dec c2 "{") as [->|]; [|discriminate].
    rewrite Heq, has_char_app in Hp'. simpl in Hp'. rewrite orb_true_r in Hp'. discriminate.
Qed.

Lemma join_head toks :
  head_placeholder toks = true ->
  join toks = "" \/ exists r', join toks = String "{" r'.
Proof.
  destruct toks as [|b l]; [left; reflexivity|]. simpl. unfold is_placeholder.
  intros H. apply orb_prop in H as [H|H]; apply String.eqb_eq in H; subst b;
    right; eexists; reflexivity.
Qed.

Lemma split_loop_literal lit r :
  lit <> "" -> contains "{PAGE}" lit = false -> contains "{NUMPAGES}" lit = false ->
  (r = "" \/ (String.prefix "{PAGE}" r || String.prefix "{NUMPAGES}" r = true)) ->
  split_loop (lit +:+ r) 0 = lit :: split_loop r 0.
Proof.
  intros Hne Hp Hq Hr.
  assert (Hbrace : r = "" \/ exists r', r = String "{" r').
  { destruct Hr as [->|Hr]; [auto|right].
    destruct r as [|c r']; [simpl in Hr; discriminate Hr|].
    apply orb_prop in Hr as [Hr|Hr]; apply prefix_head in Hr; subst c; eauto. }
  assert (Hlen : 0 < String.length lit) by (destruct lit; [congruence | simpl; lia]).
  assert (Hin : forall k, k < String.length lit -> cond_scan (lit +:+ r) k = true).
  { intros k Hk. unfold cond_scan, startswith.
    rewrite append_length, str_drop_app_le by lia.
    assert (Hs : str_drop k lit <> "").
    { intros He. apply (f_equal String.length) in He.
      rewrite str_drop_length in He. simpl in He. lia. }
    rewrite (no_straddle "{PAGE}" _ r), (no_straddle "{NUMPAGES}" _ r);
      try assumption; try (eexists; split; reflexivity);
      try (apply contains_false; assumption).
    rewrite !andb_false_r. simpl. rewrite !andb_true_r. apply Nat.ltb_lt. lia. }
  assert (Hend : cond_scan (lit +:+ r) (String.length lit) = false).
  { replace (String.length lit) with (String.length lit + 0) by lia.
    rewrite cond_scan_shift. unfold cond_scan, startswith. simpl.
    destruct Hr as [->|Hr]; [reflexivity|].
    destruct (0 <? String.length r)%nat; [|reflexivity]. simpl.
    apply orb_prop in Hr as [->| ->]; simpl; [reflexivity|].
    apply andb_false_r. }
  pose proof (Hin 0 Hlen) as H0. unfold cond_scan in H0.
  apply andb_prop in H0 as [H0 Hn0]. apply andb_prop in H0 as [Hl0 Hp0].
  apply negb_true_iff in Hn0, Hp0.
  rewrite split_loop_step, Hl0, Hp0, Hn0.
  rewrite (scan_literal_stop _ 0 (String.length lit)); [|lia|intros k Hk; apply Hin; lia|exact Hend].
  f_equal.
  - unfold slice. rewrite Nat.sub_0_r. simpl. apply str_take_app.
  - replace (String.length lit) with (String.length lit + 0) at 1 by lia.
    apply split_loop_shift. lia.
Qed.
End TokenizerFacts.

(** Property X5.  In the result of [_split_template] no two
    literal tokens are side by side: of two neighbours at least one is
    [{PAGE}] or [{NUMPAGES}]. *)
Theorem split_template_alternates (t : string) :
  alternates (_split_template t) = true.
Proof. apply split_loop_alternates. lia. Qed.

(** Property X6.  The round trip from the tokens.  A list of tokens,
    each a placeholder or a non-empty literal that contains no
    placeholder, and no two literals side by side, is what
    [_split_template] returns on their concatenation. *)
Theorem split_template_join (toks : list string) :
  Forall token_ok toks -> alternates toks = true ->
  _split_template (join toks) = toks.
Proof.
  unfold _split_template.
  induction 1 as [|tok rest Htok _ IH]; intros Halt.
  - reflexivity.
  - rewrite alternates_cons in Halt. apply andb_prop in Halt as [Hhead Halt].
    specialize (IH Halt). cbn [join fold_right]. fold (join rest).
    destruct Htok as [->|[->|(Hne & Hp & Hq)]].
    + rewrite split_loop_step.
      assert (Hs : startswith ("{PAGE}" +:+ join rest) "{PAGE}" 0 = true)
        by (unfold startswith; simpl str_drop; rewrite prefix_app_self; reflexivity).
      rewrite Hs. rewrite append_length. cbn [String.length Nat.add Nat.ltb Nat.leb].
      f_equal. rewrite <- IH at 2.
      apply (split_loop_shift "{PAGE}" (join rest) 0). lia.
    + rewrite split_loop_step.
      assert (Hs : startswith ("{NUMPAGES}" +:+ join rest) "{NUMPAGES}" 0 = true)
        by (unfold startswith; simpl str_drop; rewrite prefix_app_self; reflexivity).
      assert (Hs' : startswith ("{NUMPAGES}" +:+ join rest) "{PAGE}" 0 = false)
        by (unfold startswith; rewrite !append_cons; reflexivity).
      rewrite Hs, Hs'. rewrite append_length. cbn [String.length Nat.add Nat.ltb Nat.leb].
      f_equal. rewrite <- IH at 2.
      apply (split_loop_shift "{NUMPAGES}" (join rest) 0). lia.
    + rewrite split_loop_literal; [f_equal; exact IH | assumption..|].
      assert (Hlit : is_placeholder tok = false).
      { unfold is_placeholder. apply orb_false_intro; apply String.eqb_neq; intros ->;
          [simpl in Hp | simpl in Hq]; discriminate. }
      rewrite Hlit in Hhead. simpl in Hhead.
      destruct rest as [|b l]; [left; reflexivity|right].
      simpl in Hhead. unfold is_placeholder in Hhead. simpl.
      apply orb_prop in Hhead as [H|H]; apply String.eqb_eq in H; subst b.
      * rewrite prefix_app_self. reflexivity.
      * rewrite (prefix_app_self "{NUMPAGES}"). apply orb_true_r.
Qed.

Lemma split_template_join_witness :
  Forall token_ok ["Trang "; "{PAGE}"; "/"; "{NUMPAGES}"]
  /\ alternates ["Trang "; "{PAGE}"; "/"; "{NUMPAGES}"] = true
  /\ _split_template (join ["Trang "; "{PAGE}"; "/"; "{NUMPAGES}"])
     = ["Trang "; "{PAGE}"; "/"; "{NUMPAGES}"].
Proof.
  assert (H : Forall token_ok ["Trang "; "{PAGE}"; "/"; "{NUMPAGES}"]).
  { constructor; [right; right; split; [discriminate | split; reflexivity]|].
    constructor; [left; reflexivity|].
    constructor; [right; right; split; [discriminate | split; reflexivity]|].
    constructor; [right; left; reflexivity|]. constructor. }
  split; [exact H|]. split; [reflexivity|].
  apply (split_template_join _ H). reflexivity.
Defined.

(* ===================================================================== *)
(** * Page numbering on any number of sections *)
(* ===================================================================== *)

Lemma numbering_invariant_step {A} (F : nat -> A -> A) (orig : list A) (k : nat) (x : A) :
  orig !! k = Some x ->
  <[k := F k x]> (take k (imap F orig) ++ drop k orig)%list
  = (take (S k) (imap F orig) ++ drop (S k) orig)%list.
Proof.
  intros Hx.
  assert (Hk : k < length orig) by (apply lookup_lt_Some in Hx; exact Hx).
  assert (HL : imap F orig !! k = Some (F k x)) by (rewrite list_lookup_imap, Hx; reflexivity).
  rewrite (take_S_r _ _ _ HL), (drop_S _ _ _ Hx).
  assert (Hlen : length (take k (imap F orig)) = k)
    by (rewrite length_take_le; [reflexivity | rewrite length_imap; lia]).
  rewrite insert_app_r_alt by lia. rewrite Hlen, Nat.sub_diag. simpl.
  rewrite <- app_assoc. reflexivity.
Qed.

Lemma page_numbers_loop (pn : PageNumberConfig) (f : string) (n : Z)
    (orig : list (option (gmap string string))) :
  valid_pagenumber pn = true ->
  number_format pn = VStr f -> start_at pn = VInt n ->
  let F := fun i old => Some (numbering_attrs old (PAGE_FMT_MAP_get (upper f) "decimal")
                                 (section_start pn n i)) in
  forall m k secs,
    k + m = length orig ->
    pgNumType <$> secs = (take k (imap F orig) ++ drop k orig)%list ->
    exists secs',
      for_in (seq k m) (page_numbers_at pn) secs = (Ok tt, secs')
      /\ pgNumType <$> secs' = imap F orig.
Proof.
  intros Hvalid Hf Hn F m.
  induction m as [|m IH]; intros k secs Hk Hinv.
  - exists secs. split; [reflexivity|]. rewrite Hinv.
    rewrite take_ge by (rewrite length_imap; lia).
    rewrite drop_ge by lia. apply app_nil_r.
  - assert (Hlt : k < length orig) by lia.
    destruct (lookup_lt_is_Some_2 orig k Hlt) as [x Hx].
    assert (Hs : exists s, secs !! k = Some s /\ pgNumType s = x).
    { assert (Hl : (pgNumType <$> secs) !! k = Some x).
      { rewrite Hinv, lookup_app_r by (rewrite length_take, length_imap; lia).
        rewrite length_take_le by (rewrite length_imap; lia).
        rewrite Nat.sub_diag, lookup_drop, Nat.add_0_r. exact Hx. }
      rewrite list_lookup_fmap in Hl. destruct (secs !! k) as [s|]; [|discriminate].
      injection Hl as Hl. eauto. }
    destruct Hs as (s & Hs & Hpg).
    destruct (page_numbers_at_ok pn secs k s Hvalid Hs)
      as (secs1 & f' & n' & Hf' & Hn' & Hrun & Hpg1).
    rewrite Hf in Hf'. injection Hf' as <-. rewrite Hn in Hn'. injection Hn' as <-.
    destruct (IH (S k) secs1 ltac:(lia)) as (secs' & Hrest & Hfinal).
    { rewrite Hpg1, Hinv, Hpg. rewrite <- (numbering_invariant_step F orig k x Hx).
      f_equal. unfold F, section_start. f_equal. f_equal.
      destruct (k =? 0)%nat; [reflexivity|]. simpl.
      destruct (truthy (restart_each_section pn)); reflexivity. }
    exists secs'. split; [|exact Hfinal].
    cbn [seq for_in]. erewrite bind_ok by exact Hrun. exact Hrest.
Qed.

(** Property X8.  With page numbering enabled and a valid
    page-number configuration, [_apply_page_numbers] returns on a
    document of any number of sections; body and styles are as before;
    every section has [w:pgNumType] with the mapped [w:fmt], and
    [w:start = str(start_at)] on section 1, and on the others exactly
    when restart-each-section is on (otherwise it is removed). *)
Theorem page_numbers_all_sections (cfg : ReportConfig) (doc : Document)
    (f : string) (n : Z) :
  valid_pagenumber (pagenumber cfg) = true ->
  truthy (enabled (pagenumber cfg)) = true ->
  number_format (pagenumber cfg) = VStr f ->
  start_at (pagenumber cfg) = VInt n ->
  exists doc',
    _apply_page_numbers cfg doc = (Ok tt, doc')
    /\ body doc' = body doc /\ styles doc' = styles doc
    /\ pgNumType <$> sections doc'
       = imap (fun i old =>
                 Some (numbering_attrs old (PAGE_FMT_MAP_get (upper f) "decimal")
                         (section_start (pagenumber cfg) n i)))
              (pgNumType <$> sections doc).
Proof.
  intros Hvalid Hen Hf Hn.
  destruct (page_numbers_loop (pagenumber cfg) f n (pgNumType <$> sections doc)
              Hvalid Hf Hn (length (sections doc)) 0 (sections doc))
    as (secs' & Hrun & Hfinal).
  { rewrite length_fmap. reflexivity. }
  { reflexivity. }
  exists (set_sections secs' doc).
  split; [|split; [reflexivity | split; [reflexivity | exact Hfinal]]].
  unfold _apply_page_numbers. rewrite Hen. cbn [negb].
  erewrite bind_ok by reflexivity. unfold zoom. rewrite Hrun. reflexivity.
Qed.

Lemma page_numbers_all_sections_witness :
  valid_pagenumber (pagenumber ReportConfig_default) = true
  /\ exists doc',
       _apply_page_numbers ReportConfig_default three_sections = (Ok tt, doc')
       /\ (pgNumType <$> sections doc') !! 1
          = Some (Some (numbering_attrs (Some {["w:start" := "5"]}) "decimal" None)).
Proof.
  assert (Hv : valid_pagenumber (pagenumber ReportConfig_default) = true)
    by (vm_compute; reflexivity).
  split; [exact Hv|].
  destruct (page_numbers_all_sections ReportConfig_default three_sections "DECIMAL" 1%Z
              Hv eq_refl eq_refl eq_refl)
    as (doc' & Hrun & _ & _ & Hpg).
  exists doc'. split; [exact Hrun|]. rewrite Hpg. reflexivity.
Defined.

Lemma split_once_no_sep pos :
  contains "_" pos = false -> split_once "_"%char pos = (pos, None).
Proof.
  induction pos as [|c pos IH]; [reflexivity|].
  cbn [contains split_once]. intros H. apply orb_false_elim in H as [H1 H2].
  destruct (Ascii.eqb c "_") eqn:E.
  - apply Ascii.eqb_eq in E. subst c. cbn [String.prefix] in H1.
    destruct (ascii_dec "_" "_"); [|contradiction]. destruct pos; discriminate.
  - rewrite (IH H2). reflexivity.
Qed.

(** Property X9.  With page numbering enabled
    and a position string without an underscore,
    [_apply_page_numbers] raises [IndexError] at [split("_", 1)[1]] on the
    first section: that section has got its [w:pgNumType], its header
    and footer and all other sections are as they were. *)
Theorem page_numbers_position_without_separator
    (cfg : ReportConfig) (doc : Document) (s0 : Section) (rest : list Section)
    (pos f : string) (n : Z) :
  truthy (enabled (pagenumber cfg)) = true ->
  position (pagenumber cfg) = VStr pos -> contains "_" pos = false ->
  number_format (pagenumber cfg) = VStr f ->
  start_at (pagenumber cfg) = VInt n ->
  sections doc = s0 :: rest ->
  exists s0',
    _apply_page_numbers cfg doc = (Raise IndexError, set_sections (s0' :: rest) doc)
    /\ pgNumType s0' = Some (numbering_attrs (pgNumType s0)
                               (PAGE_FMT_MAP_get (upper f) "decimal") (Some n))
    /\ header s0' = header s0 /\ footer s0' = footer s0.
Proof.
  intros Hen Hpos Hsep Hf Hn Hsecs.
  destruct (set_section_page_numbering_ok (start_at (pagenumber cfg))
              (number_format (pagenumber cfg)) true f n s0 Hf Hn)
    as (s0' & Hset & Hpg & Hh & Hft).
  exists s0'. split; [|auto].
  assert (Hnum : on_nth 0 (_set_section_page_numbering (start_at (pagenumber cfg))
                             (number_format (pagenumber cfg)) true) (s0 :: rest)
                 = (Ok tt, s0' :: rest)).
  { unfold on_nth. cbn [lookup list_lookup]. rewrite Hset. reflexivity. }
  assert (Hat : page_numbers_at (pagenumber cfg) 0 (s0 :: rest)
                = (Raise IndexError, s0' :: rest)).
  { unfold page_numbers_at. cbn [Nat.eqb].
    erewrite bind_ok by exact Hnum.
    rewrite Hpos. cbn [str_startswith str_split1]. rewrite (split_once_no_sep pos Hsep).
    reflexivity. }
  unfold _apply_page_numbers. rewrite Hen. cbn [negb].
  erewrite bind_ok by reflexivity. unfold zoom. rewrite Hsecs.
  cbn [length seq for_in]. unfold mbind, M_bind. rewrite Hat.
  reflexivity.
Qed.

Lemma page_numbers_position_without_separator_witness :
  exists cfg s0',
    position (pagenumber cfg) = VStr "FOOTER"
    /\ _apply_page_numbers cfg one_paragraph_document
       = (Raise IndexError, set_sections [s0'] one_paragraph_document).
Proof.
  set (pn := {| enabled := VBool true; position := VStr "FOOTER";
                template := template PageNumberConfig_default;
                start_at := VInt 1; restart_each_section := VBool false;
                number_format := VStr "DECIMAL";
                pn_font_name := pn_font_name PageNumberConfig_default;
                pn_font_size_pt := pn_font_size_pt PageNumberConfig_default |}).
  set (cfg := {| normal := normal ReportConfig_default; title := title ReportConfig_default;
                 heading1 := heading1 ReportConfig_default;
                 heading2 := heading2 ReportConfig_default;
                 heading3 := heading3 ReportConfig_default;
                 caption := caption ReportConfig_default;
                 pagesetup := pagesetup ReportConfig_default;
                 pagenumber := pn; toc := toc ReportConfig_default;
                 processing := processing ReportConfig_default |}).
  destruct (page_numbers_position_without_separator cfg one_paragraph_document
              {| pgNumType := None; header := None; footer := None |} []
              "FOOTER" "DECIMAL" 1%Z eq_refl eq_refl eq_refl eq_refl eq_refl eq_refl)
    as (s0' & Hrun & _).
  exists cfg, s0'. split; [reflexivity | exact Hrun].
Defined.


Section Rendering.
Variables (pn : PageNumberConfig) (fnt : string) (len : Length).
Hypothesis Hfnt : pn_font_name pn = VStr fnt.
Hypothesis Hfx : xml_compatible fnt = true.
Hypothesis Hpt : Pt (pn_font_size_pt pn) = Ok len.
Hypothesis Hlen : check_unsigned len = Ok len.


End Rendering.


(** ** The header or footer after page numbering *)





(** ** The merge, key by key *)

(** Property X4.  [deep_merge a b] returns on every pair of mappings,
    and every key of [b] is in the result: with [b]'s value, except
    where [a] and [b] both hold a mapping at the key, and then with the
    merge of the two. *)
Theorem deep_merge_override (a b : dict) :
  NoDup (dict_keys b) ->
  exists out,
    deep_merge a (VDict b) = Ok out
    /\ forall k v, dict_get k b = Some v ->
         match dict_get k a, v with
         | Some (VDict ak), VDict bk =>
             exists sub, deep_merge ak (VDict bk) = Ok sub
                         /\ dict_get k out = Some (VDict sub)
         | _, _ => dict_get k out = Some v
         end.
Proof.
  intros Hnd. destruct (merge_items_lookup b a Hnd) as (out & Hout & Hlook).
  exists out. split; [rewrite deep_merge_dict; exact Hout|].
  intros k v Hk. rewrite Hlook, Hk. unfold merged_value.
  destruct (dict_get k a) as [[| | | | | |ak]|]; try reflexivity.
  destruct v as [| | | | | |bk]; try reflexivity.
  destruct (deep_merge_total (VDict bk) ak eq_refl) as [sub Hsub].
  exists sub. split; [exact Hsub|]. rewrite Hsub. reflexivity.
Qed.

Lemma deep_merge_override_witness :
  exists out,
    deep_merge [("a", VDict [("x", VInt 1); ("y", VInt 2)]); ("b", VInt 3)]
               (VDict [("a", VDict [("y", VInt 20)]); ("b", VDict [])]) = Ok out
    /\ dict_get "a" out = Some (VDict [("x", VInt 1); ("y", VInt 20)])
    /\ dict_get "b" out = Some (VDict []).
Proof.
  assert (Hnd : NoDup (dict_keys [("a", VDict [("y", VInt 20)]); ("b", VDict [])]))
    by (apply (bool_decide_unpack _); vm_compute; exact I).
  destruct (deep_merge_override
              [("a", VDict [("x", VInt 1); ("y", VInt 2)]); ("b", VInt 3)]
              [("a", VDict [("y", VInt 20)]); ("b", VDict [])] Hnd)
    as (out & Hout & Hlook).
  exists out. split; [exact Hout|]. split.
  - destruct (Hlook "a" _ eq_refl) as (sub & Hsub & ->).
    vm_compute in Hsub. injection Hsub as <-. reflexivity.
  - exact (Hlook "b" _ eq_refl).
Defined.

(** ** The start value of a section *)

(** Property X7.  [_set_section_page_numbering] with a
    string format.  Without restart the start value is not read: the
    call returns whatever it is, [w:fmt] set and [w:start] removed.  With
    restart, a float start value is truncated by [int]; [None] raises
    [TypeError], and [w:fmt] has been written by then. *)
Theorem section_numbering_start_value (fmt : value) (f : string) (s : Section) :
  fmt = VStr f ->
  let fmt_val := PAGE_FMT_MAP_get (upper f) "decimal" in
  (forall start_at,
     _set_section_page_numbering start_at fmt false s
     = (Ok tt, set_pgNumType (Some (numbering_attrs (pgNumType s) fmt_val None)) s))
  /\ (forall x n, int_of_float x = Ok n ->
        _set_section_page_numbering (VFloat x) fmt true s
        = (Ok tt, set_pgNumType (Some (numbering_attrs (pgNumType s) fmt_val (Some n))) s))
  /\ _set_section_page_numbering VNone fmt true s
     = (Raise TypeError,
        set_pgNumType (Some (<["w:fmt" := fmt_val]> (default ∅ (pgNumType s)))) s).
Proof.
  intros -> fmt_val. unfold _set_section_page_numbering, numbering_attrs.
  unfold mbind, M_bind, mget, mmodify, lift, set_attr, pop_attr. cbn [str_upper].
  fold fmt_val. destruct s as [pg h ft]. split; [|split].
  - intros start_at. destruct pg as [attrs|]; cbn [pgNumType set_pgNumType default from_option id].
    + destruct (<["w:fmt" := fmt_val]> attrs !! "w:start") eqn:E.
      * reflexivity.
      * cbn [pgNumType set_pgNumType default from_option id].
        rewrite (delete_id _ _ E). reflexivity.
    + rewrite lookup_insert_ne by discriminate. rewrite lookup_empty.
      cbn [pgNumType set_pgNumType default from_option id].
      rewrite (delete_id (<["w:fmt" := fmt_val]> ∅) "w:start").
      * reflexivity.
      * rewrite lookup_insert_ne by discriminate. apply lookup_empty.
  - intros x n Hx. cbn [py_int]. rewrite Hx. destruct pg; reflexivity.
  - destruct pg; reflexivity.
Qed.

Lemma section_numbering_start_value_witness :
  int_of_float (flt 29 10) = Ok 2%Z
  /\ _set_section_page_numbering (VFloat (flt 29 10)) (VStr "roman_upper") true
       {| pgNumType := None; header := None; footer := None |}
     = (Ok tt, {| pgNumType := Some (numbering_attrs None "upperRoman" (Some 2%Z));
                  header := None; footer := None |}).
Proof.
  assert (H : int_of_float (flt 29 10) = Ok 2%Z) by (vm_compute; reflexivity).
  split; [exact H|].
  exact (proj1 (proj2 (section_numbering_start_value (VStr "roman_upper") "roman_upper"
                         {| pgNumType := None; header := None; footer := None |} eq_refl))
               (flt 29 10) 2%Z H).
Defined.

(* ===================================================================== *)
(** * The sweeps as maps over the paragraphs *)
(* ===================================================================== *)

Section Frames.
Context {S V : Type} (view : S -> V).

Lemma preserves_ret {A} (a : A) : preserves view (mret a : M S A).
Proof. intros s. reflexivity. Qed.

Lemma preserves_lift {A} (r : result A) : preserves view (lift r : M S A).
Proof. intros s. reflexivity. Qed.

Lemma preserves_mget : preserves view (mget : M S S).
Proof. intros s. reflexivity. Qed.

Lemma preserves_bind {A B} (m : M S A) (k : A -> M S B) :
  preserves view m -> (forall a, preserves view (k a)) -> preserves view (m ≫= k).
Proof.
  intros Hm Hk s. unfold mbind, M_bind. specialize (Hm s).
  destruct (m s) as [[a|e] s']; simpl in *; [rewrite Hk | ]; exact Hm.
Qed.

Lemma preserves_try_pass (m : M S unit) : preserves view m -> preserves view (try_pass m).
Proof. intros Hm s. unfold try_pass. specialize (Hm s). destruct (m s). exact Hm. Qed.

Lemma preserves_for_in {X} (xs : list X) (body : X -> M S unit) :
  (forall x, preserves view (body x)) -> preserves view (for_in xs body).
Proof.
  intros Hb. induction xs as [|x xs IH]; [apply preserves_ret|].
  simpl. apply preserves_bind; [apply Hb | intros _; exact IH].
Qed.
End Frames.

Lemma preserves_on_nth {T A} (E : T -> T) (i : nat) (c : M T A) :
  preserves E c -> preserves (fmap E) (on_nth i c).
Proof.
  intros Hc xs. unfold on_nth. destruct (xs !! i) as [x|] eqn:Hx; [|reflexivity].
  specialize (Hc x). destruct (c x) as [r x']. simpl in *.
  rewrite list_fmap_insert, Hc. apply list_insert_id.
  rewrite list_lookup_fmap, Hx. reflexivity.
Qed.

Lemma preserves_on_pref {A} (E : Paragraph -> Paragraph) (r : pref) (m : M Paragraph A) :
  preserves E m ->
  preserves (fun doc => set_body (map_paragraphs true E (body doc)) doc) (on_pref r m).
Proof.
  intros Hm doc. unfold on_pref, zoom.
  assert (Hgoal : forall (c : M (list Block) A),
            preserves (map_paragraphs true E) c ->
            set_body (map_paragraphs true E
                        (body (let (r0, t') := c (body doc) in (r0, set_body t' doc)).2))
                     (let (r0, t') := c (body doc) in (r0, set_body t' doc)).2
            = set_body (map_paragraphs true E (body doc)) doc).
  { intros c Hc. specialize (Hc (body doc)). destruct (c (body doc)) as [r0 t'].
    simpl in *. rewrite Hc. destruct doc; reflexivity. }
  apply Hgoal. clear Hgoal. destruct r as [i | i row cell k].
  - intros blocks. unfold on_paragraph.
    destruct (blocks !! i) as [[p|t]|] eqn:Hb; try reflexivity.
    specialize (Hm p). destruct (m p) as [r0 p']. simpl in *.
    unfold map_paragraphs. rewrite list_fmap_insert, Hm. apply list_insert_id.
    rewrite list_lookup_fmap, Hb. reflexivity.
  - intros blocks. unfold on_table.
    destruct (blocks !! i) as [[p|t]|] eqn:Hb; try reflexivity.
    pose proof (preserves_on_nth (fmap (fmap E)) row _
                  (preserves_on_nth (fmap E) cell _ (preserves_on_nth E k m Hm)) t) as Ht.
    destruct (on_nth row (on_nth cell (on_nth k m)) t) as [r0 t']. simpl in *.
    unfold map_paragraphs. rewrite list_fmap_insert. unfold map_table.
    rewrite Ht. apply list_insert_id.
    rewrite list_lookup_fmap, Hb. reflexivity.
Qed.

Lemma preserves_on_pf {A} (m : M ParagraphFormat A) :
  preserves (set_pf ParagraphFormat_empty) (on_pf m).
Proof. intros p. unfold on_pf, zoom. destruct (m (pf p)). reflexivity. Qed.

Lemma preserves_on_font {A} (m : M Font A) :
  preserves (set_r_font Font_empty) (on_font m).
Proof. intros r. unfold on_font, zoom. destruct (m (r_font r)). reflexivity. Qed.

Lemma preserves_for_each_run (m : M Run unit) :
  preserves (set_r_font Font_empty) m ->
  preserves (map_runs (set_r_font Font_empty)) (for_each_run m).
Proof.
  intros Hm p. unfold for_each_run.
  assert (H : forall xs,
            (fun x => match x with IRun r => IRun (set_r_font Font_empty r) | y => y end)
              <$> (for_runs m xs).2
            = (fun x => match x with IRun r => IRun (set_r_font Font_empty r) | y => y end)
                <$> xs).
  { induction xs as [|[r|instr shown] xs IH]; [reflexivity| |].
    - simpl. specialize (Hm r). destruct (m r) as [[[]|e] r']; simpl in *.
      + destruct (for_runs m xs) as [res rest']. simpl in *. rewrite Hm. f_equal. exact IH.
      + rewrite Hm. reflexivity.
    - simpl. destruct (for_runs m xs) as [res rest']. simpl in *. f_equal. exact IH. }
  specialize (H (inlines p)). destruct (for_runs m (inlines p)) as [res xs]. simpl in *.
  unfold map_runs. simpl. rewrite H. reflexivity.
Qed.

(** Property X11.  Whatever the configuration, and whether it
    returns or raises, [_force_paragraph_format] changes nothing of a
    document but the formats of its paragraphs: styles, sections, the
    order and the nesting of blocks, the style and the content of every
    paragraph are as before. *)
Theorem force_paragraph_format_frame (cfg : ReportConfig) (doc : Document) :
  without_formats (_force_paragraph_format cfg doc).2 = without_formats doc.
Proof.
  revert doc.
  change (preserves without_formats (_force_paragraph_format cfg)).
  unfold _force_paragraph_format.
  destruct (negb _); [apply preserves_ret|].
  apply preserves_bind; [apply preserves_mget|]. intros d.
  apply preserves_for_in. intros r.
  apply (preserves_on_pref (set_pf ParagraphFormat_empty)).
  unfold force_paragraph_format_at.
  apply preserves_bind; [apply preserves_mget|]. intros p.
  apply preserves_on_pf.
Qed.

(** Property X12.  Whatever the configuration, and whether it returns
    or raises, [_force_run_font] changes nothing of a document but the
    fonts of its runs. *)
Theorem force_run_font_frame (cfg : ReportConfig) (doc : Document) :
  without_fonts (_force_run_font cfg doc).2 = without_fonts doc.
Proof.
  revert doc.
  change (preserves without_fonts (_force_run_font cfg)).
  unfold _force_run_font.
  destruct (negb _); [apply preserves_ret|].
  apply preserves_bind; [apply preserves_mget|]. intros d.
  apply preserves_for_in. intros r.
  apply (preserves_on_pref (map_runs (set_r_font Font_empty))).
  unfold force_run_font_at.
  apply preserves_bind; [apply preserves_mget|]. intros p.
  apply preserves_for_each_run. unfold force_run_font_run.
  apply preserves_bind; [apply preserves_on_font|]. intros _.
  apply preserves_bind; [apply preserves_try_pass, preserves_on_font|]. intros _.
  apply preserves_bind; [apply preserves_lift|]. intros size.
  apply preserves_on_font.
Qed.

(** ** Index loops *)

Section IndexLoopFacts.
Local Open Scope list_scope.

Section IndexLoops.
Context {St : Type}.






End IndexLoops.

Section Lifting.
Context {T U X : Type} (wrap : U -> T) (pre post : list T).
Variables (B : nat -> X -> M (list T) unit) (h : nat -> X -> M U unit).
Hypothesis Hlift :
  forall k x y, B k x (pre ++ wrap y :: post)
                = let (r, y') := h k x y in (r, pre ++ wrap y' :: post).

End Lifting.



Lemma on_nth_middle {T A} (c : M T A) (pre post : list T) (y : T) :
  on_nth (length pre) c (pre ++ y :: post)
  = let (r, y') := c y in (r, pre ++ y' :: post).
Proof.
  unfold on_nth. rewrite list_lookup_middle by reflexivity.
  destruct (c y) as [r y']. f_equal.
  rewrite insert_app_r_alt by lia. rewrite Nat.sub_diag. reflexivity.
Qed.



(** A loop whose step [i] turns element [i] from [G x] into [F x] turns
    the list [G <$> xs] into [F <$> xs]. *)
Lemma for_idx_map {T X} (B : nat -> X -> M (list T) unit) (G F : X -> T) :
  (forall pre x post, B (length pre) x (pre ++ G x :: post) = (Ok tt, pre ++ F x :: post)) ->
  forall rest pre,
    for_idx (length pre) rest B (pre ++ (G <$> rest)) = (Ok tt, pre ++ (F <$> rest)).
Proof.
  intros Hbody. induction rest as [|x rest IH]; intros pre; [reflexivity|].
  cbn [for_idx fmap list_fmap]. unfold mbind, M_bind. rewrite Hbody.
  specialize (IH (pre ++ [F x])). rewrite length_app in IH. simpl in IH.
  rewrite Nat.add_1_r, <- !app_assoc in IH. exact IH.
Qed.

Section Sweep.
Variables (m : M Paragraph unit) (f : Paragraph -> Paragraph).
Hypothesis Hm : forall p, m p = (Ok tt, f p).







End Sweep.
End IndexLoopFacts.

(** ** The sweeps, paragraph by paragraph *)









(** ** Page setup *)

Section PageSetupFacts.
Local Open Scope list_scope.

Lemma for_in_seq {St X} (H : nat -> M St unit) (l : list X) : forall k s,
  for_in (seq k (length l)) H s = for_idx k l (fun i _ => H i) s.
Proof.
  induction l as [|x l IH]; intros k s; [reflexivity|].
  cbn [length seq for_in for_idx]. unfold mbind, M_bind.
  destruct (H k s) as [[[]|e] s1]; [apply IH | reflexivity].
Qed.

Lemma for_each_index_map {T} (c : M T unit) (F : T -> T) (xs : list T) :
  (forall x, c x = (Ok tt, F x)) ->
  for_in (seq 0 (length xs)) (fun i => on_nth i c) xs = (Ok tt, F <$> xs).
Proof.
  intros Hc. rewrite for_in_seq.
  pose proof (for_idx_map (fun i (_ : T) => on_nth i c) id F) as H.
  specialize (H ltac:(intros pre x post; unfold id; rewrite on_nth_middle, Hc; reflexivity)
                xs []).
  rewrite list_fmap_id in H. exact H.
Qed.

Lemma pgSz_set_ok name len v g :
  twips_attr check_unsigned len = Ok v ->
  pgSz_set name len g = (Ok tt, set_pgSz (Some (<[name := v]> (default ∅ (pgSz g)))) g).
Proof.
  intros Hv. unfold pgSz_set, mbind, M_bind, mmodify, lift. rewrite Hv. reflexivity.
Qed.

Lemma pgMar_set_ok name check len v g :
  twips_attr check len = Ok v ->
  pgMar_set name check len g
  = (Ok tt, set_pgMar (Some (<[name := v]> (default ∅ (pgMar g)))) g).
Proof.
  intros Hv. unfold pgMar_set, mbind, M_bind, mmodify, lift. rewrite Hv. reflexivity.
Qed.
End PageSetupFacts.

Lemma apply_page_setup_ok (cfg : ReportConfig) (w h : string)
    (margins : list (string * string)) (gs : list PageGeometry) :
  page_setup_values (pagesetup cfg) = Ok (w, h, margins) ->
  _apply_page_setup cfg gs
  = (Ok tt, with_geometry w h margins
              (truthy (different_first_page (pagesetup cfg))) <$> gs).
Proof.
  unfold page_setup_values. unfold mbind, result_bind. intros H.
  apply rbind_Ok_inv in H as (preset & Hpaper & H).
  apply rbind_Ok_inv in H as (w' & Hw & H).
  apply rbind_Ok_inv in Hw as (w0 & Hw0 & Hw).
  apply rbind_Ok_inv in H as (h' & Hh & H).
  apply rbind_Ok_inv in Hh as (h0 & Hh0 & Hh).
  apply rbind_Ok_inv in H as (l & Hl & H).
  apply rbind_Ok_inv in Hl as (l0 & Hl0 & Hl).
  apply rbind_Ok_inv in H as (r & Hr & H).
  apply rbind_Ok_inv in Hr as (r0 & Hr0 & Hr).
  apply rbind_Ok_inv in H as (t & Ht & H).
  apply rbind_Ok_inv in Ht as (t0 & Ht0 & Ht).
  apply rbind_Ok_inv in H as (b & Hb & H).
  apply rbind_Ok_inv in Hb as (b0 & Hb0 & Hb).
  apply rbind_Ok_inv in H as (hd & Hhd & H).
  apply rbind_Ok_inv in Hhd as (hd0 & Hhd0 & Hhd).
  apply rbind_Ok_inv in H as (fd & Hfd & H).
  apply rbind_Ok_inv in Hfd as (fd0 & Hfd0 & Hfd).
  injection H as <- <- <-.
  unfold _apply_page_setup. rewrite Hpaper.
  erewrite bind_ok by reflexivity. erewrite bind_ok by reflexivity.
  apply for_each_index_map. intros g.
  unfold page_setup_section.
  assert (Hw1 : (getitem "width_cm" preset ≫= Cm) = Ok w0) by exact Hw0.
  assert (Hh1 : (getitem "height_cm" preset ≫= Cm) = Ok h0) by exact Hh0.
  rewrite Hw1, Hh1, Hl0, Hr0, Ht0, Hb0, Hhd0, Hfd0.
  unfold page_width_set, page_height_set, left_margin_set, right_margin_set,
    top_margin_set, bottom_margin_set, header_distance_set, footer_distance_set.
  erewrite bind_ok by reflexivity.
  erewrite bind_ok by (apply pgSz_set_ok; exact Hw).
  erewrite bind_ok by reflexivity.
  erewrite bind_ok by (apply pgSz_set_ok; exact Hh).
  erewrite bind_ok by reflexivity.
  erewrite bind_ok by (apply pgMar_set_ok; exact Hl).
  erewrite bind_ok by reflexivity.
  erewrite bind_ok by (apply pgMar_set_ok; exact Hr).
  erewrite bind_ok by reflexivity.
  erewrite bind_ok by (apply pgMar_set_ok; exact Ht).
  erewrite bind_ok by reflexivity.
  erewrite bind_ok by (apply pgMar_set_ok; exact Hb).
  erewrite bind_ok by reflexivity.
  erewrite bind_ok by (apply pgMar_set_ok; exact Hhd).
  erewrite bind_ok by reflexivity.
  erewrite bind_ok by (apply pgMar_set_ok; exact Hfd).
  reflexivity.
Qed.

(** Property X15.  When the paper and the six margins of the
    configuration are accepted, [_apply_page_setup] returns and writes the
    same page size, margins and first-page flag on every section; the
    page is 11906 by 16838 twips, turned for [A4_LANDSCAPE], and A4
    portrait for every other paper name. *)
Theorem page_setup_all_sections
    (cfg : ReportConfig) (w h : string) (margins : list (string * string)) :
  page_setup_values (pagesetup cfg) = Ok (w, h, margins) ->
  (forall gs,
     _apply_page_setup cfg gs
     = (Ok tt, with_geometry w h margins
                 (truthy (different_first_page (pagesetup cfg))) <$> gs))
  /\ (w, h) = if is_landscape (paper (pagesetup cfg))
              then ("16838", "11906") else ("11906", "16838").
Proof.
  intros H. split; [intros gs; apply apply_page_setup_ok; exact H|].
  unfold page_setup_values in H. unfold mbind, result_bind in H.
  apply rbind_Ok_inv in H as (preset & Hpaper & H).
  apply rbind_Ok_inv in H as (w' & Hw & H).
  apply rbind_Ok_inv in Hw as (w0 & Hw0 & Hw).
  apply rbind_Ok_inv in H as (h' & Hh & H).
  apply rbind_Ok_inv in Hh as (h0 & Hh0 & Hh).
  assert (Hwh : w' = w /\ h' = h).
  { do 6 (apply rbind_Ok_inv in H as (? & _ & H)). injection H as <- <- _. split; reflexivity. }
  destruct Hwh as [<- <-].
  unfold PAPER_PRESET_get, is_landscape in *.
  destruct (paper (pagesetup cfg)) as [| | | |s| |]; try discriminate;
    try (injection Hpaper as <-; vm_compute in Hw0, Hh0;
         injection Hw0 as <-; injection Hh0 as <-;
         vm_compute in Hw, Hh; congruence).
  destruct (String.eqb s "A4_PORTRAIT") eqn:E1.
  - apply String.eqb_eq in E1. subst s. simpl.
    injection Hpaper as <-; vm_compute in Hw0, Hh0;
      injection Hw0 as <-; injection Hh0 as <-; vm_compute in Hw, Hh; congruence.
  - destruct (String.eqb s "A4_LANDSCAPE");
      injection Hpaper as <-; vm_compute in Hw0, Hh0;
      injection Hw0 as <-; injection Hh0 as <-; vm_compute in Hw, Hh; congruence.
Qed.

(** ** Styles and the pipeline *)

Lemma apply_if_present_outcome (name : string) (scfg : StyleConfig) (doc : Document) :
  if bool_decide (is_Some (styles doc !! name))
  then exists e doc', apply_if_present name scfg doc = (Raise e, doc')
  else apply_if_present name scfg doc = (Ok tt, doc).
Proof.
  unfold apply_if_present. destruct (styles doc !! name) as [st|] eqn:E.
  - rewrite bool_decide_eq_true_2 by eauto.
    destruct (apply_style_raises scfg st) as (e & st' & Hrun & _).
    rewrite Hrun. eauto.
  - rewrite bool_decide_eq_false_2 by (intros [? ?]; discriminate). reflexivity.
Qed.

Lemma apply_styles_cases (cfg : ReportConfig) (doc : Document) :
  if has_target_style doc
  then exists e doc', _apply_styles cfg doc = (Raise e, doc')
  else _apply_styles cfg doc = (Ok tt, doc).
Proof.
  unfold has_target_style, STYLE_NAMES, _apply_styles. cbn [existsb].
  unfold mbind, M_bind.
  pose proof (apply_if_present_outcome "Normal" (normal cfg) doc) as H1.
  destruct (bool_decide (is_Some (styles doc !! "Normal")));
    [destruct H1 as (e1 & doc1 & ->); cbn [orb]; eauto | rewrite H1; cbn [orb]; cbv beta iota].
  pose proof (apply_if_present_outcome "Title" (title cfg) doc) as H2.
  destruct (bool_decide (is_Some (styles doc !! "Title")));
    [destruct H2 as (e2 & doc2 & ->); cbn [orb]; eauto | rewrite H2; cbn [orb]; cbv beta iota].
  pose proof (apply_if_present_outcome "Heading 1" (heading1 cfg) doc) as H3.
  destruct (bool_decide (is_Some (styles doc !! "Heading 1")));
    [destruct H3 as (e3 & doc3 & ->); cbn [orb]; eauto | rewrite H3; cbn [orb]; cbv beta iota].
  pose proof (apply_if_present_outcome "Heading 2" (heading2 cfg) doc) as H4.
  destruct (bool_decide (is_Some (styles doc !! "Heading 2")));
    [destruct H4 as (e4 & doc4 & ->); cbn [orb]; eauto | rewrite H4; cbn [orb]; cbv beta iota].
  pose proof (apply_if_present_outcome "Heading 3" (heading3 cfg) doc) as H5.
  destruct (bool_decide (is_Some (styles doc !! "Heading 3")));
    [destruct H5 as (e5 & doc5 & ->); cbn [orb]; eauto | rewrite H5; cbn [orb]; cbv beta iota].
  pose proof (apply_if_present_outcome "Caption" (caption cfg) doc) as H6.
  destruct (bool_decide (is_Some (styles doc !! "Caption")));
    [destruct H6 as (e6 & doc6 & ->); cbn [orb]; eauto | rewrite H6; cbn [orb]; cbv beta iota].
  reflexivity.
Qed.

(** Property X16.  [_apply_styles] changes nothing and returns when the
    document has none of the six style names, and raises as soon as it
    has one of them. *)
Theorem apply_styles_outcome (cfg : ReportConfig) (doc : Document) :
  ((forall name, name ∈ STYLE_NAMES -> styles doc !! name = None) ->
   _apply_styles cfg doc = (Ok tt, doc))
  /\ (forall name, name ∈ STYLE_NAMES -> is_Some (styles doc !! name) ->
      exists e doc', _apply_styles cfg doc = (Raise e, doc')).
Proof.
  pose proof (apply_styles_cases cfg doc) as H. split.
  - intros Hnone. destruct (has_target_style doc) eqn:E; [exfalso|exact H].
    unfold has_target_style in E. apply existsb_exists in E as (name & Hin & Hsome).
    apply bool_decide_eq_true in Hsome. apply list_elem_of_In in Hin.
    rewrite (Hnone name Hin) in Hsome. destruct Hsome as [? ?]. discriminate.
  - intros name Hin Hsome. destruct (has_target_style doc) eqn:E; [exact H|exfalso].
    assert (Hex : has_target_style doc = true).
    { unfold has_target_style. apply existsb_exists. exists name.
      split; [apply list_elem_of_In, Hin | apply bool_decide_eq_true_2, Hsome]. }
    congruence.
Qed.

Lemma apply_styles_outcome_witness :
  is_Some (styles styled_document !! "Normal")
  /\ exists e doc', _apply_styles ReportConfig_default styled_document = (Raise e, doc').
Proof.
  assert (H : is_Some (styles styled_document !! "Normal")) by (eexists; reflexivity).
  split; [exact H|].
  apply (proj2 (apply_styles_outcome ReportConfig_default styled_document) "Normal");
    [apply (bool_decide_unpack _); vm_compute; exact I | exact H].
Defined.

Lemma insert_toc_raises (py_format : value -> string) (cfg : ReportConfig) :
  truthy (insert_toc (toc cfg)) = true -> raises (_insert_toc_if_needed py_format cfg).
Proof.
  intros Hon. unfold _insert_toc_if_needed. rewrite Hon. cbn [negb].
  apply raises_zoom.
  do 5 (apply raises_bind_r; intros ?).
  apply raises_bind_l, insert_paragraph_after_raises.
Qed.

(** Property X17.  [format_docx_bytes] raises, and so gives no
    output, on every document that has one of the six style names, and
    on every document when TOC insertion is on. *)
Theorem format_docx_bytes_raises
    (py_format : value -> string) (Document_open : string -> result Opened)
    (Document_save : Opened -> string)
    (cfg : ReportConfig) (input : string) (doc : Opened) :
  Document_open input = Ok doc ->
  has_target_style (tree doc) || truthy (insert_toc (toc cfg)) = true ->
  exists e, format_docx_bytes py_format Document_open Document_save cfg input = Raise e.
Proof.
  intros Hopen Hcase. unfold format_docx_bytes. rewrite Hopen.
  change (Ok doc ≫= ?k) with (k doc). cbv beta.
  assert (Hraise : exists e doc', format_steps py_format cfg doc = (Raise e, doc')).
  { unfold format_steps, mbind, M_bind.
    destruct (zoom geometry set_geometry (_apply_page_setup cfg) doc)
      as [[[]|e1] s1] eqn:E1; [|eauto].
    assert (Htree : tree s1 = tree doc).
    { unfold zoom in E1. destruct (_apply_page_setup cfg (geometry doc)).
      injection E1 as _ <-. reflexivity. }
    unfold zoom at 1. rewrite Htree.
    pose proof (apply_styles_cases cfg (tree doc)) as Hst.
    destruct (has_target_style (tree doc)).
    - destruct Hst as (e2 & d2 & ->). eauto.
    - rewrite Hst. simpl in Hcase.
      destruct (raises_zoom tree set_tree _ (insert_toc_raises py_format cfg Hcase)
                  (set_tree (tree doc) s1)) as (e3 & s3 & ->).
      eauto. }
  destruct Hraise as (e & doc' & ->). eauto.
Qed.

(** ** The download name *)

Section OutNameFacts.
Implicit Types (s t : string) (k : nat).

Lemma lower_length s : String.length (lower s) = String.length s.
Proof. induction s as [|c s IH]; [reflexivity|]. simpl. f_equal. exact IH. Qed.

Lemma lower_app s t : lower (s +:+ t) = lower s +:+ lower t.
Proof.
  induction s as [|c s IH]; [reflexivity|]. rewrite append_cons.
  change (lower (String c (s +:+ t))) with (String (lower_ascii c) (lower (s +:+ t))).
  rewrite IH. reflexivity.
Qed.

Lemma lower_drop k s : lower (str_drop k s) = str_drop k (lower s).
Proof.
  revert s; induction k as [|k IH]; intros s; [reflexivity|].
  destruct s as [|c s]; [reflexivity|]. apply IH.
Qed.

Lemma str_drop_app_exact s t : str_drop (String.length s) (s +:+ t) = t.
Proof. induction s as [|c s IH]; [reflexivity|]. rewrite append_cons. exact IH. Qed.

Lemma str_take_app_exact s t : str_take (String.length s) (s +:+ t) = s.
Proof.
  induction s as [|c s IH]; [destruct t; reflexivity|]. rewrite append_cons. simpl.
  f_equal. exact IH.
Qed.
End OutNameFacts.

(** Property X19.  The download name.  A name that ends in [.docx] in any
    letter case loses these five characters and gets
    [_FORMATTED.docx]; every other name gets [_FORMATTED.docx] appended. *)
Theorem out_name_spec :
  (forall base ext : string,
     lower ext = ".docx" -> out_name (base +:+ ext) = base +:+ "_FORMATTED.docx")
  /\ (forall in_name : string,
        (forall base ext, in_name = base +:+ ext -> lower ext <> ".docx") ->
        out_name in_name = in_name +:+ "_FORMATTED.docx").
Proof.
  split.
  - intros base ext Hext.
    assert (Hlen : String.length ext = 5)
      by (rewrite <- (lower_length ext), Hext; reflexivity).
    unfold out_name, endswith.
    rewrite lower_app, Hext, !append_length, lower_length, Hlen. cbn [String.length].
    replace (String.length base + 5 - 5) with (String.length base) by lia.
    rewrite <- (lower_length base) at 2. rewrite str_drop_app_exact.
    replace (5 <=? String.length base + 5)%nat with true
      by (symmetry; apply Nat.leb_le; lia).
    rewrite String.eqb_refl. cbn [andb]. rewrite str_take_app_exact. reflexivity.
  - intros in_name Hno. unfold out_name.
    destruct (endswith (lower in_name) ".docx") eqn:E; [exfalso|reflexivity].
    unfold endswith in E. apply andb_prop in E as [_ E]. apply String.eqb_eq in E.
    rewrite lower_length in E. cbn [String.length] in E. rewrite <- lower_drop in E.
    apply (Hno (str_take (String.length in_name - 5) in_name)
               (str_drop (String.length in_name - 5) in_name));
      [symmetry; apply str_take_drop | exact E].
Qed.

Lemma out_name_spec_witness :
  lower ".DocX" = ".docx"
  /\ out_name ("Report 2024" +:+ ".DocX") = "Report 2024" +:+ "_FORMATTED.docx".
Proof.
  split; [reflexivity|].
  apply (proj1 out_name_spec "Report 2024" ".DocX"). reflexivity.
Defined.



Lemma page_setup_all_sections_witness :
  exists margins,
    page_setup_values (pagesetup ReportConfig_default) = Ok ("11906", "16838", margins)
    /\ _apply_page_setup ReportConfig_default
         [{| pgSz := None; pgMar := None; titlePg := true |}]
       = (Ok tt, [with_geometry "11906" "16838" margins false
                    {| pgSz := None; pgMar := None; titlePg := true |}]).
Proof.
  destruct (page_setup_values (pagesetup ReportConfig_default)) as [[[w h] margins]|] eqn:E;
    [|vm_compute in E; discriminate].
  assert (Hw : w = "11906" /\ h = "16838")
    by (vm_compute in E; injection E as <- <- _; split; reflexivity).
  destruct Hw as [-> ->].
  exists margins. split; [reflexivity|].
  apply (proj1 (page_setup_all_sections ReportConfig_default "11906" "16838" margins E)).
Defined.

Lemma format_docx_bytes_raises_witness :
  has_target_style styled_document = true
  /\ exists e,
       format_docx_bytes (fun _ => "1-3")
         (fun _ => Ok {| tree := styled_document; geometry := [] |})
         (fun _ => "") ReportConfig_default "" = Raise e.
Proof.
  split; [vm_compute; reflexivity|].
  apply (format_docx_bytes_raises (fun _ => "1-3")
           (fun _ => Ok {| tree := styled_document; geometry := [] |})
           (fun _ => "") ReportConfig_default ""
           {| tree := styled_document; geometry := [] |} eq_refl).
  vm_compute. reflexivity.
Defined.

(** ** What the pipeline leaves alone *)

Lemma plain_body_of_view (d' d : Document) :
  set_body (map_paragraphs true plain_paragraph (body d')) d'
  = set_body (map_paragraphs true plain_paragraph (body d)) d ->
  plain_body d' = plain_body d.
Proof.
  intros H. unfold plain_body.
  pose proof (f_equal styles H) as Hs. cbn [styles set_body] in Hs.
  pose proof (f_equal body H) as Hb. cbn [body set_body] in Hb.
  rewrite Hs, Hb. reflexivity.
Qed.

Lemma preserves_plain_on_pf {A} (m : M ParagraphFormat A) :
  preserves plain_paragraph (on_pf m).
Proof. intros p. unfold on_pf, zoom. destruct (m (pf p)). reflexivity. Qed.

Lemma preserves_plain_for_each_run (m : M Run unit) :
  preserves (set_r_font Font_empty) m -> preserves plain_paragraph (for_each_run m).
Proof.
  intros Hm p. unfold plain_paragraph.
  rewrite (preserves_for_each_run m Hm p). reflexivity.
Qed.

(** Neither sweep touches a style definition or the plain body, whether
    it returns or raises. *)
Lemma sweeps_keep_plain_body (cfg : ReportConfig) (doc : Document) :
  plain_body (_force_paragraph_format cfg doc).2 = plain_body doc
  /\ plain_body (_force_run_font cfg doc).2 = plain_body doc.
Proof.
  split; apply plain_body_of_view; revert doc.
  - change (preserves (fun d => set_body (map_paragraphs true plain_paragraph (body d)) d)
              (_force_paragraph_format cfg)).
    unfold _force_paragraph_format.
    destruct (negb _); [apply preserves_ret|].
    apply preserves_bind; [apply preserves_mget|]. intros d.
    apply preserves_for_in. intros r.
    apply (preserves_on_pref plain_paragraph).
    unfold force_paragraph_format_at.
    apply preserves_bind; [apply preserves_mget|]. intros p.
    apply preserves_plain_on_pf.
  - change (preserves (fun d => set_body (map_paragraphs true plain_paragraph (body d)) d)
              (_force_run_font cfg)).
    unfold _force_run_font.
    destruct (negb _); [apply preserves_ret|].
    apply preserves_bind; [apply preserves_mget|]. intros d.
    apply preserves_for_in. intros r.
    apply (preserves_on_pref plain_paragraph).
    unfold force_run_font_at.
    apply preserves_bind; [apply preserves_mget|]. intros p.
    apply preserves_plain_for_each_run. unfold force_run_font_run.
    apply preserves_bind; [apply preserves_on_font|]. intros _.
    apply preserves_bind; [apply preserves_try_pass, preserves_on_font|]. intros _.
    apply preserves_bind; [apply preserves_lift|]. intros size.
    apply preserves_on_font.
Qed.

Lemma apply_page_numbers_plain (cfg : ReportConfig) (doc : Document) :
  plain_body (_apply_page_numbers cfg doc).2 = plain_body doc.
Proof.
  unfold _apply_page_numbers. destruct (negb _); [reflexivity|].
  unfold mbind, M_bind, mget, zoom.
  destruct (for_in _ _ (sections doc)) as [r secs]. reflexivity.
Qed.

(** Property X18.  When [format_docx_bytes] returns, what it
    saves has the style definitions of the input, and the body of the
    input up to paragraph formats and run fonts: the same blocks in the
    same order, the same paragraph styles, texts, fields and breaks. *)
Theorem format_docx_bytes_keeps_text
    (py_format : value -> string) (Document_open : string -> result Opened)
    (Document_save : Opened -> string)
    (cfg : ReportConfig) (input out : string) :
  format_docx_bytes py_format Document_open Document_save cfg input = Ok out ->
  exists doc doc',
    Document_open input = Ok doc /\ out = Document_save doc'
    /\ plain_body (tree doc') = plain_body (tree doc).
Proof.
  unfold format_docx_bytes. intros H.
  apply rbind_Ok_inv in H as (doc & Hopen & H).
  destruct (format_steps py_format cfg doc) as [[[]|e] doc'] eqn:Hsteps; [|discriminate].
  injection H as <-. exists doc, doc'. split; [exact Hopen|]. split; [reflexivity|].
  unfold format_steps in Hsteps.
  apply bind_Ok_inv in Hsteps as ([] & s1 & H1 & Hsteps).
  apply bind_Ok_inv in Hsteps as ([] & s2 & H2 & Hsteps).
  apply bind_Ok_inv in Hsteps as ([] & s3 & H3 & Hsteps).
  apply bind_Ok_inv in Hsteps as ([] & s4 & H4 & Hsteps).
  apply bind_Ok_inv in Hsteps as ([] & s5 & H5 & H6).
  assert (E1 : tree s1 = tree doc).
  { unfold zoom in H1. destruct (_apply_page_setup cfg (geometry doc)).
    injection H1 as _ <-. reflexivity. }
  assert (E2 : tree s2 = tree s1).
  { unfold zoom in H2. pose proof (apply_styles_cases cfg (tree s1)) as Hst.
    destruct (has_target_style (tree s1)).
    - destruct Hst as (e & d & Hst). rewrite Hst in H2. discriminate.
    - rewrite Hst in H2. injection H2 as <-. reflexivity. }
  assert (E3 : tree s3 = tree s2).
  { unfold zoom in H3. unfold _insert_toc_if_needed in H3.
    destruct (truthy (insert_toc (toc cfg))) eqn:Et.
    - destruct (raises_zoom tree set_tree _ (insert_toc_raises py_format cfg Et) s2)
        as (e & s' & Hr).
      unfold zoom, _insert_toc_if_needed in Hr. rewrite Et in Hr.
      rewrite Hr in H3. discriminate.
    - cbn [negb] in H3. injection H3 as <-. reflexivity. }
  assert (E4 : plain_body (tree s4) = plain_body (tree s3)).
  { unfold zoom in H4. pose proof (apply_page_numbers_plain cfg (tree s3)) as Hp.
    destruct (_apply_page_numbers cfg (tree s3)). injection H4 as _ <-. exact Hp. }
  assert (E5 : plain_body (tree s5) = plain_body (tree s4)).
  { unfold zoom in H5. pose proof (proj1 (sweeps_keep_plain_body cfg (tree s4))) as Hp.
    destruct (_force_paragraph_format cfg (tree s4)). injection H5 as _ <-. exact Hp. }
  assert (E6 : plain_body (tree doc') = plain_body (tree s5)).
  { unfold zoom in H6. pose proof (proj2 (sweeps_keep_plain_body cfg (tree s5))) as Hp.
    destruct (_force_run_font cfg (tree s5)). injection H6 as _ <-. exact Hp. }
  rewrite E6, E5, E4, E3, E2, E1. reflexivity.
Qed.

Lemma format_docx_bytes_keeps_text_witness :
  exists out doc',
    format_docx_bytes (fun _ => "1-3")
      (fun _ => Ok {| tree := sample_document;
                      geometry := [{| pgSz := None; pgMar := None; titlePg := false |}] |})
      (fun _ => "saved") ReportConfig_default "" = Ok out
    /\ plain_body (tree doc') = plain_body sample_document.
Proof.
  set (open := fun _ : string =>
         Ok {| tree := sample_document;
               geometry := [{| pgSz := None; pgMar := None; titlePg := false |}] |}).
  assert (Hrun : format_docx_bytes (fun _ => "1-3") open (fun _ => "saved")
                   ReportConfig_default "" = Ok "saved") by (vm_compute; reflexivity).
  destruct (format_docx_bytes_keeps_text (fun _ => "1-3") open (fun _ => "saved")
              ReportConfig_default "" "saved" Hrun)
    as (doc & doc' & Hopen & _ & Hplain).
  injection Hopen as <-.
  exists "saved", doc'. split; [exact Hrun | exact Hplain].
Defined.



(** ** When the pipeline returns *)


